(** * SAR narrative pipeline: statistics, pattern detection, risk scoring,
      typology classification, narrative composition and audit ledger

    A shallow embedding of the Python sources

      - [src/models/case_input.py]            (module [CaseModel])
      - [src/utils/anonymization.py]          (module [Anonymization])
      - [src/components/data_parser.py]       (module [DataParser])
      - [src/components/rag_engine.py]        (module [RAGEngine])
      - [src/components/llm_orchestrator.py]  (module [LLMOrchestrator])
      - [src/utils/db_utils.py]               (modules [DatabaseManager],
                                               [CaseStore])
      - [src/components/audit_logger.py]      (module [AuditLogger])
      - [src/main.py]                         (module [SARGenerator])
      - [src/agents/a2a_agents.py]            (module [A2A])

    followed by the properties of the pipeline.

    Conventions.
      - A Python [float] is a binary64 value: Rocq's primitive [float], whose
        operations are the IEEE 754 ones.  Python raises [ZeroDivisionError]
        where IEEE 754 returns an infinity or a NaN; division is therefore a
        fallible operation ([Py.truediv]).
      - A Python [int] is a [Z]; a length or a count is a [nat].
      - A Python [str] is a [string].  The operations of the Python library
        whose result depends on Unicode tables, on the calendar, on a digest
        or on number formatting are fields of interface classes ([Py.Text],
        [Py.Format], [Py.Calendar], [Py.Digest], [LLMOrchestrator.Json]);
        the theorems hold for every implementation of them.  Module
        [Reference] implements them for ASCII text, so that every
        definition can be run.
      - A raised exception is the [Raise] case of [Py.result]. *)

From Stdlib Require Import ZArith QArith Floats Uint63 String Ascii List Lia.
From Stdlib Require Import DecimalString.
From stdpp Require Import base option list gmap strings sorting.

Local Open Scope string_scope.
Local Open Scope list_scope.
Local Open Scope stdpp_scope.
Local Open Scope Z_scope.

(* ===================================================================== *)
(** * The Python runtime                                                  *)
(* ===================================================================== *)

Module Py.

(** ** Exceptions *)

Inductive exn : Type :=
| ValidationError (errors : list string)   (* pydantic: every failed field *)
| ZeroDivisionError
| ValueError (msg : string)
| KeyError (key : string)
| RuntimeError (msg : string).

Inductive result (A : Type) : Type :=
| Ok (a : A)
| Raise (e : exn).
Arguments Ok {A} a.
Arguments Raise {A} e.

#[global] Instance result_ret : MRet result := fun A a => Ok a.
#[global] Instance result_bind : MBind result := fun A B f m =>
  match m with
  | Ok a => f a
  | Raise e => Raise e
  end.

Definition returns {A : Type} (m : result A) : Prop := exists a, m = Ok a.

(** ** Numbers *)

(** [float(n)] for a length [n]. *)
Definition float_of_nat (n : nat) : float :=
  PrimFloat.of_uint63 (Uint63.of_Z (Z.of_nat n)).

(** [float(z)] for an [int] of magnitude below [2^63]. *)
Definition float_of_Z (z : Z) : float :=
  if Z.ltb z 0 then PrimFloat.opp (PrimFloat.of_uint63 (Uint63.of_Z (- z)))
  else PrimFloat.of_uint63 (Uint63.of_Z z).

(** [a > b], [a >= b] on floats ([a < b] is [PrimFloat.ltb a b]). *)
Definition gtb (a b : float) : bool := PrimFloat.ltb b a.
Definition geb (a b : float) : bool := PrimFloat.leb b a.

(** [math.isnan(v) or math.isinf(v)] *)
Definition nan_or_inf (v : float) : bool :=
  PrimFloat.is_nan v || PrimFloat.is_infinity v.

(** [a / b]: Python raises on a zero divisor. *)
Definition truediv (a b : float) : result float :=
  if PrimFloat.eqb b 0%float then Raise ZeroDivisionError
  else Ok (PrimFloat.div a b).

(** [a / n] for an [int] [n] that is a length. *)
Definition truediv_nat (a : float) (n : nat) : result float :=
  match n with
  | O => Raise ZeroDivisionError
  | S _ => Ok (PrimFloat.div a (float_of_nat n))
  end.

(** The built-in [sum] over floats: left to right from the integer [0],
    each addition rounded.  (From CPython 3.12 on the built-in carries a
    compensation term along; the properties below do not depend on which
    of the two is run.) *)
Definition sum (l : list float) : float :=
  fold_left PrimFloat.add l 0%float.

(** The built-ins [min(a, b)] and [max(a, b)]: the first argument is kept
    unless the second compares strictly below (above) it. *)
Definition min2 (a b : float) : float := if PrimFloat.ltb b a then b else a.
Definition max2 (a b : float) : float := if gtb b a then b else a.

(** [min(l)] and [max(l)] over a list: [ValueError] on the empty list. *)
Definition min_list (l : list float) : result float :=
  match l with
  | [] => Raise (ValueError "min() arg is an empty sequence")
  | x :: l' => Ok (fold_left min2 l' x)
  end.
Definition max_list (l : list float) : result float :=
  match l with
  | [] => Raise (ValueError "max() arg is an empty sequence")
  | x :: l' => Ok (fold_left max2 l' x)
  end.
Definition min_listZ (l : list Z) : result Z :=
  match l with
  | [] => Raise (ValueError "min() arg is an empty sequence")
  | x :: l' => Ok (fold_left Z.min l' x)
  end.
Definition max_listZ (l : list Z) : result Z :=
  match l with
  | [] => Raise (ValueError "max() arg is an empty sequence")
  | x :: l' => Ok (fold_left Z.max l' x)
  end.

(** [a % k == 0] for a positive integer constant [k] and a float [a > 0].
    Python's float [%] is C's [fmod] followed by a sign adjustment that
    leaves a zero remainder zero, and [fmod] is exact: the remainder is
    zero exactly when the real value of [a] is an integer multiple of
    [k].  An infinity gives NaN, which is not equal to [0]. *)
Definition mod_is_zero (a : float) (k : Z) : bool :=
  match Prim2SF a with
  | S754_zero _ => true
  | S754_finite _ m (Zneg p) =>
      Z.eqb (Zpos m mod 2 ^ Zpos p) 0 && Z.eqb ((Zpos m / 2 ^ Zpos p) mod k) 0
  | S754_finite _ m e => Z.eqb ((Zpos m * 2 ^ e) mod k) 0
  | _ => false
  end.

(** The real value of a float, as a rational ([0] for NaN and the
    infinities, which have none). *)
Definition to_Q (a : float) : Q :=
  match Prim2SF a with
  | S754_finite s m (Zneg p) => Qmake (if s then Zneg m else Zpos m) (2 ^ p)
  | S754_finite s m e => inject_Z ((if s then Zneg m else Zpos m) * 2 ^ e)
  | _ => 0%Q
  end.

Definition sumQ (l : list Q) : Q := fold_right Qplus 0%Q l.

(** ** Strings *)

(** [str(n)] for a non-negative [int]. *)
Definition str_of_nat (n : nat) : string :=
  NilZero.string_of_uint (Nat.to_uint n).

(** [sep.join(l)] *)
Fixpoint join (sep : string) (l : list string) : string :=
  match l with
  | [] => ""
  | [x] => x
  | x :: l' => x ++ sep ++ join sep l'
  end.

(** [kw in s]: [kw] occurs in [s] as a substring. *)
Fixpoint contains (kw s : string) : bool :=
  String.prefix kw s ||
  match s with
  | EmptyString => false
  | String _ s' => contains kw s'
  end.

(** [s[i:j]] for [0 <= i <= j]. *)
Definition slice (s : string) (i j : nat) : string :=
  String.substring i (j - i) s.

(** [s[:n]] and [s[n:]] *)
Definition take (n : nat) (s : string) : string := String.substring 0 n s.
Definition from (n : nat) (s : string) : string :=
  String.substring n (String.length s - n) s.

(** [s.replace(old, new)] for one-character [old] and [new]. *)
Fixpoint replace (old new : ascii) (s : string) : string :=
  match s with
  | EmptyString => EmptyString
  | String c s' =>
      String (if Ascii.eqb c old then new else c) (replace old new s')
  end.

(** ** Objects stored in dictionaries *)

#[warnings="-register-all"]
Inductive value : Type :=
| VNone
| VBool (b : bool)
| VInt (z : Z)
| VFloat (x : float)
| VStr (s : string)
| VList (l : list value)
| VDict (d : list (string * value)).

Definition dict : Type := list (string * value).

Definition VNat (n : nat) : value := VInt (Z.of_nat n).
Definition VStrs (l : list string) : value := VList (List.map VStr l).

(** [d.get(key, default)] *)
Fixpoint dict_get (d : dict) (key : string) (dflt : value) : value :=
  match d with
  | [] => dflt
  | (k, v) :: d' => if String.eqb k key then v else dict_get d' key dflt
  end.

(** [list(d.keys())] *)
Definition dict_keys (d : dict) : list string := List.map fst d.

(** ** Library interfaces *)

(** A pattern of module [re], restricted to the shape the sources use:
    literal words separated by [\s*]. *)
Inductive re_token : Type :=
| Lit (w : string)
| Spaces.
Definition regex : Type := list re_token.

Class Text : Type := {
  (** [s.strip()] *)
  strip : string -> string;
  (** [s.lower()] *)
  lower : string -> string;
  (** [s.upper()] *)
  upper : string -> string;
  (** [re.search(p, s, re.IGNORECASE)]: the [(start, end)] of the leftmost
      match, [None] without one. *)
  re_search : regex -> string -> option (nat * nat);
}.

Class Format : Type := {
  (** [f"{x:.1f}"] *)
  fmt_1f : float -> string;
  (** [f"{x:,.2f}"] *)
  fmt_c2f : float -> string;
}.

(** A [datetime] obtained from a date-only format is a day: its proleptic
    Gregorian ordinal. *)
Class Calendar : Type := {
  (** [datetime.strptime(s, "%Y-%m-%d")], [None] for [ValueError] *)
  strptime_ymd : string -> option Z;
  (** [datetime.strptime(s, "%d-%m-%Y")], [None] for [ValueError] *)
  strptime_dmy : string -> option Z;
  (** [d.strftime("%Y-%m-%d")] *)
  strftime_ymd : Z -> string;
}.

Class Digest : Type := {
  (** [hashlib.md5(s.encode()).hexdigest()] *)
  md5_hexdigest : string -> string;
}.

End Py.

Import Py.

(* ===================================================================== *)
(** * [src/models/case_input.py]                                          *)
(* ===================================================================== *)

Module CaseModel.

Record Transaction : Type := {
  date : string;
  amount : float;
  currency : string;
  type : string;
  originator : string;
  beneficiary : string;
  description : string;
}.

Record CustomerInfo : Type := {
  name : string;
  account_number : string;
  kyc_risk_rating : string;
  occupation : string;
  account_open_date : string;
  expected_monthly_volume : float;
  declared_income : float;
  address : string;
  pan_number : string;
}.

Record CaseInput : Type := {
  case_id : string;
  customer : CustomerInfo;
  transactions : list Transaction;
  alert_reason : string;
  investigation_notes : string;
  alert_date : string;
  assigned_analyst : string;
}.

(** The messages a failed validator contributes to pydantic's
    [ValidationError]. *)
Definition errors_of {A : Type} (r : result A) : list string :=
  match r with
  | Ok _ => []
  | Raise (ValidationError errs) => errs
  | Raise (ValueError msg) => [msg]
  | Raise _ => ["error"]
  end.

Definition amount_must_be_finite (v : float) : result float :=
  if PrimFloat.is_nan v || PrimFloat.is_infinity v
  then Raise (ValueError "Transaction amount must be a finite number")
  else Ok v.

Section Validators.
Context `{!Text}.

(** The shape shared by the string validators:
    [if not v or not v.strip(): raise ValueError(msg)] then
    [return v.strip()]. *)
Definition must_not_be_empty (msg : string) (v : string) : result string :=
  if String.eqb v "" || String.eqb (strip v) ""
  then Raise (ValueError msg)
  else Ok (strip v).

Definition date_must_not_be_empty : string -> result string :=
  must_not_be_empty "Transaction date cannot be empty".
Definition name_must_not_be_empty : string -> result string :=
  must_not_be_empty "Customer name cannot be empty".
Definition account_must_not_be_empty : string -> result string :=
  must_not_be_empty "Account number cannot be empty".
Definition case_id_must_not_be_empty : string -> result string :=
  must_not_be_empty "Case ID cannot be empty".
Definition alert_reason_must_not_be_empty : string -> result string :=
  must_not_be_empty "Alert reason cannot be empty".

Definition transactions_must_not_be_empty
    (v : list Transaction) : result (list Transaction) :=
  match v with
  | [] => Raise (ValueError "Transactions list cannot be empty")
  | _ => Ok v
  end.

(** the constructor [Transaction]: every field validator runs, and the failures
    are raised together. *)
Definition new_Transaction (raw : Transaction) : result Transaction :=
  match date_must_not_be_empty (date raw),
        amount_must_be_finite (amount raw) with
  | Ok d, Ok a =>
      Ok {| date := d; amount := a; currency := currency raw;
            type := type raw; originator := originator raw;
            beneficiary := beneficiary raw;
            description := description raw |}
  | rd, ra => Raise (ValidationError (errors_of rd ++ errors_of ra))
  end.

(** The constructor [CustomerInfo]. *)
Definition new_CustomerInfo (raw : CustomerInfo) : result CustomerInfo :=
  match name_must_not_be_empty (name raw),
        account_must_not_be_empty (account_number raw) with
  | Ok n, Ok a =>
      Ok {| name := n; account_number := a;
            kyc_risk_rating := kyc_risk_rating raw;
            occupation := occupation raw;
            account_open_date := account_open_date raw;
            expected_monthly_volume := expected_monthly_volume raw;
            declared_income := declared_income raw;
            address := address raw; pan_number := pan_number raw |}
  | rn, ra => Raise (ValidationError (errors_of rn ++ errors_of ra))
  end.

(** The [List[Transaction]] field: each item is built, then the field
    validator runs on the built list. *)
Fixpoint new_Transactions
    (raws : list Transaction) : list Transaction * list string :=
  match raws with
  | [] => ([], [])
  | raw :: raws' =>
      let '(ts, errs) := new_Transactions raws' in
      match new_Transaction raw with
      | Ok t => (t :: ts, errs)
      | r => (ts, errors_of r ++ errs)
      end
  end.

Definition transactions_field
    (raws : list Transaction) : result (list Transaction) :=
  match new_Transactions raws with
  | (ts, []) => transactions_must_not_be_empty ts
  | (_, errs) => Raise (ValidationError errs)
  end.

(** The constructor [CaseInput]. *)
Definition new_CaseInput (raw : CaseInput) : result CaseInput :=
  match case_id_must_not_be_empty (case_id raw),
        new_CustomerInfo (customer raw),
        transactions_field (transactions raw),
        alert_reason_must_not_be_empty (alert_reason raw) with
  | Ok i, Ok c, Ok ts, Ok r =>
      Ok {| case_id := i; customer := c; transactions := ts;
            alert_reason := r;
            investigation_notes := investigation_notes raw;
            alert_date := alert_date raw;
            assigned_analyst := assigned_analyst raw |}
  | ri, rc, rts, rr =>
      Raise (ValidationError
               (errors_of ri ++ errors_of rc ++ errors_of rts ++ errors_of rr))
  end.

End Validators.

End CaseModel.

Import CaseModel.

(* ===================================================================== *)
(** * [src/utils/anonymization.py]                                        *)
(* ===================================================================== *)

Module Anonymization.
Section WithLibrary.
Context `{!Text, !Digest}.

Definition anonymize_value (value : string) (prefix : string) : string :=
  let h := upper (Py.take 6 (md5_hexdigest value)) in
  "[" ++ prefix ++ "-" ++ h ++ "]".

Definition anonymize_txn (txn : Transaction) : result Transaction :=
  new_Transaction
    {| date := date txn; amount := amount txn; currency := currency txn;
       type := type txn;
       originator := anonymize_value (originator txn) "ORIG";
       beneficiary := anonymize_value (beneficiary txn) "BENF";
       description := description txn |}.

(** The loop building [anon_transactions]: the first failing
    construction propagates. *)
Fixpoint anonymize_txns (txns : list Transaction) : result (list Transaction) :=
  match txns with
  | [] => Ok []
  | txn :: txns' =>
      t ← anonymize_txn txn;
      ts ← anonymize_txns txns';
      mret (t :: ts)
  end.

Definition anonymize_case (case : CaseInput) : result CaseInput :=
  let c := customer case in
  anon_customer ← new_CustomerInfo
    {| name := anonymize_value (name c) "NAME";
       account_number := anonymize_value (account_number c) "ACCT";
       kyc_risk_rating := kyc_risk_rating c;
       occupation := occupation c;
       account_open_date := account_open_date c;
       expected_monthly_volume := expected_monthly_volume c;
       declared_income := declared_income c;
       address := if String.eqb (address c) "" then ""
                  else anonymize_value (address c) "ADDR";
       pan_number := if String.eqb (pan_number c) "" then ""
                     else anonymize_value (pan_number c) "PAN" |};
  anon_transactions ← anonymize_txns (transactions case);
  new_CaseInput
    {| case_id := case_id case; customer := anon_customer;
       transactions := anon_transactions;
       alert_reason := alert_reason case;
       investigation_notes := investigation_notes case;
       alert_date := alert_date case;
       assigned_analyst := assigned_analyst case |}.

End WithLibrary.
End Anonymization.

(* ===================================================================== *)
(** * [src/components/data_parser.py]                                     *)
(* ===================================================================== *)

Module DataParser.

(** The object: [DataParser(anonymize)]. *)
Record t : Type := { anonymize : bool }.

(** The dictionary returned by [calculate_transaction_stats], one field
    per key.  The integer [0] that Python's [sum] returns for an empty
    sequence is the float [0]. *)
Record Stats : Type := {
  total_transactions : nat;
  total_volume : float;
  total_credits : float;
  total_debits : float;
  credit_count : nat;
  debit_count : nat;
  avg_amount : float;
  max_amount : float;
  min_amount : float;
  date_range_start : string;
  date_range_end : string;
  date_range_days : Z;
  transaction_types : list (string * nat);
  stats_currency : string;
  unique_originators : nat;
  unique_beneficiaries : nat;
}.

(** The record returned for an empty transaction list. *)
Definition empty_stats : Stats :=
  {| total_transactions := 0;
     total_volume := 0%float;
     total_credits := 0%float;
     total_debits := 0%float;
     credit_count := 0;
     debit_count := 0;
     avg_amount := 0%float;
     max_amount := 0%float;
     min_amount := 0%float;
     date_range_start := "N/A";
     date_range_end := "N/A";
     date_range_days := 0;
     transaction_types := [];
     stats_currency := "INR";
     unique_originators := 0;
     unique_beneficiaries := 0 |}.

Definition is_credit (t : Transaction) : bool := gtb (amount t) 0%float.
Definition is_debit (t : Transaction) : bool := PrimFloat.ltb (amount t) 0%float.

(** [credits = [t for t in transactions if t.amount > 0]] *)
Definition credits (transactions : list Transaction) : list Transaction :=
  List.filter is_credit transactions.
(** [debits = [t for t in transactions if t.amount < 0]] *)
Definition debits (transactions : list Transaction) : list Transaction :=
  List.filter is_debit transactions.
(** [abs_amounts = [abs(a) for a in amounts]] *)
Definition abs_amounts (transactions : list Transaction) : list float :=
  List.map (fun t => PrimFloat.abs (amount t)) transactions.

(** [Counter(t.type for t in transactions)], then [dict(...)]: the keys
    in the order of their first occurrence. *)
Fixpoint count_type (ty : string) (m : list (string * nat)) : list (string * nat) :=
  match m with
  | [] => [(ty, 1%nat)]
  | (k, n) :: m' =>
      if String.eqb ty k then (k, S n) :: m' else (k, n) :: count_type ty m'
  end.

Definition count_types (transactions : list Transaction) : list (string * nat) :=
  fold_left (fun m t => count_type (type t) m) transactions [].

(** [len(set(l))] *)
Definition count_unique (l : list string) : nat :=
  size (list_to_set l : gset string).

Section Statistics.
Context `{!Calendar}.

(** The body of the loop filling [dates]: the first format, then the
    second, else the date is left out. *)
Definition parse_date (s : string) : option Z :=
  match strptime_ymd s with
  | Some d => Some d
  | None => strptime_dmy s
  end.

Definition parsed_dates (transactions : list Transaction) : list Z :=
  omap (fun t => parse_date (date t)) transactions.

Definition calculate_transaction_stats
    (transactions : list Transaction) : result Stats :=
  match transactions with
  | [] => Ok empty_stats
  | first :: _ =>
      let amounts := List.map amount transactions in
      let dates := parsed_dates transactions in
      date_range_start ←
        match dates with
        | [] => Ok "N/A"
        | _ => d ← min_listZ dates; mret (strftime_ymd d)
        end;
      date_range_end ←
        match dates with
        | [] => Ok "N/A"
        | _ => d ← max_listZ dates; mret (strftime_ymd d)
        end;
      date_range_days ←
        (if (1 <? length dates)%nat
         then hi ← max_listZ dates; lo ← min_listZ dates; mret (hi - lo + 1)
         else Ok 1);
      let total_volume := Py.sum (abs_amounts transactions) in
      avg ←
        (if (0 <? length amounts)%nat
         then truediv_nat total_volume (length amounts)
         else Ok 0%float);
      hi_amount ←
        match abs_amounts transactions with
        | [] => Ok 0%float
        | l => max_list l
        end;
      lo_amount ←
        match abs_amounts transactions with
        | [] => Ok 0%float
        | l => min_list l
        end;
      mret
        {| total_transactions := length transactions;
           total_volume := total_volume;
           total_credits := Py.sum (List.map amount (credits transactions));
           total_debits :=
             Py.sum (List.map (fun t => PrimFloat.abs (amount t))
                              (debits transactions));
           credit_count := length (credits transactions);
           debit_count := length (debits transactions);
           avg_amount := avg;
           max_amount := hi_amount;
           min_amount := lo_amount;
           date_range_start := date_range_start;
           date_range_end := date_range_end;
           date_range_days := date_range_days;
           transaction_types := count_types transactions;
           stats_currency := currency first;
           unique_originators :=
             count_unique (List.map originator transactions);
           unique_beneficiaries :=
             count_unique (List.map beneficiary transactions) |}
  end.

End Statistics.

(** ** Pattern detection *)

(** What a finding reports; [describe] below gives its text. *)
Inductive Finding : Type :=
| Structuring (n : nat)
| VolumeSpike (ratio : float)
| RapidMovement (day : string)
| SmallDeposits (n : nat)
| IncomeMismatch (income_ratio : float)
| MultipleOriginators (originators : nat) (days : Z)
| RoundNumbers (n : nat)
| LargeTransaction (cur : string) (abs_amount : float) (day : string)
| HighRiskTypes (n : nat) (types_found : list string).

(** [threshold = 1000000]; an [int] compares with a float by value. *)
Definition threshold : float := 1000000%float.
(** The literal [0.8]: the binary64 value nearest to it. *)
Definition point_eight : float := 0x1.999999999999ap-1%float.

(** [0 < t.amount < threshold and t.amount > threshold * 0.8] *)
Definition near_threshold_test (t : Transaction) : bool :=
  PrimFloat.ltb 0%float (amount t) && PrimFloat.ltb (amount t) threshold
  && gtb (amount t) (PrimFloat.mul threshold point_eight).

Definition near_threshold (transactions : list Transaction) : list Transaction :=
  List.filter near_threshold_test transactions.

(** Pattern 1 *)
Definition pattern_structuring (transactions : list Transaction) : list Finding :=
  if (3 <=? length (near_threshold transactions))%nat
  then [Structuring (length (near_threshold transactions))]
  else [].

(** Patterns 2 and 5 share their shape:
    [if base > 0 and total_volume > 0: ratio = total_volume / base;
     if ratio > limit: append]. *)
Definition ratio_pattern (mk : float -> Finding) (limit : float)
    (base total_volume : float) : result (list Finding) :=
  if gtb base 0%float && gtb total_volume 0%float then
    ratio ← truediv total_volume base;
    mret (if gtb ratio limit then [mk ratio] else [])
  else Ok [].

(** Pattern 2 *)
Definition pattern_volume_spike (case : CaseInput) (stats : Stats)
    : result (list Finding) :=
  ratio_pattern VolumeSpike 3%float
    (expected_monthly_volume (customer case)) (total_volume stats).

(** Pattern 3: the dictionary [dates_amounts], in insertion order. *)
Record DayTotals : Type := { day_credits : float; day_debits : float }.

Definition add_to_day (t : Transaction) (v : DayTotals) : DayTotals :=
  if gtb (amount t) 0%float
  then {| day_credits := PrimFloat.add (day_credits v) (amount t);
          day_debits := day_debits v |}
  else {| day_credits := day_credits v;
          day_debits := PrimFloat.add (day_debits v) (PrimFloat.abs (amount t)) |}.

Fixpoint record_day (t : Transaction) (m : list (string * DayTotals))
    : list (string * DayTotals) :=
  match m with
  | [] => [(date t, add_to_day t {| day_credits := 0%float; day_debits := 0%float |})]
  | (d, v) :: m' =>
      if String.eqb (date t) d then (d, add_to_day t v) :: m'
      else (d, v) :: record_day t m'
  end.

Definition dates_amounts (transactions : list Transaction)
    : list (string * DayTotals) :=
  fold_left (fun m t => record_day t m) transactions [].

Definition pattern_rapid_movement (transactions : list Transaction) : list Finding :=
  List.map (fun dv => RapidMovement (fst dv))
    (List.filter
       (fun dv => gtb (day_credits (snd dv)) 0%float
                  && gtb (day_debits (snd dv)) 0%float)
       (dates_amounts transactions)).

(** Pattern 4 *)
Definition small_deposits (transactions : list Transaction) : list Transaction :=
  List.filter
    (fun t => PrimFloat.ltb 0%float (amount t)
              && PrimFloat.ltb (amount t) 200000%float)
    transactions.

Definition pattern_small_deposits (transactions : list Transaction) : list Finding :=
  if (5 <=? length (small_deposits transactions))%nat
  then [SmallDeposits (length (small_deposits transactions))]
  else [].

(** Pattern 5 *)
Definition pattern_income_mismatch (case : CaseInput) (stats : Stats)
    : result (list Finding) :=
  ratio_pattern IncomeMismatch 2%float
    (declared_income (customer case)) (total_volume stats).

(** Pattern 6 *)
Definition pattern_originators (stats : Stats) : list Finding :=
  if (10 <? unique_originators stats)%nat
  then [MultipleOriginators (unique_originators stats) (date_range_days stats)]
  else [].

(** Pattern 7 *)
Definition round_txns (transactions : list Transaction) : list Transaction :=
  List.filter
    (fun t => gtb (amount t) 0%float && mod_is_zero (amount t) 10000)
    transactions.

Definition pattern_round_numbers (transactions : list Transaction) : list Finding :=
  if (3 <=? length (round_txns transactions))%nat
  then [RoundNumbers (length (round_txns transactions))]
  else [].

(** Pattern 8: one finding per qualifying transaction. *)
Definition pattern_large (transactions : list Transaction) : list Finding :=
  List.map
    (fun t => LargeTransaction (currency t) (PrimFloat.abs (amount t)) (date t))
    (List.filter (fun t => geb (PrimFloat.abs (amount t)) 5000000%float)
                 transactions).

(** Pattern 9.  [set(t.type for t in hr_txns)] is iterated in an order
    Python leaves open; the distinct types are listed here once each, in
    the order of their last occurrence. *)
Definition high_risk_types : list string := ["SWIFT"; "Wire Transfer"; "Hawala"].

Definition hr_txns (transactions : list Transaction) : list Transaction :=
  List.filter (fun t => bool_decide (type t ∈ high_risk_types)) transactions.

Definition pattern_high_risk (transactions : list Transaction) : list Finding :=
  match hr_txns transactions with
  | [] => []
  | hr => [HighRiskTypes (length hr) (remove_dups (List.map type hr))]
  end.

Definition pattern_findings (case : CaseInput) (stats : Stats)
    : result (list Finding) :=
  match transactions case with
  | [] => Ok []
  | txns =>
      spike ← pattern_volume_spike case stats;
      income ← pattern_income_mismatch case stats;
      mret (pattern_structuring txns
            ++ spike
            ++ pattern_rapid_movement txns
            ++ pattern_small_deposits txns
            ++ income
            ++ pattern_originators stats
            ++ pattern_round_numbers txns
            ++ pattern_large txns
            ++ pattern_high_risk txns)
  end.

Section Describe.
Context `{!Format}.

(** The f-string of each [patterns.append]. *)
Definition describe (f : Finding) : string :=
  match f with
  | Structuring n =>
      "Structuring: " ++ str_of_nat n ++ " transactions just below "
      ++ "INR 1,000,000 reporting threshold"
  | VolumeSpike ratio =>
      "Volume spike: " ++ fmt_1f ratio ++ "x above expected monthly volume"
  | RapidMovement day =>
      "Rapid movement: Credits and debits on same day (" ++ day ++ ")"
  | SmallDeposits n =>
      "Multiple small deposits: " ++ str_of_nat n
      ++ " deposits under INR 2,00,000"
  | IncomeMismatch income_ratio =>
      "Income mismatch: Transaction volume " ++ fmt_1f income_ratio ++ "x "
      ++ "declared annual income"
  | MultipleOriginators originators days =>
      "Multiple originators: " ++ str_of_nat originators
      ++ " unique sources in " ++ NilZero.string_of_int (Z.to_int days)
      ++ " days"
  | RoundNumbers n =>
      "Round-number transactions: " ++ str_of_nat n ++ " transactions "
      ++ "in exact round amounts"
  | LargeTransaction cur abs_amount day =>
      "Large transaction: " ++ cur ++ " " ++ fmt_c2f abs_amount
      ++ " on " ++ day
  | HighRiskTypes n types_found =>
      "High-risk transfer types: " ++ str_of_nat n ++ " "
      ++ join ", " types_found ++ " transactions"
  end.

Definition identify_patterns (case : CaseInput) (stats : Stats)
    : result (list string) :=
  findings ← pattern_findings case stats;
  mret (List.map describe findings).

End Describe.

(** ** Risk score *)

(** [risk_map.get(rating, 5)] *)
Definition risk_map_get (rating : string) : Z :=
  if String.eqb rating "High" then 15
  else if String.eqb rating "Medium" then 5
  else if String.eqb rating "Low" then 0
  else 5.

(** The volume-deviation term. *)
Definition volume_term (expected total_volume : float) : result Z :=
  if gtb expected 0%float && gtb total_volume 0%float then
    ratio ← truediv total_volume expected;
    mret (if gtb ratio 10%float then 25
          else if gtb ratio 5%float then 15
          else if gtb ratio 3%float then 10
          else 0)
  else Ok 0.

(** The counterparty term. *)
Definition originators_term (originators : nat) : Z :=
  if (20 <? originators)%nat then 10
  else if (10 <? originators)%nat then 5
  else 0.

Definition calculate_risk_score (patterns : list string) (stats : Stats)
    (case : CaseInput) : result Z :=
  let score := 0 in
  let score := score + Z.min (Z.of_nat (length patterns) * 10) 40 in
  v ← volume_term (expected_monthly_volume (customer case)) (total_volume stats);
  let score := score + v in
  let score := score + risk_map_get (kyc_risk_rating (customer case)) in
  let score := score + originators_term (unique_originators stats) in
  mret (Z.min score 100).

(** [sum(...)] as a value of the dictionary: [sum] of no item is the
    integer [0], so the credits or the debits of a non-empty list add up
    to it when there is none; the record of the empty list holds [0.0]. *)
Definition sum_value (total_transactions count : nat) (total : float) : value :=
  if (0 <? total_transactions)%nat && (count =? 0)%nat then VInt 0
  else VFloat total.

(** The statistics as the dictionary they are. *)
Definition as_dict (stats : Stats) : dict :=
  [ ("total_transactions", VNat (total_transactions stats));
    ("total_volume", VFloat (total_volume stats));
    ("total_credits",
     sum_value (total_transactions stats) (credit_count stats) (total_credits stats));
    ("total_debits",
     sum_value (total_transactions stats) (debit_count stats) (total_debits stats));
    ("credit_count", VNat (credit_count stats));
    ("debit_count", VNat (debit_count stats));
    ("avg_amount", VFloat (avg_amount stats));
    ("max_amount", VFloat (max_amount stats));
    ("min_amount", VFloat (min_amount stats));
    ("date_range_start", VStr (date_range_start stats));
    ("date_range_end", VStr (date_range_end stats));
    ("date_range_days", VInt (date_range_days stats));
    ("transaction_types",
     VDict (List.map (fun kv => (fst kv, VNat (snd kv))) (transaction_types stats)));
    ("currency", VStr (stats_currency stats));
    ("unique_originators", VNat (unique_originators stats));
    ("unique_beneficiaries", VNat (unique_beneficiaries stats)) ].

Section Parse.
Context `{!Text, !Digest}.

Definition parse_case_input (self : t) (raw_json : CaseInput) : result CaseInput :=
  case ← new_CaseInput raw_json;
  if anonymize self then Anonymization.anonymize_case case
  else mret case.

End Parse.

End DataParser.

(* ===================================================================== *)
(** * [src/components/rag_engine.py]                                      *)
(* ===================================================================== *)

Module RAGEngine.

(** One document returned by [collection.query], with its row of the
    [ids], [documents], [metadatas] and [distances] tables; the distance
    is absent when the store returns no [distances]. *)
Record Hit : Type := {
  hit_id : string;
  hit_document : string;
  hit_metadata : gmap string string;
  hit_distance : option float;
}.

(** An entry of [data/regulatory/typology_descriptions.json]. *)
Record TypologyData : Type := {
  ty_name : string;
  ty_description : string;
  ty_indicators : list string;
  ty_pmla_reference : string;
  ty_rbi_reference : string;
}.

(** The engine: its similarity store, queried by text, number of results
    and [where={"type": ...}] filter, and the regulatory file ([None] when
    the file does not exist). *)
Record t : Type := {
  collection_query : string -> nat -> string -> list Hit;
  typology_file : option (gmap string TypologyData);
}.

Record Template : Type := {
  tpl_id : string;
  tpl_content : string;
  tpl_metadata : gmap string string;
  tpl_distance : float;
}.

Definition retrieve_templates (self : t) (query : string) (top_k : nat)
    : list Template :=
  List.map
    (fun h => {| tpl_id := hit_id h; tpl_content := hit_document h;
                 tpl_metadata := hit_metadata h;
                 tpl_distance := default 0%float (hit_distance h) |})
    (collection_query self query top_k "template").

Definition keyword_map : list (string * list string) :=
  [ ("structuring", ["structuring"; "threshold"; "smurfing"; "below reporting"]);
    ("layering", ["layering"; "multiple accounts"; "rapid transfer"; "cross-border"]);
    ("wire_fraud", ["wire"; "swift"; "remittance"; "foreign"]);
    ("cash_business", ["cash"; "retail"; "business volume"]);
    ("identity_theft", ["identity"; "kyc"; "synthetic"; "document"]);
    ("rapid_movement", ["rapid"; "same day"; "immediate transfer"]);
    ("round_tripping", ["round-trip"; "foreign investment"; "circular"]) ].

(** [any(kw in combined_text for kw in keywords)] *)
Definition any_keyword (keywords : list string) (combined_text : string) : bool :=
  existsb (fun kw => contains kw combined_text) keywords.

(** The body of the loop over [keyword_map.items()]. *)
Definition boost_step (typology combined_text : string)
    (confidence : float) (entry : string * list string) : float :=
  let '(typo, keywords) := entry in
  if any_keyword keywords combined_text then
    if String.eqb typo typology
    then min2 100%float (PrimFloat.add confidence 15%float)
    else confidence
  else confidence.

(** [max(0, min(100, (1 - distance) * 100))] *)
Definition base_confidence (distance : float) : float :=
  max2 0%float
    (min2 100%float
       (PrimFloat.mul (PrimFloat.sub 1%float distance) 100%float)).

Section WithText.
Context `{!Text}.

Definition combined_text (patterns : list string) (alert_reason : string) : string :=
  lower (alert_reason ++ " " ++ join " " patterns).

Definition identify_typology (self : t) (patterns : list string)
    (alert_reason : string) : string * float :=
  let query :=
    ("Patterns: " ++ join "; " patterns ++ ". Alert: " ++ alert_reason)%string in
  match collection_query self query 1 "typology" with
  | hit :: _ =>
      let typology := default "unknown" (hit_metadata hit !! "typology") in
      let distance := default 1%float (hit_distance hit) in
      let confidence := base_confidence distance in
      let confidence :=
        fold_left (boost_step typology (combined_text patterns alert_reason))
                  keyword_map confidence in
      (typology, confidence)
  | [] => ("unknown", 0%float)
  end.

End WithText.

Definition get_regulatory_context (self : t) (typology : string) : string :=
  match typology_file self with
  | None =>
      "PMLA Section 12 requires reporting of suspicious transactions to FIU-IND."
  | Some typologies =>
      match typologies !! typology with
      | Some data =>
          "Typology: " ++ ty_name data ++ "
Description: " ++ ty_description data ++ "
Key Indicators: " ++ join ", " (ty_indicators data) ++ "
Legal Reference: " ++ ty_pmla_reference data ++ "
Regulatory Reference: " ++ ty_rbi_reference data ++ "
Filing Requirement: STR must be filed with FIU-IND within 7 days of suspicion determination under PMLA Section 12."
      | None =>
          "General regulatory context:
- PMLA Section 12: Obligation to report suspicious transactions to FIU-IND
- PMLA Section 3: Definition of money laundering offence
- RBI Master Direction on KYC: Customer due diligence requirements
- STR filing deadline: 7 days from date of suspicion determination"
      end
  end.

Section WithFormat.
Context `{!Format}.

Definition build_case_summary (case : CaseInput) (stats : DataParser.Stats)
    (patterns : list string) : string :=
  "Case " ++ case_id case ++ ": " ++ alert_reason case ++ "
Customer: " ++ occupation (customer case) ++ ", KYC: "
  ++ kyc_risk_rating (customer case) ++ "
Transactions: " ++ str_of_nat (DataParser.total_transactions stats)
  ++ " totaling " ++ DataParser.stats_currency stats ++ " "
  ++ fmt_c2f (DataParser.total_volume stats) ++ "
Patterns: " ++ join "; " patterns ++ "
Period: " ++ DataParser.date_range_start stats ++ " to "
  ++ DataParser.date_range_end stats.

End WithFormat.

End RAGEngine.

(* ===================================================================== *)
(** * [src/models/sar_output.py]                                          *)
(* ===================================================================== *)

Module SarOutput.

(** [generated_at], a wall-clock reading, is left out. *)
Record SARNarrative : Type := {
  sar_case_id : string;
  narrative_text : string;
  sections : gmap string string;
  sar_confidence_score : float;
  sar_typology : string;
  red_flags : list string;
  sar_templates_used : list string;
  sar_model_version : string;
  transaction_stats : DataParser.Stats;
}.

Record ExplainabilityOutput : Type := {
  ex_case_id : string;
  why_suspicious : list string;
  typology_matched : string;
  typology_confidence : float;
  similar_cases : list string;
  ex_templates_used : list string;
  model_reasoning : string;
  data_points_accessed : list string;
  rules_matched : list string;
  calculations : list (string * string);
}.

End SarOutput.

(* ===================================================================== *)
(** * [src/components/llm_orchestrator.py]                                *)
(* ===================================================================== *)

Module LLMOrchestrator.
Import SarOutput.

(** The keyword arguments of [self.user_template.format]. *)
Record PromptArgs : Type := {
  pa_case_id : string;
  pa_alert_date : string;
  pa_alert_reason : string;
  pa_customer_name : string;
  pa_account_number : string;
  pa_occupation : string;
  pa_risk_rating : string;
  pa_account_open_date : string;
  pa_currency : string;
  pa_expected_volume : float;
  pa_declared_income : float;
  pa_transaction_count : nat;
  pa_total_volume : float;
  pa_total_credits : float;
  pa_total_debits : float;
  pa_credit_count : nat;
  pa_debit_count : nat;
  pa_avg_amount : float;
  pa_max_amount : float;
  pa_date_range_start : string;
  pa_date_range_end : string;
  pa_date_range_days : Z;
  pa_transaction_types : string;
  pa_patterns : string;
  pa_typology : string;
  pa_risk_score : Z;
  pa_investigation_notes : string;
  pa_regulatory_context : string;
  pa_template_reference : string;
}.

(** The orchestrator: the configured model, the two prompt files (the
    user template through its [format] method, which raises [KeyError]
    on a placeholder that is not among the arguments), and the
    text-generation backend, called with the system prompt and the user
    prompt. *)
Record t : Type := {
  model : string;
  system_prompt : string;
  user_template_format : PromptArgs -> result string;
  backend : string -> string -> result string;
}.

(** [time.time()] readings are left out of the callback, and
    ["duration_seconds"] out of its audit data. *)
Record LLMCallback : Type := {
  prompt_sent : string;
  response_received : string;
  model_used : string;
}.

(** The dictionary of [get_audit_data], one field per key. *)
Record AuditData : Type := {
  prompt_length : nat;
  response_length : nat;
  ad_model : string;
  prompt_preview : string;
  response_preview : string;
}.

Definition get_audit_data (self : LLMCallback) : AuditData :=
  {| prompt_length := String.length (prompt_sent self);
     response_length := String.length (response_received self);
     ad_model := model_used self;
     prompt_preview := Py.take 500 (prompt_sent self);
     response_preview := Py.take 500 (response_received self) |}.

Class Json : Type := {
  (** [json.dumps(audit_data, default=str)] *)
  json_dumps : AuditData -> string;
}.

(** [x or alt] on strings *)
Definition or_else (x alt : string) : string :=
  if String.eqb x "" then alt else x.

(** ["\n".join(f"- {p}" for p in patterns)] *)
Definition patterns_text (patterns : list string) : string :=
  join "
" (List.map (fun p => ("- " ++ p)%string) patterns).

Definition _call_ollama (self : t) (prompt : string) : result string :=
  backend self (system_prompt self) prompt.

Definition _build_prompt (self : t) (case : CaseInput) (stats : DataParser.Stats)
    (patterns : list string) (typology : string) (risk_score : Z)
    (regulatory_context template_reference : string) : result string :=
  let txn_types :=
    join ", "
      (List.map (fun kv => (fst kv ++ ": " ++ str_of_nat (snd kv))%string)
                (DataParser.transaction_types stats)) in
  match
    user_template_format self
      {| pa_case_id := case_id case;
         pa_alert_date := or_else (alert_date case) "N/A";
         pa_alert_reason := alert_reason case;
         pa_customer_name := name (customer case);
         pa_account_number := account_number (customer case);
         pa_occupation := or_else (occupation (customer case)) "Not specified";
         pa_risk_rating := kyc_risk_rating (customer case);
         pa_account_open_date := or_else (account_open_date (customer case)) "N/A";
         pa_currency := DataParser.stats_currency stats;
         pa_expected_volume := expected_monthly_volume (customer case);
         pa_declared_income := declared_income (customer case);
         pa_transaction_count := DataParser.total_transactions stats;
         pa_total_volume := DataParser.total_volume stats;
         pa_total_credits := DataParser.total_credits stats;
         pa_total_debits := DataParser.total_debits stats;
         pa_credit_count := DataParser.credit_count stats;
         pa_debit_count := DataParser.debit_count stats;
         pa_avg_amount := DataParser.avg_amount stats;
         pa_max_amount := DataParser.max_amount stats;
         pa_date_range_start := DataParser.date_range_start stats;
         pa_date_range_end := DataParser.date_range_end stats;
         pa_date_range_days := DataParser.date_range_days stats;
         pa_transaction_types := txn_types;
         pa_patterns := patterns_text patterns;
         pa_typology := typology;
         pa_risk_score := risk_score;
         pa_investigation_notes := or_else (investigation_notes case) "None provided";
         pa_regulatory_context := regulatory_context;
         pa_template_reference :=
           if String.eqb template_reference "" then "No template available"
           else Py.take 2000 template_reference |}
  with
  | Raise (KeyError _) =>
      Ok ("Generate a SAR narrative for case " ++ case_id case ++ ".
Alert: " ++ alert_reason case ++ "
Patterns: " ++ patterns_text patterns ++ "
Typology: " ++ typology ++ "
Risk Score: " ++ NilZero.string_of_int (Z.to_int risk_score) ++ "/100
Regulatory Context: " ++ regulatory_context)%string
  | r => r
  end.

(** The five header patterns, as token lists: [\.] is part of the
    literal, [\s*] is [Spaces]. *)
Definition section_headers : list (string * regex) :=
  [ ("I", [Lit "I."; Spaces; Lit "SUMMARY"; Spaces; Lit "OF"; Spaces;
           Lit "SUSPICIOUS"; Spaces; Lit "ACTIVITY"]);
    ("II", [Lit "II."; Spaces; Lit "ACCOUNT"; Spaces; Lit "AND"; Spaces;
            Lit "CUSTOMER"; Spaces; Lit "INFORMATION"]);
    ("III", [Lit "III."; Spaces; Lit "DESCRIPTION"; Spaces; Lit "OF"; Spaces;
             Lit "SUSPICIOUS"; Spaces; Lit "ACTIVITY"]);
    ("IV", [Lit "IV."; Spaces; Lit "EXPLANATION"; Spaces; Lit "OF"; Spaces;
            Lit "SUSPICION"]);
    ("V", [Lit "V."; Spaces; Lit "CONCLUSION"]) ].

Section Parsing.
Context `{!Text}.

(** One iteration of the loop over [enumerate(section_headers)];
    [rest] holds the headers after the current one, so that its head is
    [section_headers[i + 1]]. *)
Definition parse_header (text : string) (key : string) (pattern : regex)
    (rest : list (string * regex)) (sections : gmap string string)
    : gmap string string :=
  match re_search pattern text with
  | Some (_, start) =>
      let stop :=
        match rest with
        | (_, next_pattern) :: _ =>
            match re_search next_pattern (Py.from start text) with
            | Some (next_start, _) => (start + next_start)%nat
            | None => String.length text
            end
        | [] => String.length text
        end in
      <[key := strip (Py.slice text start stop)]> sections
  | None => sections
  end.

Fixpoint parse_headers (text : string) (headers : list (string * regex))
    (sections : gmap string string) : gmap string string :=
  match headers with
  | [] => sections
  | (key, pattern) :: rest =>
      parse_headers text rest (parse_header text key pattern rest sections)
  end.

Definition _parse_narrative (text : string) : gmap string string :=
  let sections := parse_headers text section_headers ∅ in
  if decide (sections = ∅) then <["I" := strip text]> sections
  else sections.

End Parsing.

Section Fallback.
Context `{!Format}.

Definition _generate_fallback_narrative (case : CaseInput)
    (stats : DataParser.Stats) (patterns : list string) (typology : string)
    : string :=
  let currency := DataParser.stats_currency stats in
  let total_volume := DataParser.total_volume stats in
  let total_txns := str_of_nat (DataParser.total_transactions stats) in
  let date_start := DataParser.date_range_start stats in
  let date_end := DataParser.date_range_end stats in
  let expected_vol := expected_monthly_volume (customer case) in
  "I. SUMMARY OF SUSPICIOUS ACTIVITY

This report is filed regarding suspicious transactions identified in the account of "
  ++ name (customer case) ++ " (Account: " ++ account_number (customer case)
  ++ "). A total of " ++ total_txns ++ " transactions totaling " ++ currency
  ++ " " ++ fmt_c2f total_volume
  ++ " were identified during the review period from " ++ date_start
  ++ " to " ++ date_end ++ ". The activity is consistent with " ++ typology
  ++ ".

II. ACCOUNT AND CUSTOMER INFORMATION

Account holder " ++ name (customer case) ++ " maintains account "
  ++ account_number (customer case) ++ ", opened on "
  ++ account_open_date (customer case)
  ++ ". The customer's declared occupation is " ++ occupation (customer case)
  ++ " with expected monthly transaction volume of " ++ currency ++ " "
  ++ fmt_c2f expected_vol ++ ". Current KYC risk rating: "
  ++ kyc_risk_rating (customer case) ++ ".

III. DESCRIPTION OF SUSPICIOUS ACTIVITY

Alert Reason: " ++ alert_reason case ++ "

Transaction Summary:
- Total Volume: " ++ currency ++ " " ++ fmt_c2f total_volume ++ "
- Transaction Count: " ++ total_txns ++ "
- Date Range: " ++ date_start ++ " to " ++ date_end ++ "

Suspicious Patterns:
" ++ patterns_text patterns ++ "

IV. EXPLANATION OF SUSPICION

" ++ or_else (investigation_notes case) "No additional investigation notes provided."
  ++ "

The identified patterns are consistent with " ++ typology
  ++ " typology under PMLA guidelines.

V. CONCLUSION AND RECOMMENDATION

Based on the analysis, this activity warrants reporting as a Suspicious Transaction Report (STR) under Section 12 of PMLA, 2002. The FIU-IND should be notified within the prescribed timeline. Enhanced monitoring is recommended for this account.

[This narrative was generated using template fallback -- LLM was unavailable]
".

End Fallback.

Section Generate.
Context `{!Text, !Format}.

Definition generate_narrative (self : t) (case : CaseInput)
    (stats : DataParser.Stats) (patterns : list string) (typology : string)
    (risk_score : Z) (regulatory_context template_reference : string)
    : result (SARNarrative * LLMCallback) :=
  prompt ← _build_prompt self case stats patterns typology risk_score
             regulatory_context template_reference;
  let narrative_text :=
    match _call_ollama self prompt with
    | Ok text => text
    | Raise _ => _generate_fallback_narrative case stats patterns typology
    end in
  let sections := _parse_narrative narrative_text in
  mret ({| sar_case_id := case_id case;
           narrative_text := narrative_text;
           sections := sections;
           sar_confidence_score := float_of_Z risk_score;
           sar_typology := typology;
           red_flags := patterns;
           sar_templates_used := [];
           sar_model_version := model self;
           transaction_stats := stats |},
        {| prompt_sent := prompt;
           response_received := narrative_text;
           model_used := model self |}).

End Generate.

End LLMOrchestrator.

(* ===================================================================== *)
(** * [src/utils/db_utils.py]                                             *)
(* ===================================================================== *)

(** The event dictionary of the audit ledger.  A timestamp is a point on
    the time line (an integer count of clock ticks); its text form,
    ISO 8601, sorts in the same order. *)
Module AuditTrail.

(** The optional fields of an event: the keyword arguments of
    [log_event] that default to [None]. *)
Record Payload : Type := {
  input_data : option dict;
  retrieved_context : option dict;
  llm_reasoning : option string;
  generated_output : option string;
  human_edits : option dict;
  model_version : option string;
  confidence_score : option float;
  metadata : option dict;
}.

Definition no_payload : Payload :=
  {| input_data := None; retrieved_context := None; llm_reasoning := None;
     generated_output := None; human_edits := None; model_version := None;
     confidence_score := None; metadata := None |}.

Record AuditEvent : Type := {
  ev_case_id : string;
  ev_timestamp : Z;
  ev_event_type : string;
  ev_user_id : string;
  ev_payload : Payload;
}.

(** What the environment contributes to one [log_event] call. *)
Record Reading : Type := {
  (** [datetime.now()] *)
  now : Z;
  (** the store's [CURRENT_TIMESTAMP] *)
  current_timestamp : Z;
  (** the [INSERT] raises *)
  insert_fails : bool;
}.

Definition ts_le (a b : AuditEvent) : Prop := ev_timestamp a <= ev_timestamp b.

#[global] Instance ts_le_dec (a b : AuditEvent) : Decision (ts_le a b) :=
  Z_le_dec (ev_timestamp a) (ev_timestamp b).

End AuditTrail.

Module DatabaseManager.
Import AuditTrail.

(** The manager: its connection, that is the rows of [sar_audit_trail]
    in insertion order, or [None] without a connection. *)
Record t : Type := { conn : option (list AuditEvent) }.

(** [json.dumps(d) if d else None]; reading the trail parses the text
    back. *)
Definition stored (d : option dict) : option dict :=
  match d with
  | Some [] => None
  | _ => d
  end.

(** A [REAL] column holds no NaN: SQLite stores a NaN as NULL, which is
    read back as [None]. *)
Definition stored_real (x : option float) : option float :=
  match x with
  | Some v => if PrimFloat.is_nan v then None else Some v
  | None => None
  end.

Definition log_audit_event (rd : Reading) (case_id event_type user_id : string)
    (p : Payload) (self : t) : t :=
  match conn self with
  | None => self
  | Some rows =>
      if insert_fails rd then self
      else
        let row :=
          {| ev_case_id := case_id;
             ev_timestamp := current_timestamp rd;
             ev_event_type := event_type;
             ev_user_id := user_id;
             ev_payload :=
               {| input_data := stored (input_data p);
                  retrieved_context := stored (retrieved_context p);
                  llm_reasoning := llm_reasoning p;
                  generated_output := generated_output p;
                  human_edits := stored (human_edits p);
                  model_version := model_version p;
                  confidence_score := stored_real (confidence_score p);
                  metadata := stored (metadata p) |} |} in
        {| conn := Some (rows ++ [row]) |}
  end.

(** [ORDER BY timestamp ASC]: the rows are returned by increasing
    timestamp, and rows with the same timestamp in the order of their
    insertion.  A row is placed behind every row that is not later than it. *)
Fixpoint insert_by_timestamp (ev : AuditEvent) (sorted : list AuditEvent)
    : list AuditEvent :=
  match sorted with
  | [] => [ev]
  | x :: rest =>
      if decide (ts_le x ev) then x :: insert_by_timestamp ev rest
      else ev :: sorted
  end.

Definition order_by_timestamp (rows : list AuditEvent) : list AuditEvent :=
  fold_left (fun sorted ev => insert_by_timestamp ev sorted) rows [].

(** [SELECT * FROM sar_audit_trail WHERE case_id = ? ORDER BY timestamp
    ASC]; [select_fails] says that the query raises. *)
Definition get_audit_trail (select_fails : bool) (case_id : string) (self : t)
    : list AuditEvent :=
  match conn self with
  | None => []
  | Some rows =>
      if select_fails then []
      else order_by_timestamp
             (List.filter (fun ev => String.eqb (ev_case_id ev) case_id) rows)
  end.

End DatabaseManager.

(** The table [sar_cases] of the same database.  It is kept beside the
    ledger: a row per case, by its primary key [case_id]. *)
Module CaseStore.

Record CaseRow : Type := {
  row_narrative_text : string;
  (** a [REAL] column: NaN is stored as NULL *)
  row_confidence_score : option float;
  row_typology : string;
  row_status : string;
  row_assigned_analyst : string;
  row_approved_by : option string;
  row_approved_at : option Z;
  row_created_at : Z;
  row_updated_at : Z;
}.

(** The rows of the table, or [None] without a connection. *)
Record t : Type := { cases : option (gmap string CaseRow) }.



(** [update_case_status]: an [UPDATE ... WHERE case_id = ?], which
    changes the row of the case when there is one. *)
Definition update_case_status (stamp : Z) (fails : bool) (case_id status : string)
    (approved_by : option string) (self : t) : t :=
  match cases self with
  | None => self
  | Some rows =>
      if fails then self
      else
        match rows !! case_id with
        | None => self
        | Some old =>
            let row :=
              if String.eqb status "approved" then
                {| row_narrative_text := row_narrative_text old;
                   row_confidence_score := row_confidence_score old;
                   row_typology := row_typology old;
                   row_status := status;
                   row_assigned_analyst := row_assigned_analyst old;
                   row_approved_by := approved_by;
                   row_approved_at := Some stamp;
                   row_created_at := row_created_at old;
                   row_updated_at := stamp |}
              else
                {| row_narrative_text := row_narrative_text old;
                   row_confidence_score := row_confidence_score old;
                   row_typology := row_typology old;
                   row_status := status;
                   row_assigned_analyst := row_assigned_analyst old;
                   row_approved_by := row_approved_by old;
                   row_approved_at := row_approved_at old;
                   row_created_at := row_created_at old;
                   row_updated_at := stamp |} in
            {| cases := Some (<[case_id := row]> rows) |}
        end
  end.

End CaseStore.

(* ===================================================================== *)
(** * [src/components/audit_logger.py]                                    *)
(* ===================================================================== *)

Module AuditLogger.
Import AuditTrail.

Record t : Type := {
  db : DatabaseManager.t;
  in_memory_trail : gmap string (list AuditEvent);
}.

(** [AuditLogger()]: [connect] finds the rows the database file holds,
    or fails and leaves no connection. *)
Definition new (connection : option (list AuditEvent)) : t :=
  {| db := {| DatabaseManager.conn := connection |}; in_memory_trail := ∅ |}.

Definition log_event (rd : Reading) (case_id event_type user_id : string)
    (p : Payload) (self : t) : t :=
  let event :=
    {| ev_case_id := case_id; ev_timestamp := now rd;
       ev_event_type := event_type; ev_user_id := user_id;
       ev_payload := p |} in
  let trail := default [] (in_memory_trail self !! case_id) in
  {| db := DatabaseManager.log_audit_event rd case_id event_type user_id p
             (db self);
     in_memory_trail := <[case_id := trail ++ [event]]> (in_memory_trail self) |}.

Definition get_audit_trail (select_fails : bool) (case_id : string) (self : t)
    : list AuditEvent :=
  match DatabaseManager.get_audit_trail select_fails case_id (db self) with
  | [] => default [] (in_memory_trail self !! case_id)
  | db_trail => db_trail
  end.

(** The parts of [export_audit_trail] that belong to the library and to
    the representation of events. *)
Class Export : Type := {
  (** the dictionary of an event as [get_audit_trail] returns it: the
      literal of [log_event], or the columns of a row of the store *)
  event_dict : AuditEvent -> dict;
  (** [str(v)] *)
  str : value -> string;
  (** [json.dumps(trail, indent=2, default=str)] *)
  json_dumps_trail : list dict -> string;
}.

Section Exporting.
Context `{!Export}.

(** The body of the loop over the events: one line of the CSV text. *)
Definition csv_line (headers : list string) (event : dict) : string :=
  join ","
    (List.map (fun h => replace "," ";" (str (dict_get event h (VStr ""))))
              headers).

Definition export_audit_trail (select_fails : bool) (case_id fmt : string)
    (self : t) : string :=
  let trail := List.map event_dict (get_audit_trail select_fails case_id self) in
  if String.eqb fmt "json" then json_dumps_trail trail
  else if String.eqb fmt "csv" then
    match trail with
    | [] => "No audit trail found"
    | first :: _ =>
        let headers := dict_keys first in
        let lines := join "," headers :: List.map (csv_line headers) trail in
        join "
" lines
    end
  else json_dumps_trail trail.

End Exporting.

(** A [log_event] call, and a run of them. *)
Record Call : Type := {
  call_reading : Reading;
  call_case_id : string;
  call_event_type : string;
  call_user_id : string;
  call_payload : Payload;
}.

Definition log_call (self : t) (c : Call) : t :=
  log_event (call_reading c) (call_case_id c) (call_event_type c)
    (call_user_id c) (call_payload c) self.

Definition log_events (calls : list Call) (self : t) : t :=
  fold_left log_call calls self.

(** The calls of a run that are made for [case_id]. *)
Definition calls_for (case_id : string) (calls : list Call) : list Call :=
  List.filter (fun c => String.eqb (call_case_id c) case_id) calls.

End AuditLogger.

(* ===================================================================== *)
(** * [src/main.py]                                                       *)
(* ===================================================================== *)

Module SARGenerator.
Import SarOutput AuditTrail.

Record t : Type := {
  parser : DataParser.t;
  rag : RAGEngine.t;
  llm : LLMOrchestrator.t;
}.

(** A step of the pipeline: it returns or raises, and it reads and extends
    the audit ledger [self.audit]. *)
Definition run (A : Type) : Type := AuditLogger.t -> result A * AuditLogger.t.

#[global] Instance run_ret : MRet run := fun A a audit => (Ok a, audit).
#[global] Instance run_bind : MBind run := fun A B f m audit =>
  match m audit with
  | (Ok a, audit') => f a audit'
  | (Raise e, audit') => (Raise e, audit')
  end.

(** A computation that leaves the ledger alone. *)
Definition pure {A : Type} (r : result A) : run A := fun audit => (r, audit).

(** [self.audit.log_event(...)] *)
Definition audit_log_event (rd : Reading) (case_id event_type user_id : string)
    (p : Payload) : run unit :=
  fun audit => (Ok tt, AuditLogger.log_event rd case_id event_type user_id p audit).

Section Pipeline.
Context `{!Text, !Format, !Calendar, !Digest, !LLMOrchestrator.Json}.

(** [generate]; [clock k] is the environment's reading at the [k]-th
    [log_event] call of the run.  The progress callback, which only
    notifies the user interface, is left out. *)
Definition generate (self : t) (clock : nat -> Reading) (case_json : CaseInput)
    (user_id : string) : run (SARNarrative * ExplainabilityOutput) :=
  (* Step 1: parse and validate input *)
  case ← pure (DataParser.parse_case_input (parser self) case_json);
  _ ← audit_log_event (clock 0%nat) (case_id case) "data_input" user_id
        {| input_data :=
             Some [("case_id", VStr (case_id case));
                   ("transaction_count", VNat (length (transactions case)))];
           retrieved_context := None; llm_reasoning := None;
           generated_output := None; human_edits := None;
           model_version := None; confidence_score := None;
           metadata := Some [("step", VStr "1_parse_input")] |};
  (* Step 2: transaction statistics *)
  stats ← pure (DataParser.calculate_transaction_stats (transactions case));
  _ ← audit_log_event (clock 1%nat) (case_id case) "analysis" user_id
        {| input_data := None;
           retrieved_context := None; llm_reasoning := None;
           generated_output := None; human_edits := None;
           model_version := None; confidence_score := None;
           metadata := Some [("step", VStr "2_transaction_stats");
                             ("stats", VDict (DataParser.as_dict stats))] |};
  (* Step 3: suspicious patterns *)
  patterns ← pure (DataParser.identify_patterns case stats);
  risk_score ← pure (DataParser.calculate_risk_score patterns stats case);
  _ ← audit_log_event (clock 2%nat) (case_id case) "pattern_detection" user_id
        {| input_data := None;
           retrieved_context := None; llm_reasoning := None;
           generated_output := None; human_edits := None;
           model_version := None; confidence_score := None;
           metadata := Some [("step", VStr "3_pattern_detection");
                             ("patterns", VStrs patterns);
                             ("risk_score", VInt risk_score)] |};
  (* Step 4: retrieval *)
  let case_summary := RAGEngine.build_case_summary case stats patterns in
  let templates := RAGEngine.retrieve_templates (rag self) case_summary 2 in
  let '(typology, typology_confidence) :=
    RAGEngine.identify_typology (rag self) patterns (alert_reason case) in
  let regulatory_context := RAGEngine.get_regulatory_context (rag self) typology in
  let template_text :=
    match templates with
    | tpl :: _ => RAGEngine.tpl_content tpl
    | [] => ""
    end in
  _ ← audit_log_event (clock 3%nat) (case_id case) "rag_retrieval" user_id
        {| input_data := None;
           retrieved_context :=
             Some [("templates_used", VStrs (List.map RAGEngine.tpl_id templates));
                   ("typology", VStr typology);
                   ("typology_confidence", VFloat typology_confidence);
                   ("regulatory_context_snippet",
                    VStr (Py.take 500 regulatory_context))];
           llm_reasoning := None;
           generated_output := None; human_edits := None;
           model_version := None; confidence_score := None;
           metadata := Some [("step", VStr "4_rag_retrieval")] |};
  (* Step 5: narrative *)
  '(narrative, llm_callback) ←
    pure (LLMOrchestrator.generate_narrative (llm self) case stats patterns
            typology risk_score regulatory_context template_text);
  let audit_data := LLMOrchestrator.get_audit_data llm_callback in
  _ ← audit_log_event (clock 4%nat) (case_id case) "llm_generation" user_id
        {| input_data := None; retrieved_context := None;
           llm_reasoning :=
             Some (Py.take 5000 (LLMOrchestrator.json_dumps audit_data));
           generated_output := Some (Py.take 5000 (narrative_text narrative));
           human_edits := None;
           model_version := Some (sar_model_version narrative);
           confidence_score := Some (sar_confidence_score narrative);
           metadata := Some [("step", VStr "5_llm_generation")] |};
  (* Step 6: explainability *)
  volume_ratio ←
    pure (if gtb (expected_monthly_volume (customer case)) 0%float then
            ratio ← truediv (DataParser.total_volume stats)
                      (expected_monthly_volume (customer case));
            mret (fmt_1f ratio ++ "x")%string
          else Ok "N/A");
  let explainability :=
    {| ex_case_id := case_id case;
       why_suspicious := red_flags narrative;
       typology_matched := typology;
       typology_confidence := typology_confidence;
       similar_cases := [];
       ex_templates_used := List.map RAGEngine.tpl_id templates;
       model_reasoning :=
         ("Risk score " ++ NilZero.string_of_int (Z.to_int risk_score)
          ++ "/100 based on " ++ str_of_nat (length patterns)
          ++ " patterns detected")%string;
       data_points_accessed :=
         [ (str_of_nat (DataParser.total_transactions stats)
            ++ " transactions analyzed")%string;
           "Customer KYC profile reviewed";
           "Transaction stats calculated";
           (str_of_nat (length templates) ++ " templates retrieved")%string ];
       rules_matched := patterns;
       calculations :=
         [ ("total_volume",
            (DataParser.stats_currency stats ++ " "
             ++ fmt_c2f (DataParser.total_volume stats))%string);
           ("volume_vs_expected", volume_ratio);
           ("risk_score",
            (NilZero.string_of_int (Z.to_int risk_score) ++ "/100")%string) ] |} in
  _ ← audit_log_event (clock 5%nat) (case_id case) "explainability" user_id
        {| input_data := None; retrieved_context := None;
           llm_reasoning := None; generated_output := None;
           human_edits := None; model_version := None;
           confidence_score := None;
           metadata := Some [("step", VStr "6_explainability");
                             ("red_flags", VStrs (red_flags narrative));
                             ("typology", VStr typology);
                             ("confidence", VFloat typology_confidence)] |};
  mret (narrative, explainability).

End Pipeline.

(** [get_audit_trail] *)
Definition get_audit_trail (select_fails : bool) (case_id : string)
    (audit : AuditLogger.t) : list AuditEvent :=
  AuditLogger.get_audit_trail select_fails case_id audit.

(** [approve_narrative] and [reject_narrative] work on the ledger and on
    the table of cases; [stamp] and [update_fails] are what the store
    contributes to the [UPDATE]. *)
Definition approve_narrative (rd : Reading) (stamp : Z) (update_fails : bool)
    (case_id user_id : string) (edited_text : option string)
    (state : AuditLogger.t * CaseStore.t) : AuditLogger.t * CaseStore.t :=
  (AuditLogger.log_event rd case_id "approval" user_id
     {| input_data := None; retrieved_context := None; llm_reasoning := None;
        generated_output := None;
        human_edits :=
          Some [("edited", VBool (match edited_text with
                                  | Some _ => true
                                  | None => false
                                  end))];
        model_version := None; confidence_score := None;
        metadata := Some [("action", VStr "approved")] |}
     (fst state),
   CaseStore.update_case_status stamp update_fails case_id "approved"
     (Some user_id) (snd state)).

Definition reject_narrative (rd : Reading) (stamp : Z) (update_fails : bool)
    (case_id user_id reason : string)
    (state : AuditLogger.t * CaseStore.t) : AuditLogger.t * CaseStore.t :=
  (AuditLogger.log_event rd case_id "rejection" user_id
     {| input_data := None; retrieved_context := None; llm_reasoning := None;
        generated_output := None; human_edits := None;
        model_version := None; confidence_score := None;
        metadata := Some [("action", VStr "rejected"); ("reason", VStr reason)] |}
     (fst state),
   CaseStore.update_case_status stamp update_fails case_id "rejected" None
     (snd state)).

(** [export_audit] *)
Definition export_audit `{!AuditLogger.Export} (select_fails : bool)
    (case_id fmt : string) (audit : AuditLogger.t) : string :=
  AuditLogger.export_audit_trail select_fails case_id fmt audit.

End SARGenerator.

(* ===================================================================== *)
(** * [src/agents/a2a_agents.py]                                          *)
(* ===================================================================== *)

Module A2A.
Import SarOutput AuditTrail.

(** The parts of the agents that belong to the Python library. *)
Class Host : Type := {
  (** [str(e)] of a caught exception *)
  str_exn : exn -> string;
  (** [round(x, 3)] *)
  round3 : float -> float;
}.

(** What the environment contributes to one [AgentResult]: the elapsed
    [time.time() - start] and [datetime.now().isoformat()]. *)
Record Timing : Type := {
  elapsed : float;
  isoformat : string;
}.

(** The [data] dictionary of a result, one constructor per set of keys:
    the four dictionaries the agents build on success, and [{"error": ...}].
    [case.model_dump()] and [narrative.model_dump()] are the records. *)
Inductive AgentData : Type :=
| Enriched (case_id : string) (case : CaseInput) (stats : DataParser.Stats)
    (patterns : list string) (risk_score : Z)
| Classified (typology : string) (confidence : float) (regulatory_context : string)
| Narrated (narrative : SARNarrative) (llm_audit : LLMOrchestrator.AuditData)
    (templates_used : list string)
| Logged (case_id event_type : string)
| Failed (error : string).

Record AgentResult : Type := {
  agent_name : string;
  status : string;
  data : AgentData;
  duration : float;
  timestamp : string;
}.

(** The dictionary of [AgentResult.to_dict], one field per key. *)
Record Step : Type := {
  step_agent : string;
  step_status : string;
  step_data : AgentData;
  duration_seconds : float;
  step_timestamp : string;
}.

Definition to_dict `{!Host} (self : AgentResult) : Step :=
  {| step_agent := agent_name self;
     step_status := status self;
     step_data := data self;
     duration_seconds := round3 (duration self);
     step_timestamp := timestamp self |}.

(** ** Reading a [data] dictionary *)

(** [data["case_id"]] *)
Definition item_case_id (d : AgentData) : result string :=
  match d with
  | Enriched case_id _ _ _ _ | Logged case_id _ => Ok case_id
  | _ => Raise (KeyError "case_id")
  end.

(** [data.get("case_id", "")] *)
Definition get_case_id (d : AgentData) : string :=
  match d with
  | Enriched case_id _ _ _ _ | Logged case_id _ => case_id
  | _ => ""
  end.

(** [data["case"]] *)
Definition item_case (d : AgentData) : result CaseInput :=
  match d with
  | Enriched _ case _ _ _ => Ok case
  | _ => Raise (KeyError "case")
  end.

(** [data["stats"]] *)
Definition item_stats (d : AgentData) : result DataParser.Stats :=
  match d with
  | Enriched _ _ stats _ _ => Ok stats
  | _ => Raise (KeyError "stats")
  end.

(** [data["patterns"]] *)
Definition item_patterns (d : AgentData) : result (list string) :=
  match d with
  | Enriched _ _ _ patterns _ => Ok patterns
  | _ => Raise (KeyError "patterns")
  end.

(** [len(data.get("patterns", []))] *)
Definition len_patterns (d : AgentData) : nat :=
  match d with
  | Enriched _ _ _ patterns _ => length patterns
  | _ => 0%nat
  end.

(** [data["risk_score"]] *)
Definition item_risk_score (d : AgentData) : result Z :=
  match d with
  | Enriched _ _ _ _ risk_score => Ok risk_score
  | _ => Raise (KeyError "risk_score")
  end.

(** [data.get("risk_score", 0)] *)
Definition get_risk_score (d : AgentData) : value :=
  match d with
  | Enriched _ _ _ _ risk_score => VInt risk_score
  | _ => VInt 0
  end.

(** [data["typology"]] *)
Definition item_typology (d : AgentData) : result string :=
  match d with
  | Classified typology _ _ => Ok typology
  | _ => Raise (KeyError "typology")
  end.

(** [data.get("typology", "")] *)
Definition get_typology (d : AgentData) : value :=
  match d with
  | Classified typology _ _ => VStr typology
  | _ => VStr ""
  end.

(** [data.get("confidence", 0)] *)
Definition get_confidence (d : AgentData) : value :=
  match d with
  | Classified _ confidence _ => VFloat confidence
  | _ => VInt 0
  end.

(** [data.get("regulatory_context", "")] *)
Definition get_regulatory_context (d : AgentData) : string :=
  match d with
  | Classified _ _ regulatory_context => regulatory_context
  | _ => ""
  end.

(** ** The agents

    An [AgentMessage] is given by the fields its receiver reads: the
    sender and the entries of the payload.  Its [message_id] and
    [timestamp] are read by no agent. *)

(** The [try ... except Exception as e] around the body of an [execute]:
    the result is "completed" with the data, or "failed" with [str(e)]. *)
Definition result_of `{!Host} (name : string) (tm : Timing)
    (body : result AgentData) : AgentResult :=
  match body with
  | Ok d =>
      {| agent_name := name; status := "completed"; data := d;
         duration := elapsed tm; timestamp := isoformat tm |}
  | Raise e =>
      {| agent_name := name; status := "failed"; data := Failed (str_exn e);
         duration := elapsed tm; timestamp := isoformat tm |}
  end.

Module DataEnrichmentAgent.

Definition AGENT_NAME : string := "data_enrichment_agent".

Section Execute.
Context `{!Text, !Format, !Calendar, !Digest, !Host}.

Definition execute (tm : Timing) (case_json : CaseInput) : AgentResult :=
  result_of AGENT_NAME tm
    (let parser := {| DataParser.anonymize := true |} in
     case ← DataParser.parse_case_input parser case_json;
     stats ← DataParser.calculate_transaction_stats (transactions case);
     patterns ← DataParser.identify_patterns case stats;
     risk_score ← DataParser.calculate_risk_score patterns stats case;
     mret (Enriched (case_id case) case stats patterns risk_score)).

End Execute.

End DataEnrichmentAgent.

Module TypologyAgent.

Definition AGENT_NAME : string := "typology_agent".

Section Execute.
Context `{!Text, !Host}.

(** [new_rag] is the outcome of [RAGEngine()]. *)
Definition execute (new_rag : result RAGEngine.t) (tm : Timing)
    (patterns : list string) (alert_reason : string) : AgentResult :=
  result_of AGENT_NAME tm
    (rag ← new_rag;
     let '(typology, confidence) :=
       RAGEngine.identify_typology rag patterns alert_reason in
     let regulatory_context := RAGEngine.get_regulatory_context rag typology in
     mret (Classified typology confidence regulatory_context)).

End Execute.

End TypologyAgent.

Module NarrativeAgent.

Definition AGENT_NAME : string := "narrative_agent".

Section Execute.
Context `{!Text, !Format, !Host}.

(** [new_rag] and [new_llm] are the outcomes of [RAGEngine()] and of
    [LLMOrchestrator()]; [payload_case] is [payload["case"]], from which
    the case is built again. *)
Definition execute (new_rag : result RAGEngine.t)
    (new_llm : result LLMOrchestrator.t) (tm : Timing)
    (payload_case : CaseInput) (stats : DataParser.Stats)
    (patterns : list string) (typology : string) (risk_score : Z)
    (regulatory_context : string) : AgentResult :=
  result_of AGENT_NAME tm
    (case ← new_CaseInput payload_case;
     rag ← new_rag;
     let case_summary := RAGEngine.build_case_summary case stats patterns in
     let templates := RAGEngine.retrieve_templates rag case_summary 2 in
     let template_text :=
       match templates with
       | tpl :: _ => RAGEngine.tpl_content tpl
       | [] => ""
       end in
     llm ← new_llm;
     '(narrative, callback) ←
       LLMOrchestrator.generate_narrative llm case stats patterns typology
         risk_score regulatory_context template_text;
     mret (Narrated narrative (LLMOrchestrator.get_audit_data callback)
             (List.map RAGEngine.tpl_id templates))).

End Execute.

End NarrativeAgent.

Module AuditAgent.

Definition AGENT_NAME : string := "audit_agent".

Record t : Type := { audit : AuditLogger.t }.

(** [payload_input_data] is [task.payload.get("input_data")]. *)
Definition execute `{!Host} (rd : Reading) (tm : Timing)
    (sender case_id event_type step : string) (payload_input_data : dict)
    (self : t) : AgentResult * t :=
  (result_of AGENT_NAME tm (Ok (Logged case_id event_type)),
   {| audit :=
        AuditLogger.log_event rd case_id event_type ("a2a:" ++ sender)
          {| input_data := Some payload_input_data;
             retrieved_context := None; llm_reasoning := None;
             generated_output := None; human_edits := None;
             model_version := None; confidence_score := None;
             metadata := Some [("source", VStr "a2a_protocol");
                               ("sender_agent", VStr sender);
                               ("step", VStr step)] |}
          (audit self) |}).

End AuditAgent.

Module CoordinatorAgent.

(** The coordinator: its audit agent and its [pipeline_log]; its other
    agents have no state. *)
Record t : Type := {
  audit_agent : AuditAgent.t;
  pipeline_log : list Step;
}.

(** What the environment contributes to one run: the timing of the
    [k]-th [AgentResult], the reading of the [k]-th [log_event], the
    engines the agents construct, and the elapsed time of the run. *)
Record Env : Type := {
  timing : nat -> Timing;
  clock : nat -> Reading;
  typology_rag : result RAGEngine.t;
  narrative_rag : result RAGEngine.t;
  narrative_llm : result LLMOrchestrator.t;
  pipeline_elapsed : float;
}.

(** The dictionary returned by [execute]: the one of
    [_build_error_response], or the one of a run that went through. *)
Inductive Response : Type :=
| ErrorResponse (status error : string) (agent_steps : list Step)
    (failed_agent : Step)
| PipelineResponse (status case_id : string) (pipeline_duration : float)
    (agent_steps : list Step) (data typology narrative : AgentData).

Definition response_status (r : Response) : string :=
  match r with
  | ErrorResponse status _ _ _ => status
  | PipelineResponse status _ _ _ _ _ _ => status
  end.

Definition agent_steps (r : Response) : list Step :=
  match r with
  | ErrorResponse _ _ steps _ => steps
  | PipelineResponse _ _ _ steps _ _ _ => steps
  end.

(** A step of [execute]: it returns or raises, and it reads and changes
    the coordinator. *)
Definition step (A : Type) : Type := t -> result A * t.

#[global] Instance step_ret : MRet step := fun A a self => (Ok a, self).
#[global] Instance step_bind : MBind step := fun A B f m self =>
  match m self with
  | (Ok a, self') => f a self'
  | (Raise e, self') => (Raise e, self')
  end.

(** A computation that leaves the coordinator alone. *)
Definition lift {A : Type} (r : result A) : step A := fun self => (r, self).

(** [self.pipeline_log = []] *)
Definition reset_log : step unit :=
  fun self => (Ok tt, {| audit_agent := audit_agent self; pipeline_log := [] |}).

(** [self.pipeline_log] *)
Definition read_log : step (list Step) :=
  fun self => (Ok (pipeline_log self), self).

Section Execute.
Context `{!Text, !Format, !Calendar, !Digest, !Host}.

(** [self.pipeline_log.append(result.to_dict())] *)
Definition append_log (r : AgentResult) : step unit :=
  fun self =>
    (Ok tt, {| audit_agent := audit_agent self;
               pipeline_log := pipeline_log self ++ [to_dict r] |}).

Definition _log_audit (rd : Reading) (tm : Timing)
    (case_id step_name sender : string) (payload_input_data : dict)
    : step unit :=
  fun self =>
    let '(audit_result, agent) :=
      AuditAgent.execute rd tm sender case_id ("a2a_" ++ step_name) step_name
        payload_input_data (audit_agent self) in
    (Ok tt, {| audit_agent := agent;
               pipeline_log := pipeline_log self ++ [to_dict audit_result] |}).

Definition _build_error_response (message : string) (r : AgentResult)
    : step Response :=
  log ← read_log;
  mret (ErrorResponse "failed" message log (to_dict r)).

(** [execute]; [user_id] is a parameter of the method that its body does
    not read. *)
Definition execute (env : Env) (case_json : CaseInput) (user_id : string)
    : step Response :=
  _ ← reset_log;
  (* Step 1: data enrichment *)
  let data_result := DataEnrichmentAgent.execute (timing env 0%nat) case_json in
  _ ← append_log data_result;
  if negb (String.eqb (status data_result) "completed") then
    _build_error_response "Data enrichment failed" data_result
  else
    case_id ← lift (item_case_id (data data_result));
    _ ← _log_audit (clock env 0%nat) (timing env 1%nat) case_id
          "data_enrichment" DataEnrichmentAgent.AGENT_NAME
          [("patterns_found", VNat (len_patterns (data data_result)));
           ("risk_score", get_risk_score (data data_result))];
    (* Step 2: typology classification *)
    patterns ← lift (item_patterns (data data_result));
    let typology_result :=
      TypologyAgent.execute (typology_rag env) (timing env 2%nat) patterns
        (alert_reason case_json) in
    _ ← append_log typology_result;
    if negb (String.eqb (status typology_result) "completed") then
      _build_error_response "Typology classification failed" typology_result
    else
      case_id ← lift (item_case_id (data data_result));
      _ ← _log_audit (clock env 1%nat) (timing env 3%nat) case_id
            "typology_classification" TypologyAgent.AGENT_NAME
            [("typology", get_typology (data typology_result));
             ("confidence", get_confidence (data typology_result))];
      (* Step 3: narrative generation *)
      payload_case ← lift (item_case (data data_result));
      stats ← lift (item_stats (data data_result));
      patterns ← lift (item_patterns (data data_result));
      risk_score ← lift (item_risk_score (data data_result));
      typology ← lift (item_typology (data typology_result));
      let narrative_result :=
        NarrativeAgent.execute (narrative_rag env) (narrative_llm env)
          (timing env 4%nat) payload_case stats patterns typology risk_score
          (get_regulatory_context (data typology_result)) in
      _ ← append_log narrative_result;
      case_id ← lift (item_case_id (data data_result));
      _ ← _log_audit (clock env 2%nat) (timing env 5%nat) case_id
            "narrative_generation" NarrativeAgent.AGENT_NAME
            [("generation_time", VFloat (duration narrative_result));
             ("status", VStr (status narrative_result))];
      log ← read_log;
      mret (PipelineResponse
              (if String.eqb (status narrative_result) "completed"
               then "completed" else "partial")
              (get_case_id (data data_result))
              (round3 (pipeline_elapsed env))
              log
              (data data_result) (data typology_result)
              (data narrative_result)).

End Execute.

End CoordinatorAgent.

End A2A.


(* ===================================================================== *)
(** * Vocabulary of the properties                                        *)
(* ===================================================================== *)

Module Spec.

(** An amount strictly between 800,000 and 1,000,000. *)
Definition in_structuring_band (t : Transaction) : bool :=
  PrimFloat.ltb 800000%float (amount t) && PrimFloat.ltb (amount t) 1000000%float.

(** The text of a structuring finding. *)
Definition is_structuring_text (s : string) : bool :=
  String.prefix "Structuring: " s.

(** The text of a round-number finding. *)
Definition is_round_number_text (s : string) : bool :=
  String.prefix "Round-number transactions: " s.

(** An amount equal to zero: [t.amount == 0]. *)
Definition is_zero_amount (t : Transaction) : bool := PrimFloat.eqb (amount t) 0%float.

(** A transaction that went through the validator of its amount. *)
Definition finite_amount (t : Transaction) : Prop :=
  amount_must_be_finite (amount t) = Ok (amount t).

(** The sum of a list of floats in exact arithmetic, without rounding. *)
Definition exact_sum (l : list float) : Q := sumQ (List.map to_Q l).

(** The keyword table implies [typology] for [text]: [typology] is a key
    of the table and one of its keywords occurs in [text]. *)
Definition keywords_imply (typology text : string) : Prop :=
  exists keywords,
    In (typology, keywords) RAGEngine.keyword_map /\
    RAGEngine.any_keyword keywords text = true.

(** The query sent to the similarity store. *)
Definition typology_query (patterns : list string) (alert_reason : string) : string :=
  "Patterns: " ++ join "; " patterns ++ ". Alert: " ++ alert_reason.

(** The header marker [h] occurs in [text]. *)
Definition header_found `{!Text} (text : string) (h : string * regex) : Prop :=
  is_Some (re_search (snd h) text).

(** The rows the store holds for a case when the logger connects. *)
Definition stored_rows (connection : option (list AuditTrail.AuditEvent))
    (case_id : string) : list AuditTrail.AuditEvent :=
  match connection with
  | None => []
  | Some rows =>
      List.filter (fun ev => String.eqb (AuditTrail.ev_case_id ev) case_id) rows
  end.

(** The event a call appends to the in-memory trail. *)
Definition memory_event (c : AuditLogger.Call) : AuditTrail.AuditEvent :=
  {| AuditTrail.ev_case_id := AuditLogger.call_case_id c;
     AuditTrail.ev_timestamp := AuditTrail.now (AuditLogger.call_reading c);
     AuditTrail.ev_event_type := AuditLogger.call_event_type c;
     AuditTrail.ev_user_id := AuditLogger.call_user_id c;
     AuditTrail.ev_payload := AuditLogger.call_payload c |}.

(** Every [INSERT] of these calls succeeds. *)
Definition inserts_succeed (calls : list AuditLogger.Call) : Prop :=
  List.Forall
    (fun c => AuditTrail.insert_fails (AuditLogger.call_reading c) = false) calls.





(** The message of the validator of amounts. *)
Definition amount_message : string := "Transaction amount must be a finite number".

(** A transaction whose amount is NaN or an infinity. *)
Definition non_finite_amount (t : Transaction) : Prop :=
  nan_or_inf (amount t) = true.

(** A confidence within [0, 100]. *)
Definition in_percent_range (c : float) : Prop :=
  PrimFloat.leb 0%float c = true /\ PrimFloat.leb c 100%float = true.

(** [case] with the KYC risk rating of its customer replaced. *)
Definition with_rating (rating : string) (case : CaseInput) : CaseInput :=
  {| case_id := case_id case;
     customer :=
       {| name := name (customer case);
          account_number := account_number (customer case);
          kyc_risk_rating := rating;
          occupation := occupation (customer case);
          account_open_date := account_open_date (customer case);
          expected_monthly_volume := expected_monthly_volume (customer case);
          declared_income := declared_income (customer case);
          address := address (customer case);
          pan_number := pan_number (customer case) |};
     transactions := transactions case;
     alert_reason := alert_reason case;
     investigation_notes := investigation_notes case;
     alert_date := alert_date case;
     assigned_analyst := assigned_analyst case |}.

(** The number of transactions of type [ty]. *)
Definition count_of_type (ty : string) (txns : list Transaction) : nat :=
  length (List.filter (fun t => String.eqb (type t) ty) txns).

(** A float that is not below zero: [x < 0] is false.  NaN, which compares
    below nothing, is among them. *)
Definition not_below_zero (x : float) : Prop := PrimFloat.ltb x 0%float = false.

(** How the text of a finding starts, for each kind of finding. *)
Definition heading (f : DataParser.Finding) : string :=
  match f with
  | DataParser.Structuring _ => "Structuring: "
  | DataParser.VolumeSpike _ => "Volume spike: "
  | DataParser.RapidMovement _ => "Rapid movement: "
  | DataParser.SmallDeposits _ => "Multiple small deposits: "
  | DataParser.IncomeMismatch _ => "Income mismatch: "
  | DataParser.MultipleOriginators _ _ => "Multiple originators: "
  | DataParser.RoundNumbers _ => "Round-number transactions: "
  | DataParser.LargeTransaction _ _ _ => "Large transaction: "
  | DataParser.HighRiskTypes _ _ => "High-risk transfer types: "
  end.

Definition headings : list string :=
  [ "Structuring: "; "Volume spike: "; "Rapid movement: ";
    "Multiple small deposits: "; "Income mismatch: "; "Multiple originators: ";
    "Round-number transactions: "; "Large transaction: ";
    "High-risk transfer types: " ].

(** The texts of [patterns] that start with [h]. *)
Definition texts_headed (h : string) (patterns : list string) : list string :=
  List.filter (String.prefix h) patterns.

(** What the loop of [Counter] keeps true: after the transactions [done],
    the keys of [m] are distinct, and a pair [(k, n)] is recorded exactly
    when [n] is positive and is the number of transactions of type [k]. *)
Definition counted (done : list Transaction) (m : list (string * nat)) : Prop :=
  List.NoDup (List.map fst m) /\
  forall k n, In (k, n) m <-> (0 < n)%nat /\ n = count_of_type k done.

(** Both [base] and [total] are positive and [total / base] is above
    [limit]. *)
Definition ratio_above (limit base total : float) : bool :=
  gtb base 0%float && gtb total 0%float
  && gtb (PrimFloat.div total base) limit.

(** The findings of [fs] whose text starts with [h]. *)
Definition findings_headed (h : string) (fs : list DataParser.Finding)
    : list DataParser.Finding :=
  List.filter (fun f => String.eqb (heading f) h) fs.

(** A float that additions of zeros leave where it is: positive zero, or
    NaN. *)
Definition zero_or_nan (x : float) : Prop :=
  Prim2SF x = S754_zero false \/ Prim2SF x = S754_nan.

(** What the loop filling [dates_amounts] keeps true: after the
    transactions [done] the days are distinct, the credits of a day are
    still the initial [0.0] unless a transaction of that day has a positive
    amount, and the debits of a day are zero or NaN unless a transaction of
    that day has a negative amount. *)
Definition day_totals_explained (done : list Transaction)
    (m : list (string * DataParser.DayTotals)) : Prop :=
  List.NoDup (List.map fst m) /\
  forall d v, In (d, v) m ->
    ((exists c, In c done /\ date c = d /\ DataParser.is_credit c = true) \/
     DataParser.day_credits v = 0%float) /\
    ((exists b, In b done /\ date b = d /\ DataParser.is_debit b = true) \/
     zero_or_nan (DataParser.day_debits v)).

(** A transaction and a case with the identifying fields replaced by
    their tokens and every other field kept: what anonymisation is meant
    to produce. *)
Definition anonymized_txn `{!Text, !Digest} (txn : Transaction) : Transaction :=
  {| date := date txn; amount := amount txn; currency := currency txn;
     type := type txn;
     originator := Anonymization.anonymize_value (originator txn) "ORIG";
     beneficiary := Anonymization.anonymize_value (beneficiary txn) "BENF";
     description := description txn |}.

Definition anonymized `{!Text, !Digest} (case : CaseInput) : CaseInput :=
  {| case_id := case_id case;
     customer :=
       {| name := Anonymization.anonymize_value (name (customer case)) "NAME";
          account_number :=
            Anonymization.anonymize_value (account_number (customer case)) "ACCT";
          kyc_risk_rating := kyc_risk_rating (customer case);
          occupation := occupation (customer case);
          account_open_date := account_open_date (customer case);
          expected_monthly_volume := expected_monthly_volume (customer case);
          declared_income := declared_income (customer case);
          address :=
            if String.eqb (address (customer case)) "" then ""
            else Anonymization.anonymize_value (address (customer case)) "ADDR";
          pan_number :=
            if String.eqb (pan_number (customer case)) "" then ""
            else Anonymization.anonymize_value (pan_number (customer case)) "PAN" |};
     transactions := List.map anonymized_txn (transactions case);
     alert_reason := alert_reason case;
     investigation_notes := investigation_notes case;
     alert_date := alert_date case;
     assigned_analyst := assigned_analyst case |}.

(** Stripping twice is stripping once. *)
Definition strip_idempotent `{!Text} : Prop :=
  forall s, strip (strip s) = strip s.

(** A text between square brackets has nothing to strip. *)
Definition strip_keeps_tokens `{!Text} : Prop :=
  forall s, strip ("[" ++ s ++ "]")%string = ("[" ++ s ++ "]")%string.

(** The row an insert that succeeds adds to the store for a call, as it
    is read back: the timestamp is the store's, an empty dictionary is
    stored as NULL, and so is a confidence that is not a number. *)
Definition stored_event (c : AuditLogger.Call) : AuditTrail.AuditEvent :=
  let p := AuditLogger.call_payload c in
  {| AuditTrail.ev_case_id := AuditLogger.call_case_id c;
     AuditTrail.ev_timestamp :=
       AuditTrail.current_timestamp (AuditLogger.call_reading c);
     AuditTrail.ev_event_type := AuditLogger.call_event_type c;
     AuditTrail.ev_user_id := AuditLogger.call_user_id c;
     AuditTrail.ev_payload :=
       {| AuditTrail.input_data := DatabaseManager.stored (AuditTrail.input_data p);
          AuditTrail.retrieved_context :=
            DatabaseManager.stored (AuditTrail.retrieved_context p);
          AuditTrail.llm_reasoning := AuditTrail.llm_reasoning p;
          AuditTrail.generated_output := AuditTrail.generated_output p;
          AuditTrail.human_edits := DatabaseManager.stored (AuditTrail.human_edits p);
          AuditTrail.model_version := AuditTrail.model_version p;
          AuditTrail.confidence_score :=
            match AuditTrail.confidence_score p with
            | Some x => if PrimFloat.is_nan x then None else Some x
            | None => None
            end;
          AuditTrail.metadata := DatabaseManager.stored (AuditTrail.metadata p) |} |}.

(** A header pattern written out with single spaces. *)
Fixpoint spelled (p : regex) : string :=
  match p with
  | [] => ""
  | Lit w :: p' => w ++ spelled p'
  | Spaces :: p' => " " ++ spelled p'
  end.

(** [re.search] finds a header in a text that holds it written out with
    single spaces. *)
Definition search_finds_spelled `{!Text} : Prop :=
  forall p s, contains (spelled p) s = true -> is_Some (re_search p s).

(** The number of occurrences of the character [c] in [s]. *)
Fixpoint occurrences (c : ascii) (s : string) : nat :=
  match s with
  | EmptyString => 0
  | String a s' => (if Ascii.eqb a c then 1 else 0) + occurrences c s'
  end.

(** The line feed, which ends a line of a text. *)
Definition newline : ascii := "010"%char.

(** The number of line feeds in the values of [event] under the keys
    [headers], each value written by [str]. *)
Definition newlines_in_values `{!AuditLogger.Export} (headers : list string)
    (event : dict) : nat :=
  list_sum
    (List.map
       (fun h => occurrences newline (AuditLogger.str (dict_get event h (VStr ""))))
       headers).

End Spec.


(* ===================================================================== *)
(** * Reference implementations of the library interfaces                 *)
(* ===================================================================== *)

(** The interfaces of module [Py], implemented for ASCII text.  They agree
    with CPython on the inputs described at each definition, and serve to
    run the definitions above on concrete cases. *)
Module Reference.

(** ** Text *)

Fixpoint map_string (f : ascii -> ascii) (s : string) : string :=
  match s with
  | EmptyString => EmptyString
  | String c s' => String (f c) (map_string f s')
  end.

(** [c.isspace()] for an ASCII character: tab to carriage return, the four
    separators [0x1c] to [0x1f], and the space. *)
Definition is_space (c : ascii) : bool :=
  let n := nat_of_ascii c in
  ((9 <=? n) && (n <=? 13) || (28 <=? n) && (n <=? 32))%nat.

Definition lower_char (c : ascii) : ascii :=
  let n := nat_of_ascii c in
  if ((65 <=? n) && (n <=? 90))%nat then ascii_of_nat (n + 32) else c.

Definition upper_char (c : ascii) : ascii :=
  let n := nat_of_ascii c in
  if ((97 <=? n) && (n <=? 122))%nat then ascii_of_nat (n - 32) else c.

Fixpoint lstrip (s : string) : string :=
  match s with
  | EmptyString => EmptyString
  | String c s' => if is_space c then lstrip s' else s
  end.

Fixpoint rstrip (s : string) : string :=
  match s with
  | EmptyString => EmptyString
  | String c s' =>
      match rstrip s' with
      | EmptyString => if is_space c then EmptyString else String c EmptyString
      | r => String c r
      end
  end.

(** A literal word at the head of [s], letters compared without case: what
    is left of [s] after it. *)
Fixpoint match_lit (w s : string) : option string :=
  match w, s with
  | EmptyString, _ => Some s
  | String a w', String b s' =>
      if Ascii.eqb (lower_char a) (lower_char b) then match_lit w' s' else None
  | String _ _, EmptyString => None
  end.

Fixpoint leading_spaces (s : string) : nat :=
  match s with
  | String c s' => if is_space c then S (leading_spaces s') else O
  | EmptyString => O
  end.

(** A pattern at the head of [s]: the number of characters it takes.
    [\s*] is greedy and gives back one character at a time. *)
Fixpoint match_tokens (p : regex) (s : string) : option nat :=
  match p with
  | [] => Some O
  | Lit w :: p' =>
      match match_lit w s with
      | Some rest =>
          match match_tokens p' rest with
          | Some n => Some (String.length w + n)%nat
          | None => None
          end
      | None => None
      end
  | Spaces :: p' =>
      (fix try (k : nat) : option nat :=
         match match_tokens p' (Py.from k s) with
         | Some n => Some (k + n)%nat
         | None =>
             match k with
             | O => None
             | S k' => try k'
             end
         end) (leading_spaces s)
  end.

(** The leftmost match at or after position [i], [s] being the text from
    [i] on. *)
Fixpoint search_from (p : regex) (s : string) (i : nat) : option (nat * nat) :=
  match match_tokens p s with
  | Some n => Some (i, (i + n)%nat)
  | None =>
      match s with
      | EmptyString => None
      | String _ s' => search_from p s' (S i)
      end
  end.

#[global] Instance text : Text :=
  {| strip := fun s => rstrip (lstrip s);
     lower := map_string lower_char;
     upper := map_string upper_char;
     re_search := fun p s => search_from p s O |}.

(** ** Number formatting *)

Definition str_of_Z (z : Z) : string :=
  NilZero.string_of_uint (N.to_uint (Z.to_N z)).

(** [digits] left-padded with zeros to [width]. *)
Definition zero_pad (width : nat) (digits : string) : string :=
  String.concat "" (List.repeat "0" (width - String.length digits)) ++ digits.

(** The digits of a non-negative integer with a comma every three digits
    from the right. *)
Fixpoint group_digits (fuel : nat) (z : Z) : string :=
  match fuel with
  | O => str_of_Z z
  | S fuel' =>
      if (z <? 1000)%Z then str_of_Z z
      else group_digits fuel' (z / 1000)%Z ++ ","
           ++ zero_pad 3 (str_of_Z (z mod 1000)%Z)
  end.

(** The integer nearest to [m * 2^e * 10^d], ties to the even one: the
    rounding of a correctly rounded conversion to [d] decimals. *)
Definition scaled_round (m : positive) (e : Z) (d : nat) : Z :=
  let num := Zpos m * 10 ^ Z.of_nat d in
  match e with
  | Zneg p =>
      let den := 2 ^ Zpos p in
      let q := num / den in
      let r := num mod den in
      match 2 * r ?= den with
      | Lt => q
      | Gt => q + 1
      | Eq => if Z.even q then q else q + 1
      end
  | _ => num * 2 ^ e
  end.

(** [format(x, ".df")], and with [grouping] [format(x, ",.df")], for
    [d >= 1]. *)
Definition format_fixed (d : nat) (grouping : bool) (x : float) : string :=
  let body (n : Z) : string :=
    let whole := (n / 10 ^ Z.of_nat d)%Z in
    let part := (n mod 10 ^ Z.of_nat d)%Z in
    ((if grouping then group_digits 120 whole else str_of_Z whole)
     ++ "." ++ zero_pad d (str_of_Z part))%string in
  match Prim2SF x with
  | S754_nan => "nan"
  | S754_infinity s => if s then "-inf" else "inf"
  | S754_zero s => (if s then "-" else "") ++ body 0
  | S754_finite s m e => (if s then "-" else "") ++ body (scaled_round m e d)
  end.

#[global] Instance format : Format :=
  {| fmt_1f := format_fixed 1 false;
     fmt_c2f := format_fixed 2 true |}.

(** ** JSON of the audit data *)

(** The double quote. *)
Definition dquote : string := String (ascii_of_nat 34) EmptyString.

Definition hex_digit (n : N) : ascii :=
  if (n <? 10)%N then ascii_of_N (48 + n) else ascii_of_N (87 + n).

(** A character inside a JSON string, with [ensure_ascii]; a character
    above [0x7f] is a byte of an encoded character and is left as it is
    here. *)
Definition json_char (c : ascii) : string :=
  let n := N_of_ascii c in
  if (n =? 34)%N then "\" ++ dquote
  else if (n =? 92)%N then "\\"
  else if (n =? 10)%N then "\n"
  else if (n =? 13)%N then "\r"
  else if (n =? 9)%N then "\t"
  else if (n =? 8)%N then "\b"
  else if (n =? 12)%N then "\f"
  else if ((n <? 32) || (n =? 127))%N then
    "\u00" ++ String (hex_digit (n / 16)) (String (hex_digit (n mod 16)) "")
  else String c "".

Fixpoint json_escape (s : string) : string :=
  match s with
  | EmptyString => EmptyString
  | String c s' => json_char c ++ json_escape s'
  end.

Definition json_str (s : string) : string := dquote ++ json_escape s ++ dquote.

#[global] Instance json : LLMOrchestrator.Json :=
  {| LLMOrchestrator.json_dumps := fun a =>
       ("{" ++ json_str "prompt_length" ++ ": "
       ++ str_of_nat (LLMOrchestrator.prompt_length a) ++ ", "
       ++ json_str "response_length" ++ ": "
       ++ str_of_nat (LLMOrchestrator.response_length a) ++ ", "
       ++ json_str "model" ++ ": " ++ json_str (LLMOrchestrator.ad_model a) ++ ", "
       ++ json_str "prompt_preview" ++ ": "
       ++ json_str (LLMOrchestrator.prompt_preview a) ++ ", "
       ++ json_str "response_preview" ++ ": "
       ++ json_str (LLMOrchestrator.response_preview a) ++ "}")%string |}.

(** ** Calendar *)

(** Days of the proleptic Gregorian calendar, day 1 being 0001-01-01. *)
Definition is_leap (y : Z) : bool :=
  (y mod 4 =? 0) && (negb (y mod 100 =? 0) || (y mod 400 =? 0)).

Definition days_in_month (y m : Z) : Z :=
  if m =? 2 then (if is_leap y then 29 else 28)
  else if (m =? 4) || (m =? 6) || (m =? 9) || (m =? 11) then 30
  else 31.

Definition days_before_year (y : Z) : Z :=
  let p := y - 1 in p * 365 + p / 4 - p / 100 + p / 400.

Fixpoint days_before_month (y : Z) (m : nat) : Z :=
  match m with
  | O => 0
  | S O => 0
  | S m' => days_before_month y m' + days_in_month y (Z.of_nat m')
  end.

Definition to_ordinal (y m d : Z) : Z :=
  days_before_year y + days_before_month y (Z.to_nat m) + d.

(** The year of an ordinal: the last year that starts before it. *)
Definition year_of (n : Z) : Z :=
  let y := (n - 1) / 366 + 1 in
  (fix up (fuel : nat) (y : Z) : Z :=
     match fuel with
     | O => y
     | S fuel' => if days_before_year (y + 1) <? n then up fuel' (y + 1) else y
     end) 40%nat y.

Definition month_of (y : Z) (rest : Z) : Z :=
  (fix up (fuel : nat) (m : Z) : Z :=
     match fuel with
     | O => m
     | S fuel' =>
         if days_before_month y (Z.to_nat (m + 1)) <? rest then up fuel' (m + 1)
         else m
     end) 11%nat 1.

(** A run of decimal digits as a number. *)
Definition digit (c : ascii) : option Z :=
  let n := Z.of_nat (nat_of_ascii c) in
  if (48 <=? n) && (n <=? 57) then Some (n - 48) else None.

(** The alternatives of a directive of [strptime], in the order in which
    the pattern of the directive tries them: each gives a value and what
    is left of the text. *)
Definition two_digits (lo hi : Z) (s : string) : list (Z * string) :=
  match s with
  | String a (String b rest) =>
      match digit a, digit b with
      | Some x, Some y =>
          if (lo <=? 10 * x + y) && (10 * x + y <=? hi) then [(10 * x + y, rest)]
          else []
      | _, _ => []
      end
  | _ => []
  end.

Definition one_digit (s : string) : list (Z * string) :=
  match s with
  | String a rest =>
      match digit a with
      | Some x => if 1 <=? x then [(x, rest)] else []
      | None => []
      end
  | _ => []
  end.

(** [%m]: [1[0-2]|0[1-9]|[1-9]] *)
Definition directive_m (s : string) : list (Z * string) :=
  two_digits 10 12 s ++ two_digits 1 9 s ++ one_digit s.

(** [%d]: [3[0-1]|[1-2]\d|0[1-9]|[1-9]| [1-9]] *)
Definition directive_d (s : string) : list (Z * string) :=
  two_digits 30 31 s ++ two_digits 10 29 s ++ two_digits 1 9 s ++ one_digit s
  ++ match s with
     | String " " rest => one_digit rest
     | _ => []
     end.

(** [%Y]: four digits *)
Definition directive_Y (s : string) : list (Z * string) :=
  match s with
  | String a (String b (String c (String d rest))) =>
      match digit a, digit b, digit c, digit d with
      | Some x, Some y, Some z, Some w =>
          [(1000 * x + 100 * y + 10 * z + w, rest)]
      | _, _, _, _ => []
      end
  | _ => []
  end.

Definition dash (s : string) : list string :=
  match s with
  | String "-" rest => [rest]
  | _ => []
  end.

(** The date of the fields found, when it exists. *)
Definition make_date (y m d : Z) : option Z :=
  if (1 <=? y) && (d <=? days_in_month y m) then Some (to_ordinal y m d)
  else None.

(** The first way to read the whole text decides. *)
Definition first_parse (l : list (Z * Z * Z)) : option Z :=
  match l with
  | [] => None
  | (y, m, d) :: _ => make_date y m d
  end.

Definition parse_ymd (s : string) : option Z :=
  first_parse
    ('(y, s1) ← directive_Y s; s2 ← dash s1;
     '(m, s3) ← directive_m s2; s4 ← dash s3;
     '(d, s5) ← directive_d s4;
     if String.eqb s5 "" then [(y, m, d)] else []).

Definition parse_dmy (s : string) : option Z :=
  first_parse
    ('(d, s1) ← directive_d s; s2 ← dash s1;
     '(m, s3) ← directive_m s2; s4 ← dash s3;
     '(y, s5) ← directive_Y s4;
     if String.eqb s5 "" then [(y, m, d)] else []).

(** [%Y-%m-%d] of a day, the year on four digits. *)
Definition format_ymd (n : Z) : string :=
  let y := year_of n in
  let rest := n - days_before_year y in
  let m := month_of y rest in
  let d := rest - days_before_month y (Z.to_nat m) in
  zero_pad 4 (str_of_Z y) ++ "-" ++ zero_pad 2 (str_of_Z m) ++ "-"
  ++ zero_pad 2 (str_of_Z d).

#[global] Instance calendar : Calendar :=
  {| strptime_ymd := parse_ymd;
     strptime_dmy := parse_dmy;
     strftime_ymd := format_ymd |}.

(** ** MD5 *)

Definition md5_shifts : list Z :=
  [ 7; 12; 17; 22; 7; 12; 17; 22; 7; 12; 17; 22; 7; 12; 17; 22;
    5; 9; 14; 20; 5; 9; 14; 20; 5; 9; 14; 20; 5; 9; 14; 20;
    4; 11; 16; 23; 4; 11; 16; 23; 4; 11; 16; 23; 4; 11; 16; 23;
    6; 10; 15; 21; 6; 10; 15; 21; 6; 10; 15; 21; 6; 10; 15; 21 ].

Definition md5_sines : list Z :=
  [ 3614090360; 3905402710; 606105819; 3250441966;
    4118548399; 1200080426; 2821735955; 4249261313;
    1770035416; 2336552879; 4294925233; 2304563134;
    1804603682; 4254626195; 2792965006; 1236535329;
    4129170786; 3225465664; 643717713; 3921069994;
    3593408605; 38016083; 3634488961; 3889429448;
    568446438; 3275163606; 4107603335; 1163531501;
    2850285829; 4243563512; 1735328473; 2368359562;
    4294588738; 2272392833; 1839030562; 4259657740;
    2763975236; 1272893353; 4139469664; 3200236656;
    681279174; 3936430074; 3572445317; 76029189;
    3654602809; 3873151461; 530742520; 3299628645;
    4096336452; 1126891415; 2878612391; 4237533241;
    1700485571; 2399980690; 4293915773; 2240044497;
    1873313359; 4264355552; 2734768916; 1309151649;
    4149444226; 3174756917; 718787259; 3951481745 ].

Definition w32 (z : Z) : Z := z mod 2 ^ 32.

Definition rotl32 (x n : Z) : Z :=
  w32 (Z.lor (Z.shiftl x n) (Z.shiftr x (32 - n))).

Definition not32 (x : Z) : Z := Z.lxor x (2 ^ 32 - 1).

(** The bytes of a message, padded to a multiple of 64 bytes. *)
Definition bytes_of (s : string) : list Z :=
  List.map (fun c => Z.of_nat (nat_of_ascii c)) (list_ascii_of_string s).

Definition le_bytes (count : nat) (z : Z) : list Z :=
  List.map (fun i => (z / 2 ^ (8 * Z.of_nat i)) mod 256) (seq 0 count).

Definition md5_pad (msg : list Z) : list Z :=
  let len := Z.of_nat (length msg) in
  let zeros := Z.to_nat ((55 - len) mod 64) in
  msg ++ [128] ++ List.repeat 0 zeros ++ le_bytes 8 ((8 * len) mod 2 ^ 64).

Fixpoint le_words (fuel : nat) (bytes : list Z) : list Z :=
  match fuel, bytes with
  | S fuel', a :: b :: c :: d :: rest =>
      (a + 256 * b + 65536 * c + 16777216 * d) :: le_words fuel' rest
  | _, _ => []
  end.

Definition md5_round (words : list Z) (st : Z * Z * Z * Z) (i : nat)
    : Z * Z * Z * Z :=
  let '(a, b, c, d) := st in
  let '(f, g) :=
    if (i <? 16)%nat then (Z.lor (Z.land b c) (Z.land (not32 b) d), i)
    else if (i <? 32)%nat then
      (Z.lor (Z.land d b) (Z.land (not32 d) c), ((5 * i + 1) mod 16)%nat)
    else if (i <? 48)%nat then (Z.lxor (Z.lxor b c) d, ((3 * i + 5) mod 16)%nat)
    else (Z.lxor c (Z.lor b (not32 d)), ((7 * i) mod 16)%nat) in
  let f := w32 (f + a + nth i md5_sines 0 + nth g words 0) in
  (d, w32 (b + rotl32 f (nth i md5_shifts 0)), b, c).

Definition md5_block (st : Z * Z * Z * Z) (words : list Z) : Z * Z * Z * Z :=
  let '(a, b, c, d) := st in
  let '(a', b', c', d') := fold_left (md5_round words) (seq 0 64) st in
  (w32 (a + a'), w32 (b + b'), w32 (c + c'), w32 (d + d')).

Fixpoint md5_blocks (fuel : nat) (st : Z * Z * Z * Z) (words : list Z)
    : Z * Z * Z * Z :=
  match fuel, words with
  | S fuel', _ :: _ =>
      md5_blocks fuel' (md5_block st (firstn 16 words)) (skipn 16 words)
  | _, _ => st
  end.

Definition hex_byte (z : Z) : string :=
  String (hex_digit (Z.to_N (z / 16))) (String (hex_digit (Z.to_N (z mod 16))) "").

Definition md5 (s : string) : string :=
  let bytes := md5_pad (bytes_of s) in
  let words := le_words (length bytes) bytes in
  let '(a, b, c, d) :=
    md5_blocks (length words)
      (1732584193, 4023233417, 2562383102, 271733878) words in
  String.concat ""
    (List.map hex_byte (le_bytes 4 a ++ le_bytes 4 b ++ le_bytes 4 c ++ le_bytes 4 d)).

#[global] Instance digest : Digest := {| md5_hexdigest := md5 |}.

End Reference.


(* ===================================================================== *)
(** * Sample cases                                                        *)
(* ===================================================================== *)

Module Samples.
Import Reference.

Definition txn (day : string) (value : float) (source : string) : Transaction :=
  {| date := day; amount := value; currency := "INR"; type := "Cash Deposit";
     originator := source; beneficiary := "ACC-20417";
     description := "Counter deposit" |}.

Definition customer_of (rating : string) : CustomerInfo :=
  {| name := "Asha Rao"; account_number := "ACC-20417";
     kyc_risk_rating := rating; occupation := "Textile trader";
     account_open_date := "2019-06-03";
     expected_monthly_volume := 0%float; declared_income := 0%float;
     address := ""; pan_number := "" |}.

Definition case_of (transactions : list Transaction) : CaseInput :=
  {| case_id := "CASE-0042"; customer := customer_of "Medium";
     transactions := transactions;
     alert_reason := "Repeated deposits under the reporting limit";
     investigation_notes := ""; alert_date := "2025-03-10";
     assigned_analyst := "system" |}.

(** Four deposits of 950,000, expected monthly volume 0. *)
Definition four_deposits : CaseInput :=
  case_of [ txn "2025-03-03" 950000%float "Branch A";
            txn "2025-03-04" 950000%float "Branch B";
            txn "2025-03-05" 950000%float "Branch A";
            txn "2025-03-06" 950000%float "Branch C" ].

(** The statistics of a list of transactions, the degenerate record
    standing in for a failure. *)
Definition stats_of (transactions : list Transaction) : DataParser.Stats :=
  match DataParser.calculate_transaction_stats transactions with
  | Ok stats => stats
  | Raise _ => DataParser.empty_stats
  end.

(** One credit, one debit and one large credit. *)
Definition three_amounts : list Transaction :=
  [ txn "2025-03-03" 1%float "Branch A";
    txn "2025-03-03" (-1)%float "Branch A";
    txn "2025-03-04" 1e16%float "Branch B" ].

(** A credit, a debit and a transaction of amount zero. *)
Definition with_zero_amount : list Transaction :=
  [ txn "2025-03-03" 2500%float "Branch A";
    txn "2025-03-03" (-700)%float "Branch A";
    txn "2025-03-04" 0%float "Branch B" ].

(** A case with one transaction whose amount is not a number. *)
Definition nan_case : CaseInput :=
  case_of [ txn "2025-03-03" nan "Branch A" ].

(** An orchestrator whose prompt files are missing, so that it uses the
    default user template, and whose backend is unreachable. *)
Definition offline_llm : LLMOrchestrator.t :=
  {| LLMOrchestrator.model := "llama3";
     LLMOrchestrator.system_prompt :=
       "You are an expert compliance analyst specializing in Suspicious Transaction Reports under PMLA, 2002.";
     LLMOrchestrator.user_template_format := fun a =>
       Ok ("Generate a SAR narrative for case: " ++ LLMOrchestrator.pa_case_id a ++ "
Alert: " ++ LLMOrchestrator.pa_alert_reason a ++ "
Patterns: " ++ LLMOrchestrator.pa_patterns a ++ "
Typology: " ++ LLMOrchestrator.pa_typology a ++ "
Risk Score: " ++ NilZero.string_of_int (Z.to_int (LLMOrchestrator.pa_risk_score a))
           ++ "/100")%string;
     LLMOrchestrator.backend := fun _ _ =>
       Raise (RuntimeError "All LLM backends failed: connection refused") |}.

(** A generator over an empty similarity store. *)
Definition generator : SARGenerator.t :=
  {| SARGenerator.parser := {| DataParser.anonymize := true |};
     SARGenerator.rag :=
       {| RAGEngine.collection_query := fun _ _ _ => [];
          RAGEngine.typology_file := None |};
     SARGenerator.llm := offline_llm |}.

(** A similarity store whose nearest typology document is the one of
    structuring, at distance 0.3. *)
Definition structuring_store : RAGEngine.t :=
  {| RAGEngine.collection_query := fun _ _ kind =>
       if String.eqb kind "typology" then
         [ {| RAGEngine.hit_id := "typology_structuring";
              RAGEngine.hit_document := "Structuring";
              RAGEngine.hit_metadata := {[ "typology" := "structuring" ]};
              RAGEngine.hit_distance := Some 0x1.3333333333333p-2%float |} ]
       else [];
     RAGEngine.typology_file := None |}.

(** A clock that advances by one tick per call, the store following it. *)
Definition ticking (k : nat) : AuditTrail.Reading :=
  {| AuditTrail.now := 100 + Z.of_nat k;
     AuditTrail.current_timestamp := 100 + Z.of_nat k;
     AuditTrail.insert_fails := false |}.

(** Readings of the environment: the clock at [now], the store at
    [stamp]. *)
Definition reading (now stamp : Z) (fails : bool) : AuditTrail.Reading :=
  {| AuditTrail.now := now; AuditTrail.current_timestamp := stamp;
     AuditTrail.insert_fails := fails |}.

Definition call (rd : AuditTrail.Reading) (event_type : string) : AuditLogger.Call :=
  {| AuditLogger.call_reading := rd; AuditLogger.call_case_id := "CASE-0042";
     AuditLogger.call_event_type := event_type;
     AuditLogger.call_user_id := "system";
     AuditLogger.call_payload := AuditTrail.no_payload |}.



(** Two calls in good order. *)
Definition two_calls : list AuditLogger.Call :=
  [ call (reading 100 100 false) "data_input";
    call (reading 101 100 false) "analysis" ].



(** A row left in the store by an earlier run. *)
Definition earlier_row : AuditTrail.AuditEvent :=
  {| AuditTrail.ev_case_id := "CASE-0042"; AuditTrail.ev_timestamp := 7;
     AuditTrail.ev_event_type := "data_input";
     AuditTrail.ev_user_id := "system";
     AuditTrail.ev_payload := AuditTrail.no_payload |}.

End Samples.

(* ===================================================================== *)
(** * Binary64 facts                                                      *)
(* ===================================================================== *)

(** The comparisons of primitive floats, read on their specification. *)

Lemma SF_zero : Prim2SF 0%float = S754_zero false.
Proof. reflexivity. Qed.

Ltac float_spec :=
  rewrite ?FloatAxioms.ltb_spec, ?FloatAxioms.leb_spec,
    ?FloatAxioms.eqb_spec, ?FloatAxioms.abs_spec in *.

Lemma ltb_leb (a b : float) :
  PrimFloat.ltb a b = true -> PrimFloat.leb a b = true.
Proof.
  float_spec. unfold SFltb, SFleb.
  destruct (SFcompare (Prim2SF a) (Prim2SF b)) as [[]|]; congruence.
Qed.

Lemma ltb_not_nan_l (a b : float) :
  PrimFloat.ltb a b = true -> Prim2SF a <> S754_nan.
Proof.
  float_spec. intros H E. rewrite E in H. discriminate.
Qed.

Lemma positive_not_zero (a : float) :
  PrimFloat.ltb 0%float a = true -> PrimFloat.eqb a 0%float = false.
Proof.
  float_spec. rewrite SF_zero.
  destruct (Prim2SF a) as [s|s| |s m e]; try destruct s; cbn; congruence.
Qed.

Lemma truediv_positive (a b : float) :
  gtb b 0%float = true -> truediv a b = Ok (PrimFloat.div a b).
Proof.
  unfold gtb, truediv. intros H. now rewrite (positive_not_zero b H).
Qed.

(* ===================================================================== *)
(** * The risk score                                                      *)
(* ===================================================================== *)

Section RiskScore.
Import DataParser.

Lemma volume_term_range (expected total : float) :
  exists v, volume_term expected total = Ok v /\ 0 <= v <= 25.
Proof.
  unfold volume_term.
  destruct (gtb expected 0%float) eqn:He; cbn [andb].
  - destruct (gtb total 0%float); [|exists 0; split; [reflexivity | lia]].
    rewrite (truediv_positive _ _ He). cbn.
    repeat match goal with
           | |- context [if ?c then _ else _] => destruct c
           end; eexists; (split; [reflexivity | lia]).
  - exists 0. split; [reflexivity | lia].
Qed.

Lemma risk_map_get_range (rating : string) : 0 <= risk_map_get rating <= 15.
Proof.
  unfold risk_map_get.
  repeat match goal with
         | |- context [if ?c then _ else _] => destruct c
         end; lia.
Qed.

Lemma originators_term_range (n : nat) : 0 <= originators_term n <= 10.
Proof.
  unfold originators_term.
  repeat match goal with
         | |- context [if ?c then _ else _] => destruct c
         end; lia.
Qed.

(** The score as a function of the number of findings and of the three
    other terms. *)
Lemma calculate_risk_score_eq (patterns : list string) (stats : Stats)
    (case : CaseInput) :
  exists v, 0 <= v <= 25 /\
    calculate_risk_score patterns stats case =
      Ok (Z.min (Z.min (Z.of_nat (length patterns) * 10) 40 + v
                 + risk_map_get (kyc_risk_rating (customer case))
                 + originators_term (unique_originators stats)) 100) /\
    volume_term (expected_monthly_volume (customer case)) (total_volume stats) = Ok v.
Proof.
  destruct (volume_term_range (expected_monthly_volume (customer case))
              (total_volume stats)) as (v & Hv & Hr).
  exists v. split; [exact Hr|]. split; [|exact Hv].
  unfold calculate_risk_score. rewrite Hv. reflexivity.
Qed.

(** C1.  [calculate_risk_score] returns, for every list of findings, every
    statistics record and every case, an integer between 0 and 100, and with
    the statistics and the case fixed a longer list of findings never gets a
    smaller score. *)
Theorem risk_score_range_and_monotone (stats : Stats) (case : CaseInput)
    (patterns patterns' : list string) :
  (length patterns <= length patterns')%nat ->
  exists score score' : Z,
    calculate_risk_score patterns stats case = Ok score /\
    calculate_risk_score patterns' stats case = Ok score' /\
    (0 <= score <= 100) /\ (0 <= score' <= 100) /\ score <= score'.
Proof.
  intros Hlen.
  destruct (calculate_risk_score_eq patterns stats case) as (v & Hv & E & Hvol).
  destruct (calculate_risk_score_eq patterns' stats case) as (v' & Hv' & E' & Hvol').
  assert (v' = v) by congruence. subst v'.
  pose proof (risk_map_get_range (kyc_risk_rating (customer case))).
  pose proof (originators_term_range (unique_originators stats)).
  eexists _, _. split; [exact E|]. split; [exact E'|].
  repeat split; lia.
Qed.

End RiskScore.

(* ===================================================================== *)
(** * Pattern detection                                                   *)
(* ===================================================================== *)

Section Patterns.
Import DataParser.

Lemma threshold_times_point_eight :
  PrimFloat.mul threshold point_eight = 800000%float.
Proof. reflexivity. Qed.

(** Above a positive constant is above zero. *)
Lemma above_positive (c a : float) (m : positive) (e : Z) :
  Prim2SF c = S754_finite false m e ->
  PrimFloat.ltb c a = true -> PrimFloat.ltb 0%float a = true.
Proof.
  float_spec. rewrite SF_zero. intros ->.
  destruct (Prim2SF a) as [s|s| |s m' e']; try destruct s; cbn; congruence.
Qed.

(** The test of the code selects the amounts strictly between 800,000 and
    1,000,000. *)
Lemma near_threshold_test_band (t : Transaction) :
  near_threshold_test t = Spec.in_structuring_band t.
Proof.
  unfold near_threshold_test, Spec.in_structuring_band, gtb, threshold.
  fold threshold. rewrite threshold_times_point_eight. unfold threshold.
  destruct (PrimFloat.ltb 800000%float (amount t)) eqn:Hlo.
  - rewrite (above_positive 800000%float (amount t) _ _ eq_refl Hlo).
    cbn. now rewrite andb_true_r.
  - now rewrite andb_false_r.
Qed.

Lemma near_threshold_band (txns : list Transaction) :
  near_threshold txns = List.filter Spec.in_structuring_band txns.
Proof.
  unfold near_threshold. induction txns as [|t txns IH]; [reflexivity|].
  cbn. now rewrite IH, near_threshold_test_band.
Qed.

Lemma ratio_pattern_cases (mk : float -> Finding) (limit base total : float) :
  exists l, ratio_pattern mk limit base total = Ok l /\
            (l = [] \/ exists r, l = [mk r]).
Proof.
  unfold ratio_pattern.
  destruct (gtb base 0%float) eqn:Hb; cbn [andb]; [|eauto].
  destruct (gtb total 0%float); [|eauto].
  rewrite (truediv_positive _ _ Hb). cbn.
  match goal with
  | |- context [if ?c then _ else _] => destruct c
  end; eauto.
Qed.

(** [pattern_findings] returns, and what it returns. *)
Lemma pattern_findings_eq (case : CaseInput) (stats : Stats) :
  exists spike income,
    (spike = [] \/ exists r, spike = [VolumeSpike r]) /\
    (income = [] \/ exists r, income = [IncomeMismatch r]) /\
    pattern_findings case stats =
      Ok (match transactions case with
          | [] => []
          | txns =>
              pattern_structuring txns ++ spike ++ pattern_rapid_movement txns
              ++ pattern_small_deposits txns ++ income
              ++ pattern_originators stats ++ pattern_round_numbers txns
              ++ pattern_large txns ++ pattern_high_risk txns
          end).
Proof.
  destruct (ratio_pattern_cases VolumeSpike 3%float
              (expected_monthly_volume (customer case)) (total_volume stats))
    as (spike & Hs & Hs').
  destruct (ratio_pattern_cases IncomeMismatch 2%float
              (declared_income (customer case)) (total_volume stats))
    as (income & Hi & Hi').
  exists spike, income. split; [exact Hs'|]. split; [exact Hi'|].
  unfold pattern_findings, pattern_volume_spike, pattern_income_mismatch.
  destruct (transactions case); [reflexivity|].
  rewrite Hs, Hi. reflexivity.
Qed.

(** The findings of the eight other heuristics are no structuring
    findings. *)
Lemma structuring_only_from_pattern_1 (case : CaseInput) (stats : Stats)
    (fs : list Finding) (n : nat) :
  pattern_findings case stats = Ok fs ->
  In (Structuring n) fs ->
  In (Structuring n) (pattern_structuring (transactions case)).
Proof.
  destruct (pattern_findings_eq case stats) as (spike & income & Hs & Hi & E).
  rewrite E. intros [= <-]. destruct (transactions case) as [|t txns]; [easy|].
  set (all := t :: txns).
  rewrite !in_app_iff.
  intros [H|[H|[H|[H|[H|[H|[H|[H|H]]]]]]]]; [exact H|exfalso..].
  - destruct Hs as [->|[r ->]]; [easy|]. now destruct H.
  - apply in_map_iff in H. now destruct H as (? & ? & _).
  - unfold pattern_small_deposits in H.
    destruct (5 <=? _)%nat; [|easy]. now destruct H.
  - destruct Hi as [->|[r ->]]; [easy|]. now destruct H.
  - unfold pattern_originators in H.
    destruct (10 <? _)%nat; [|easy]. now destruct H.
  - unfold pattern_round_numbers in H.
    destruct (3 <=? _)%nat; [|easy]. now destruct H.
  - apply in_map_iff in H. now destruct H as (? & ? & _).
  - unfold pattern_high_risk in H.
    destruct (hr_txns all); [easy|]. now destruct H.
Qed.

Lemma pattern_structuring_in (txns : list Transaction) (n : nat) :
  In (Structuring n) (pattern_structuring txns) <->
  n = length (near_threshold txns) /\ (3 <= n)%nat.
Proof.
  unfold pattern_structuring.
  destruct (3 <=? length (near_threshold txns))%nat eqn:E.
  - apply Nat.leb_le in E. cbn. split.
    + intros [[= <-]|[]]. split; [reflexivity | exact E].
    + intros [-> _]. now left.
  - apply Nat.leb_gt in E. cbn. split; [easy|]. intros [-> H]. lia.
Qed.

Lemma pattern_structuring_first (case : CaseInput) (stats : Stats)
    (fs : list Finding) (n : nat) :
  pattern_findings case stats = Ok fs ->
  In (Structuring n) (pattern_structuring (transactions case)) ->
  In (Structuring n) fs.
Proof.
  destruct (pattern_findings_eq case stats) as (spike & income & _ & _ & E).
  rewrite E. intros [= <-] H.
  destruct (transactions case) as [|t txns]; [exact H|].
  apply in_app_iff. now left.
Qed.

Section Texts.
Context `{!Format}.

Lemma prefix_append (w s : string) : String.prefix w (w ++ s) = true.
Proof.
  induction w as [|a w IH].
  - now destruct s.
  - change (String.prefix (String a w) (String a (w ++ s)) = true).
    cbn [String.prefix].
    destruct (Ascii.ascii_dec a a); [exact IH | congruence].
Qed.

Lemma describe_structuring (f : Finding) :
  Spec.is_structuring_text (describe f) = true <-> exists n, f = Structuring n.
Proof.
  split.
  - destruct f; cbn; try discriminate. eauto.
  - intros [n ->]. apply prefix_append.
Qed.

(** C3.  [identify_patterns] returns a list of findings that holds a
    structuring finding if and only if at least three transactions have an
    amount strictly between 800,000 and 1,000,000; an amount of exactly
    800,000 or exactly 1,000,000 fails the test of the code and so never
    counts. *)
Theorem structuring_iff_three_in_band (case : CaseInput) (stats : Stats) :
  exists patterns,
    identify_patterns case stats = Ok patterns /\
    ((exists s, In s patterns /\ Spec.is_structuring_text s = true) <->
     (3 <= length (List.filter Spec.in_structuring_band (transactions case)))%nat) /\
    (forall t, amount t = 800000%float \/ amount t = 1000000%float ->
               near_threshold_test t = false /\
               Spec.in_structuring_band t = false).
Proof.
  destruct (pattern_findings_eq case stats) as (spike & income & _ & _ & E).
  eexists. split; [unfold identify_patterns; rewrite E; reflexivity|].
  split.
  - rewrite <- near_threshold_band. split.
    + intros (s & Hin & Hs). apply in_map_iff in Hin.
      destruct Hin as (f & <- & Hf).
      apply describe_structuring in Hs. destruct Hs as [n ->].
      apply (structuring_only_from_pattern_1 case stats _ n E) in Hf.
      apply pattern_structuring_in in Hf. now destruct Hf as [<- Hge].
    + intros Hge.
      set (n := length (near_threshold (transactions case))) in *.
      exists (describe (Structuring n)).
      split; [|apply describe_structuring; eauto].
      apply in_map. apply (pattern_structuring_first case stats _ n E).
      apply pattern_structuring_in. now split.
  - intros t Ht. rewrite near_threshold_test_band.
    unfold Spec.in_structuring_band.
    destruct Ht as [-> | ->]; split; reflexivity.
Qed.

Lemma describe_round_number (n : nat) :
  Spec.is_round_number_text (describe (RoundNumbers n)) = true.
Proof. apply prefix_append. Qed.

(** C4, as the code has it.  A case of four transactions of 950,000 each
    with an expected monthly volume of 0 gets a structuring finding and a
    round-number finding, its volume-deviation term is 0, and its score is
    at least 20: two findings are certain, and the pattern term is 10 per
    finding up to 40. *)
Theorem four_just_below_threshold (case : CaseInput) (stats : Stats) :
  List.map amount (transactions case)
    = [950000%float; 950000%float; 950000%float; 950000%float] ->
  expected_monthly_volume (customer case) = 0%float ->
  exists patterns score,
    identify_patterns case stats = Ok patterns /\
    (exists s, In s patterns /\ Spec.is_structuring_text s = true) /\
    (exists s, In s patterns /\ Spec.is_round_number_text s = true) /\
    volume_term (expected_monthly_volume (customer case)) (total_volume stats)
      = Ok 0 /\
    calculate_risk_score patterns stats case = Ok score /\
    20 <= score <= 100.
Proof.
  intros Hamounts Hexpected.
  destruct (transactions case) as [|t1 [|t2 [|t3 [|t4 [|? ?]]]]] eqn:Htx;
    try discriminate.
  injection Hamounts as H1 H2 H3 H4.
  assert (Hs : pattern_structuring (transactions case) = [Structuring 4]).
  { rewrite Htx. unfold pattern_structuring, near_threshold. cbn [List.filter].
    unfold near_threshold_test. rewrite H1, H2, H3, H4. reflexivity. }
  assert (Hr : pattern_round_numbers (transactions case) = [RoundNumbers 4]).
  { rewrite Htx. unfold pattern_round_numbers, round_txns. cbn [List.filter].
    rewrite H1, H2, H3, H4. reflexivity. }
  destruct (pattern_findings_eq case stats) as (spike & income & _ & _ & E).
  rewrite Htx in E. cbv beta iota zeta in E. rewrite <- Htx in E.
  rewrite Hs, Hr in E.
  destruct (calculate_risk_score_eq
              (List.map describe
                 ([Structuring 4] ++ spike
                  ++ pattern_rapid_movement (transactions case)
                  ++ pattern_small_deposits (transactions case) ++ income
                  ++ pattern_originators stats ++ [RoundNumbers 4]
                  ++ pattern_large (transactions case)
                  ++ pattern_high_risk (transactions case)))
              stats case) as (v & Hv & Escore & Hvol).
  assert (Hvol0 : volume_term (expected_monthly_volume (customer case))
                    (total_volume stats) = Ok 0).
  { rewrite Hexpected. reflexivity. }
  assert (v = 0) by congruence. subst v.
  eexists _, _.
  split; [unfold identify_patterns; rewrite E; reflexivity|].
  split.
  { exists (describe (Structuring 4)).
    split; [apply in_map; now left|].
    apply describe_structuring. eauto. }
  split.
  { exists (describe (RoundNumbers 4)). split; [|apply describe_round_number].
    apply in_map. rewrite !in_app_iff. do 6 right. left. now left. }
  split; [exact Hvol0|]. split; [exact Escore|].
  pose proof (risk_map_get_range (kyc_risk_rating (customer case))).
  pose proof (originators_term_range (unique_originators stats)).
  rewrite length_map, !length_app. cbn [length]. lia.
Qed.

End Texts.

End Patterns.

(* ===================================================================== *)
(** * Transaction statistics                                              *)
(* ===================================================================== *)

Section Statistics.
Import DataParser.
Context `{!Calendar}.

Lemma min_listZ_returns (x : Z) (l : list Z) : returns (min_listZ (x :: l)).
Proof. now eexists. Qed.

Lemma max_listZ_returns (x : Z) (l : list Z) : returns (max_listZ (x :: l)).
Proof. now eexists. Qed.

(** On a non-empty list the function returns, and every field but the
    three of the date range is as written here. *)
Lemma calculate_transaction_stats_cons (t : Transaction) (txns : list Transaction) :
  let all := t :: txns in
  exists s,
    calculate_transaction_stats all = Ok s /\
    total_transactions s = length all /\
    total_volume s = Py.sum (abs_amounts all) /\
    total_credits s = Py.sum (List.map amount (credits all)) /\
    total_debits s =
      Py.sum (List.map (fun t => PrimFloat.abs (amount t)) (debits all)) /\
    credit_count s = length (credits all) /\
    debit_count s = length (debits all) /\
    avg_amount s =
      PrimFloat.div (Py.sum (abs_amounts all)) (float_of_nat (length all)).
Proof.
  intros all. unfold calculate_transaction_stats. fold all.
  destruct (parsed_dates all) as [|d [|d' ds]]; cbn -[all Py.sum float_of_nat];
    rewrite length_map; (eexists; split; [reflexivity|]);
    cbn -[all Py.sum float_of_nat]; repeat split; reflexivity.
Qed.

(** C6.  On the empty list [calculate_transaction_stats] returns the
    degenerate record: every numeric field zero, both bounds of the date
    range "N/A", no transaction type.  On every list it returns (it raises
    nothing, and no division by zero in particular), and on a non-empty
    list the average amount is the total absolute volume divided by the
    number of transactions. *)
Theorem stats_empty_and_average :
  (exists s,
     calculate_transaction_stats [] = Ok s /\
     total_transactions s = 0%nat /\ total_volume s = 0%float /\
     total_credits s = 0%float /\ total_debits s = 0%float /\
     credit_count s = 0%nat /\ debit_count s = 0%nat /\
     avg_amount s = 0%float /\ max_amount s = 0%float /\
     min_amount s = 0%float /\ date_range_days s = 0 /\
     unique_originators s = 0%nat /\ unique_beneficiaries s = 0%nat /\
     date_range_start s = "N/A" /\ date_range_end s = "N/A" /\
     transaction_types s = []) /\
  (forall txns, returns (calculate_transaction_stats txns)) /\
  (forall t txns,
     exists s,
       calculate_transaction_stats (t :: txns) = Ok s /\
       total_transactions s = length (t :: txns) /\
       total_volume s
         = Py.sum (List.map (fun t' => PrimFloat.abs (amount t')) (t :: txns)) /\
       truediv_nat (total_volume s) (total_transactions s) = Ok (avg_amount s) /\
       avg_amount s =
         PrimFloat.div (total_volume s) (float_of_nat (total_transactions s))).
Proof.
  split; [|split].
  - exists empty_stats. repeat split; reflexivity.
  - intros [|t txns].
    + now exists empty_stats.
    + destruct (calculate_transaction_stats_cons t txns) as (s & E & _).
      now exists s.
  - intros t txns.
    destruct (calculate_transaction_stats_cons t txns)
      as (s & E & Hn & Hv & _ & _ & _ & _ & Ha).
    exists s. split; [exact E|]. split; [exact Hn|]. split; [exact Hv|].
    rewrite Hn, Hv. split; [|exact Ha].
    cbn [length truediv_nat]. now rewrite Ha.
Qed.

End Statistics.

(* ===================================================================== *)
(** * Credits, debits and zero amounts                                    *)
(* ===================================================================== *)

Section CreditsDebits.
Import DataParser.

Lemma is_nan_false (a : float) :
  PrimFloat.is_nan a = false -> Prim2SF a <> S754_nan.
Proof.
  unfold PrimFloat.is_nan. rewrite negb_false_iff. float_spec.
  intros H E. rewrite E in H. discriminate.
Qed.

Lemma finite_amount_not_nan (t : Transaction) :
  Spec.finite_amount t -> Prim2SF (amount t) <> S754_nan.
Proof.
  unfold Spec.finite_amount, amount_must_be_finite.
  destruct (PrimFloat.is_nan (amount t)) eqn:E; [discriminate|].
  intros _. now apply is_nan_false.
Qed.

(** A credit is no debit. *)
Lemma credit_not_debit (t : Transaction) :
  is_credit t = true -> is_debit t = false.
Proof.
  unfold is_credit, is_debit, gtb. float_spec. rewrite SF_zero.
  destruct (Prim2SF (amount t)) as [s|s| |s m e]; try destruct s; cbn; congruence.
Qed.

(** Neither a credit nor a debit: the amount is zero, or not a number. *)
Lemma neither_iff_zero (t : Transaction) :
  Prim2SF (amount t) <> S754_nan ->
  (is_credit t = false /\ is_debit t = false <-> Spec.is_zero_amount t = true).
Proof.
  unfold is_credit, is_debit, gtb, Spec.is_zero_amount. float_spec.
  rewrite SF_zero.
  destruct (Prim2SF (amount t)) as [s|s| |s m e]; try destruct s; cbn;
    intuition congruence.
Qed.

Lemma filter_length_le {A : Type} (p : A -> bool) (l : list A) :
  (length (List.filter p l) <= length l)%nat.
Proof.
  induction l as [|x l IH]; cbn; [lia|]. destruct (p x); cbn; lia.
Qed.

(** Two exclusive filters select at most the whole list, and exactly the
    whole list unless some element passes neither. *)
Lemma exclusive_filters {A : Type} (p q : A -> bool) (l : list A) :
  (forall x, p x = true -> q x = false) ->
  (length (List.filter p l) + length (List.filter q l) <= length l)%nat /\
  ((length (List.filter p l) + length (List.filter q l) < length l)%nat <->
   exists x, In x l /\ p x = false /\ q x = false).
Proof.
  intros Hpq. induction l as [|x l [IHle IHlt]]; cbn.
  - split; [lia|]. split; [lia | now intros (? & [] & _)].
  - destruct (p x) eqn:Hp; [rewrite (Hpq x Hp) | destruct (q x) eqn:Hq]; cbn.
    + split; [lia|]. rewrite <- Nat.succ_lt_mono, IHlt. split.
      * intros (y & Hy & H). exists y. split; [now right | exact H].
      * intros (y & [->|Hy] & H1 & H2); [congruence | eauto].
    + split; [lia|].
      rewrite Nat.add_succ_r, <- Nat.succ_lt_mono, IHlt. split.
      * intros (y & Hy & H). exists y. split; [now right | exact H].
      * intros (y & [->|Hy] & H1 & H2); [congruence | eauto].
    + split; [lia|]. split; [|lia]. intros _. exists x. auto.
Qed.

(** The absolute value of an amount, in exact arithmetic, by the kind of
    the transaction. *)
Lemma to_Q_abs_credit (t : Transaction) :
  is_credit t = true -> to_Q (PrimFloat.abs (amount t)) = to_Q (amount t).
Proof.
  unfold is_credit, gtb, to_Q. float_spec. rewrite SF_zero.
  destruct (Prim2SF (amount t)) as [s|s| |s m e]; try destruct s; cbn;
    congruence.
Qed.

Lemma to_Q_abs_neither (t : Transaction) :
  is_credit t = false -> is_debit t = false ->
  to_Q (PrimFloat.abs (amount t)) = 0%Q.
Proof.
  unfold is_credit, is_debit, gtb, to_Q. float_spec. rewrite SF_zero.
  destruct (Prim2SF (amount t)) as [s|s| |s m e]; try destruct s; cbn;
    congruence.
Qed.

Lemma sumQ_cons (x : Q) (l : list Q) : sumQ (x :: l) = (x + sumQ l)%Q.
Proof. reflexivity. Qed.

Lemma exact_sum_split (txns : list Transaction) :
  (Spec.exact_sum (abs_amounts txns) ==
   Spec.exact_sum (List.map amount (credits txns))
   + Spec.exact_sum (List.map (fun t => PrimFloat.abs (amount t)) (debits txns)))%Q.
Proof.
  unfold Spec.exact_sum, abs_amounts, credits, debits.
  induction txns as [|t txns IH]; [reflexivity|].
  cbn [List.filter List.map].
  destruct (is_credit t) eqn:Hc.
  - rewrite (credit_not_debit t Hc).
    cbn [List.filter List.map]. rewrite !sumQ_cons.
    rewrite (to_Q_abs_credit t Hc), IH. ring.
  - destruct (is_debit t) eqn:Hd; cbn [List.filter List.map];
      rewrite !sumQ_cons.
    + rewrite IH. ring.
    + rewrite (to_Q_abs_neither t Hc Hd), IH. ring.
Qed.

Section WithCalendar.
Context `{!Calendar}.

(** C10, as the code has it.  Over validated transactions the statistics
    satisfy [credit_count + debit_count <= total_transactions], strictly
    exactly when some transaction has an amount equal to zero, which is
    counted neither as a credit nor as a debit.  The three volumes are the
    rounded left-to-right sums of the absolute amounts, of the positive
    amounts and of the absolute negative amounts; the exact sums of these
    three lists satisfy volume = credits + debits. *)
Theorem counts_and_volumes (txns : list Transaction) :
  Forall Spec.finite_amount txns ->
  exists s,
    calculate_transaction_stats txns = Ok s /\
    (credit_count s + debit_count s <= total_transactions s)%nat /\
    ((credit_count s + debit_count s < total_transactions s)%nat <->
     exists t, In t txns /\ Spec.is_zero_amount t = true) /\
    total_volume s = Py.sum (abs_amounts txns) /\
    total_credits s = Py.sum (List.map amount (credits txns)) /\
    total_debits s =
      Py.sum (List.map (fun t => PrimFloat.abs (amount t)) (debits txns)) /\
    (Spec.exact_sum (abs_amounts txns) ==
     Spec.exact_sum (List.map amount (credits txns))
     + Spec.exact_sum (List.map (fun t => PrimFloat.abs (amount t)) (debits txns)))%Q.
Proof.
  intros Hfinite.
  destruct (exclusive_filters is_credit is_debit txns credit_not_debit)
    as [Hle Hlt].
  assert (Hzero : (exists t, In t txns /\ is_credit t = false /\ is_debit t = false)
                  <-> exists t, In t txns /\ Spec.is_zero_amount t = true).
  { pose proof (proj1 (List.Forall_forall _ _) Hfinite) as Hall.
    split; intros (t & Hin & Ht); exists t; (split; [exact Hin|]);
      apply (neither_iff_zero t (finite_amount_not_nan t (Hall t Hin)));
      exact Ht. }
  destruct txns as [|t txns].
  - exists empty_stats. split; [reflexivity|]. cbn.
    split; [lia|]. split; [|repeat split; reflexivity].
    split; [lia | now intros (? & [] & _)].
  - destruct (calculate_transaction_stats_cons t txns)
      as (s & E & Hn & Hv & Hc & Hd & Hcc & Hdc & _).
    exists s. split; [exact E|]. rewrite Hn, Hcc, Hdc.
    split; [exact Hle|]. split; [now rewrite <- Hzero|].
    split; [exact Hv|]. split; [exact Hc|]. split; [exact Hd|].
    apply exact_sum_split.
Qed.

End WithCalendar.

End CreditsDebits.

(* ===================================================================== *)
(** * Typology classification                                             *)
(* ===================================================================== *)

Section Typology.
Import RAGEngine.

Lemma percent_range_0 : Spec.in_percent_range 0%float.
Proof. split; reflexivity. Qed.

Lemma percent_range_100 : Spec.in_percent_range 100%float.
Proof. split; reflexivity. Qed.

Lemma base_confidence_range (distance : float) :
  Spec.in_percent_range (base_confidence distance).
Proof.
  unfold base_confidence, max2, min2, gtb.
  set (x := PrimFloat.mul (PrimFloat.sub 1%float distance) 100%float).
  destruct (PrimFloat.ltb x 100%float) eqn:Hhi.
  - destruct (PrimFloat.ltb 0%float x) eqn:Hlo.
    + split; now apply ltb_leb.
    + apply percent_range_0.
  - change (PrimFloat.ltb 0%float 100%float) with true. cbn iota.
    apply percent_range_100.
Qed.

(** Rounding a magnitude with a positive sign gives no negative result. *)
Lemma binary_round_aux_sign (mx ex : Z) (lx : location) :
  binary_round_aux prec emax false mx ex lx = S754_nan \/
  SFleb (S754_zero false) (binary_round_aux prec emax false mx ex lx) = true.
Proof.
  unfold binary_round_aux.
  destruct (shr_fexp prec emax mx ex lx) as [mrs' e'].
  destruct (shr_fexp prec emax _ e' loc_Exact) as [mrs'' e''].
  destruct (shr_m mrs'') as [|m|m]; [now right | | now left].
  destruct (Z.leb e'' (emax - prec)); now right.
Qed.

Lemma SF_15 : Prim2SF 15%float = S754_finite false 8444249301319680 (-49).
Proof. reflexivity. Qed.

(** Adding 15 to a confidence that is not negative gives, when the sum is
    below 100, a confidence that is not negative. *)
Lemma add_15_not_negative (c : float) :
  PrimFloat.leb 0%float c = true ->
  PrimFloat.ltb (PrimFloat.add c 15%float) 100%float = true ->
  PrimFloat.leb 0%float (PrimFloat.add c 15%float) = true.
Proof.
  intros Hc Hlt. pose proof (ltb_not_nan_l _ _ Hlt) as Hnan.
  revert Hc Hnan. float_spec. rewrite FloatAxioms.add_spec, SF_15, SF_zero.
  destruct (Prim2SF c) as [s|s| |s m e]; try destruct s; cbn; try congruence.
  intros _ Hnan.
  match goal with
  | |- SFleb _ (binary_normalize _ _ ?z _ _) = true =>
      destruct z as [|p|p] eqn:Hz;
        [reflexivity | | exfalso; revert Hz;
                          repeat match goal with
                                 | |- context [shl_align ?a ?b ?c] =>
                                     destruct (shl_align a b c)
                                 end; cbn; lia]
  end.
  unfold binary_normalize, binary_round in *.
  destruct (shl_align p _ _) as [mz ez].
  destruct (binary_round_aux_sign (Z.pos mz) ez loc_Exact) as [E|E];
    [congruence | exact E].
Qed.

Lemma boost_range (c : float) :
  Spec.in_percent_range c ->
  Spec.in_percent_range (min2 100%float (PrimFloat.add c 15%float)).
Proof.
  intros [Hlo _]. unfold min2.
  destruct (PrimFloat.ltb (PrimFloat.add c 15%float) 100%float) eqn:Hlt.
  - split; [now apply add_15_not_negative | now apply ltb_leb].
  - apply percent_range_100.
Qed.

(** The loop over the keyword table. *)
Lemma boost_loop_range (typology text : string)
    (table : list (string * list string)) (c : float) :
  Spec.in_percent_range c ->
  Spec.in_percent_range (fold_left (boost_step typology text) table c).
Proof.
  revert c. induction table as [|[typo keywords] table IH]; intros c Hc.
  - exact Hc.
  - cbn [fold_left]. apply IH. unfold boost_step.
    destruct (any_keyword keywords text); [|exact Hc].
    destruct (String.eqb typo typology); [now apply boost_range | exact Hc].
Qed.

(** Entries for other typologies leave the confidence alone. *)
Lemma boost_loop_other (typology text : string)
    (table : list (string * list string)) (c : float) :
  (forall keywords, In (typology, keywords) table ->
                    any_keyword keywords text = false) ->
  fold_left (boost_step typology text) table c = c.
Proof.
  revert c. induction table as [|[typo keywords] table IH]; intros c Hno.
  - reflexivity.
  - cbn [fold_left]. rewrite IH by (intros kws Hin; apply Hno; now right).
    unfold boost_step.
    destruct (any_keyword keywords text) eqn:Hany; [|reflexivity].
    destruct (String.eqb typo typology) eqn:E; [|reflexivity].
    apply String.eqb_eq in E. subst typo.
    rewrite (Hno keywords) in Hany by now left. discriminate.
Qed.

(** The entry of the retrieved typology, when one of its keywords occurs,
    boosts once: the keys of the table are distinct. *)
Lemma boost_loop_own (typology text : string)
    (table : list (string * list string)) (keywords : list string) (c : float) :
  List.NoDup (List.map fst table) ->
  In (typology, keywords) table ->
  any_keyword keywords text = true ->
  fold_left (boost_step typology text) table c
    = min2 100%float (PrimFloat.add c 15%float).
Proof.
  revert c. induction table as [|[typo kws] table IH]; intros c Hnd Hin Hany.
  - destruct Hin.
  - cbn [List.map fst] in Hnd. apply List.NoDup_cons_iff in Hnd.
    destruct Hnd as [Hfresh Hnd]. cbn [fold_left].
    destruct Hin as [[= -> ->]|Hin].
    + unfold boost_step at 2. rewrite Hany, String.eqb_refl.
      apply boost_loop_other. intros kws' Hin'. exfalso. apply Hfresh.
      apply (in_map fst) in Hin'. exact Hin'.
    + rewrite (IH _ Hnd Hin Hany). f_equal. f_equal. unfold boost_step.
      destruct (any_keyword kws text); [|reflexivity].
      destruct (String.eqb typo typology) eqn:E; [|reflexivity].
      apply String.eqb_eq in E. subst typo. exfalso. apply Hfresh.
      apply (in_map fst) in Hin. exact Hin.
Qed.

Lemma keyword_map_keys_distinct : List.NoDup (List.map fst keyword_map).
Proof.
  cbn. repeat (apply List.NoDup_cons; [cbn; intuition discriminate|]).
  apply List.NoDup_nil.
Qed.

Section WithText.
Context `{!Text}.

(** C5.  [identify_typology] returns the typology retrieved from the
    similarity store, whatever the keywords say.  Its confidence is the
    distance-based one plus 15, capped at 100, when the keyword table holds
    the retrieved typology with a keyword that occurs in the lowercased
    alert reason and findings; it is the distance-based one otherwise, also
    when the keywords of other typologies occur.  The confidence lies
    within [0, 100]. *)
Theorem keyword_boost_reinforces_only (self : RAGEngine.t)
    (patterns : list string) (alert_reason : string) :
  exists typology confidence,
    identify_typology self patterns alert_reason = (typology, confidence) /\
    Spec.in_percent_range confidence /\
    match collection_query self (Spec.typology_query patterns alert_reason)
            1 "typology" with
    | [] => typology = "unknown" /\ confidence = 0%float
    | hit :: _ =>
        let base := base_confidence (default 1%float (hit_distance hit)) in
        let text := combined_text patterns alert_reason in
        typology = default "unknown" (hit_metadata hit !! "typology") /\
        (Spec.keywords_imply typology text ->
         confidence = min2 100%float (PrimFloat.add base 15%float)) /\
        (~ Spec.keywords_imply typology text -> confidence = base)
    end.
Proof.
  unfold identify_typology. fold (Spec.typology_query patterns alert_reason).
  destruct (collection_query self _ 1 "typology") as [|hit hits].
  - exists "unknown", 0%float. split; [reflexivity|].
    split; [apply percent_range_0 | now split].
  - cbv zeta. eexists _, _. split; [reflexivity|].
    split; [apply boost_loop_range, base_confidence_range|].
    split; [reflexivity|]. split.
    + intros (keywords & Hin & Hany).
      now apply (boost_loop_own _ _ _ keywords _ keyword_map_keys_distinct).
    + intros Hno. apply boost_loop_other. intros keywords Hin.
      destruct (any_keyword keywords _) eqn:Hany; [|reflexivity].
      exfalso. apply Hno. now exists keywords.
Qed.

End WithText.

End Typology.

(* ===================================================================== *)
(** * Narrative composition                                               *)
(* ===================================================================== *)

Section Narrative.
Import SarOutput LLMOrchestrator.

Lemma contains_unfold (w s : string) :
  contains w s =
  String.prefix w s || match s with
                       | EmptyString => false
                       | String _ s' => contains w s'
                       end.
Proof. now destruct s. Qed.

(** A word occurs in a text that starts with it. *)
Lemma contains_here (w s : string) : contains w (w ++ s) = true.
Proof. rewrite contains_unfold, prefix_append. reflexivity. Qed.

(** A word that occurs in a text occurs in the text with more in front. *)
Lemma contains_skip (w p s : string) :
  contains w s = true -> contains w (p ++ s) = true.
Proof.
  intros H. induction p as [|a p IH]; [exact H|].
  change (contains w (String a (p ++ s)) = true).
  rewrite contains_unfold, IH. apply orb_true_r.
Qed.

Ltac find_word :=
  repeat first [ apply contains_here | apply contains_skip ];
  try (vm_compute; reflexivity).

Section WithLibrary.
Context `{!Text, !Format}.

(** C7.  When the prompt is built and the text-generation backend raises
    on it, whatever the exception, [generate_narrative] returns the
    fallback narrative; the text names the customer, the account number,
    the total volume (as the format [,.2f] writes it) and the typology, and
    it carries the note that marks it as a fallback. *)
Theorem fallback_on_backend_failure (self : LLMOrchestrator.t)
    (case : CaseInput) (stats : DataParser.Stats) (patterns : list string)
    (typology : string) (risk_score : Z)
    (regulatory_context template_reference prompt : string) (e : exn) :
  _build_prompt self case stats patterns typology risk_score
    regulatory_context template_reference = Ok prompt ->
  _call_ollama self prompt = Raise e ->
  exists narrative callback,
    generate_narrative self case stats patterns typology risk_score
      regulatory_context template_reference = Ok (narrative, callback) /\
    narrative_text narrative
      = _generate_fallback_narrative case stats patterns typology /\
    response_received callback = narrative_text narrative /\
    contains (name (customer case)) (narrative_text narrative) = true /\
    contains (account_number (customer case)) (narrative_text narrative) = true /\
    contains (fmt_c2f (DataParser.total_volume stats)) (narrative_text narrative)
      = true /\
    contains typology (narrative_text narrative) = true /\
    contains "[This narrative was generated using template fallback -- LLM was unavailable]"
      (narrative_text narrative) = true.
Proof.
  intros Hprompt Hfail. unfold generate_narrative. rewrite Hprompt.
  cbn [mbind result_bind]. rewrite Hfail.
  eexists _, _. split; [reflexivity|]. cbn [narrative_text response_received].
  split; [reflexivity|]. split; [reflexivity|].
  unfold _generate_fallback_narrative. cbv zeta.
  repeat split; find_word.
Qed.

End WithLibrary.

End Narrative.

(* ===================================================================== *)
(** * Section parsing                                                     *)
(* ===================================================================== *)

Section SectionParsing.
Import LLMOrchestrator.
Context `{!Text}.

Lemma parse_header_found (text key : string) (pattern : regex)
    (rest : list (string * regex)) (sections : gmap string string) :
  is_Some (re_search pattern text) ->
  dom (parse_header text key pattern rest sections) = {[key]} ∪ dom sections.
Proof.
  intros [[start stop] E]. unfold parse_header. rewrite E.
  apply dom_insert_L.
Qed.

Lemma parse_header_not_found (text key : string) (pattern : regex)
    (rest : list (string * regex)) (sections : gmap string string) :
  re_search pattern text = None ->
  parse_header text key pattern rest sections = sections.
Proof. intros E. unfold parse_header. now rewrite E. Qed.

(** The keys of the loop's result: those it started with and those of the
    headers found in the text. *)
Lemma parse_headers_keys (text : string) (headers : list (string * regex))
    (sections : gmap string string) (key : string) :
  key ∈ dom (parse_headers text headers sections) <->
  key ∈ dom sections \/
  exists pattern, In (key, pattern) headers /\ is_Some (re_search pattern text).
Proof.
  revert sections. induction headers as [|[k p] rest IH]; intros sections.
  - cbn. split; [auto | now intros [Hd|(? & [] & _)]].
  - cbn [parse_headers]. rewrite IH.
    destruct (re_search p text) as [span|] eqn:E.
    + rewrite parse_header_found by (rewrite E; eauto).
      rewrite elem_of_union, elem_of_singleton. split.
      * intros [[->|Hd]|(q & Hin & Hq)]; [right | now left | right].
        -- exists p. split; [now left | rewrite E; eauto].
        -- exists q. split; [now right | exact Hq].
      * intros [Hd|(q & [[= <- <-]|Hin] & Hq)]; [now left; right | now left; left |].
        right. now exists q.
    + rewrite parse_header_not_found by exact E. split.
      * intros [Hd|(q & Hin & Hq)]; [now left|].
        right. exists q. split; [now right | exact Hq].
      * intros [Hd|(q & [[= <- <-]|Hin] & Hq)]; [now left | | right; now exists q].
        rewrite E in Hq. now destruct Hq.
Qed.

Lemma parse_headers_none (text : string) (headers : list (string * regex))
    (sections : gmap string string) :
  (forall h, In h headers -> re_search (snd h) text = None) ->
  parse_headers text headers sections = sections.
Proof.
  revert sections. induction headers as [|[k p] rest IH]; intros sections Hno.
  - reflexivity.
  - cbn [parse_headers].
    rewrite (parse_header_not_found _ _ _ _ _ (Hno (k, p) (or_introl eq_refl))).
    apply IH. intros h Hh. apply Hno. now right.
Qed.

(** C8, as the code has it.  The section map is never empty.  Its keys are
    those of the headers found in the text, so that they are exactly I to V
    when the five markers are found; when none is found the map has the
    single key "I", bound to the text without its leading and trailing
    white space. *)
Theorem parse_narrative_sections (text : string) :
  _parse_narrative text <> ∅ /\
  ((exists h, In h section_headers /\ Spec.header_found text h) ->
   forall key,
     key ∈ dom (_parse_narrative text) <->
     exists h, In h section_headers /\ fst h = key /\ Spec.header_found text h) /\
  ((forall h, In h section_headers -> Spec.header_found text h) ->
   dom (_parse_narrative text) = ({["I"; "II"; "III"; "IV"; "V"]} : gset string)) /\
  ((forall h, In h section_headers -> re_search (snd h) text = None) ->
   _parse_narrative text = {["I" := strip text]}).
Proof.
  unfold _parse_narrative, Spec.header_found.
  split; [|split; [|split]].
  - destruct (decide (parse_headers text section_headers ∅ = ∅)) as [->|Hne];
      [apply insert_non_empty | exact Hne].
  - intros ([k p] & Hin & Hfound) key.
    assert (Hk : k ∈ dom (parse_headers text section_headers ∅)).
    { apply parse_headers_keys. right. now exists p. }
    destruct (decide (parse_headers text section_headers ∅ = ∅)) as [E|_].
    { rewrite E, dom_empty_L in Hk. now apply not_elem_of_empty in Hk. }
    rewrite parse_headers_keys, dom_empty_L. split.
    + intros [Hd|(q & Hq & Hs)]; [now apply not_elem_of_empty in Hd|].
      now exists (key, q).
    + intros ([k' q] & Hq & <- & Hs). right. now exists q.
  - intros Hall.
    assert (Hk : "I" ∈ dom (parse_headers text section_headers ∅)).
    { apply parse_headers_keys. right. eexists.
      split; [left; reflexivity|]. apply (Hall ("I", _)). left. reflexivity. }
    destruct (decide (parse_headers text section_headers ∅ = ∅)) as [E|_].
    { rewrite E, dom_empty_L in Hk. now apply not_elem_of_empty in Hk. }
    apply set_eq. intros key. rewrite parse_headers_keys, dom_empty_L.
    rewrite !elem_of_union, !elem_of_singleton. split.
    + intros [Hd|(q & Hq & _)]; [now apply not_elem_of_empty in Hd|].
      cbn in Hq. intuition congruence.
    + intros Hkey. right.
      assert (exists q, In (key, q) section_headers) as [q Hq].
      { cbn. destruct Hkey as [[[[->| ->]| ->]| ->]| ->]; eauto 10. }
      exists q. split; [exact Hq | exact (Hall _ Hq)].
  - intros Hnone. rewrite (parse_headers_none _ _ _ Hnone).
    destruct (decide (∅ = ∅)) as [_|Hne]; [reflexivity | now destruct Hne].
Qed.

End SectionParsing.

(* ===================================================================== *)
(** * The audit ledger                                                    *)
(* ===================================================================== *)

Section Ledger.
Import AuditTrail AuditLogger.

Lemma log_events_cons (c : Call) (calls : list Call) (self : AuditLogger.t) :
  log_events (c :: calls) self = log_events calls (log_call self c).
Proof. reflexivity. Qed.

Lemma calls_for_cons (case_id : string) (c : Call) (calls : list Call) :
  calls_for case_id (c :: calls) =
  if String.eqb (call_case_id c) case_id then c :: calls_for case_id calls
  else calls_for case_id calls.
Proof. reflexivity. Qed.

(** The in-memory trail of a case grows by the events of the calls made
    for it, in the order of the calls. *)
Lemma log_events_memory (case_id : string) (calls : list Call)
    (self : AuditLogger.t) :
  default [] (in_memory_trail (log_events calls self) !! case_id) =
  default [] (in_memory_trail self !! case_id)
  ++ List.map Spec.memory_event (calls_for case_id calls).
Proof.
  revert self. induction calls as [|c calls IH]; intros self.
  - cbn. now rewrite app_nil_r.
  - rewrite log_events_cons, IH, calls_for_cons.
    unfold log_call at 1, log_event. cbn [in_memory_trail].
    destruct (String.eqb (call_case_id c) case_id) eqn:E.
    + apply String.eqb_eq in E. subst case_id.
      rewrite lookup_insert_eq. cbn [default from_option id List.map].
      now rewrite <- List.app_assoc.
    + apply String.eqb_neq in E. now rewrite lookup_insert_ne.
Qed.

(** Without a connection there is none later. *)
Lemma log_events_no_connection (calls : list Call) (self : AuditLogger.t) :
  DatabaseManager.conn (db self) = None ->
  DatabaseManager.conn (db (log_events calls self)) = None.
Proof.
  revert self. induction calls as [|c calls IH]; intros self Hc; [exact Hc|].
  rewrite log_events_cons. apply IH.
  unfold log_call, log_event, DatabaseManager.log_audit_event. cbn [db].
  now rewrite Hc.
Qed.








End Ledger.

(* ===================================================================== *)
(** * Validation in the pipeline                                          *)
(* ===================================================================== *)

Section Validation.
Import AuditTrail.
Context `{!Text}.

Lemma new_Transaction_non_finite (raw : Transaction) :
  Spec.non_finite_amount raw ->
  exists errs, new_Transaction raw = Raise (ValidationError errs) /\
               In Spec.amount_message errs.
Proof.
  unfold Spec.non_finite_amount, nan_or_inf, new_Transaction,
    amount_must_be_finite.
  intros ->. destruct (date_must_not_be_empty (date raw)) as [d|e];
    eexists; (split; [reflexivity|]); apply in_or_app; right; now left.
Qed.

Lemma new_Transactions_non_finite (raws : list Transaction) :
  List.Exists Spec.non_finite_amount raws ->
  In Spec.amount_message (snd (new_Transactions raws)).
Proof.
  induction 1 as [raw raws Hbad|raw raws _ IH]; cbn [new_Transactions];
    destruct (new_Transactions raws) as [ts errs].
  - destruct (new_Transaction_non_finite raw Hbad) as (errs' & -> & Hin).
    cbn. apply in_or_app. now left.
  - cbn [snd] in IH. destruct (new_Transaction raw); cbn [snd]; [exact IH|].
    apply in_or_app. now right.
Qed.

Lemma transactions_field_non_finite (raws : list Transaction) :
  List.Exists Spec.non_finite_amount raws ->
  exists errs, transactions_field raws = Raise (ValidationError errs) /\
               In Spec.amount_message errs.
Proof.
  intros Hbad. apply new_Transactions_non_finite in Hbad.
  unfold transactions_field. destruct (new_Transactions raws) as [ts errs].
  cbn [snd] in Hbad. destruct errs as [|err errs]; [destruct Hbad|].
  now exists (err :: errs).
Qed.

Lemma new_CaseInput_non_finite (raw : CaseInput) :
  List.Exists Spec.non_finite_amount (transactions raw) ->
  exists errs, new_CaseInput raw = Raise (ValidationError errs) /\
               In Spec.amount_message errs.
Proof.
  intros Hbad.
  destruct (transactions_field_non_finite _ Hbad) as (errs & E & Hin).
  unfold new_CaseInput. rewrite E.
  destruct (case_id_must_not_be_empty (case_id raw));
    destruct (new_CustomerInfo (customer raw));
    destruct (alert_reason_must_not_be_empty (alert_reason raw));
    eexists; (split; [reflexivity|]);
    rewrite !in_app_iff; right; right; left; exact Hin.
Qed.

Section WithLibrary.
Context `{!Format, !Calendar, !Digest, !LLMOrchestrator.Json}.

(** C2.  A case input with a transaction whose amount is NaN or an
    infinity makes [generate] raise the validation error, with the message
    of the validator of amounts, before anything is logged: the audit
    ledger is returned as it was, so that the trail of every case is what
    it was before the call, and is empty on a ledger that held nothing. *)
Theorem non_finite_amount_rejected (self : SARGenerator.t)
    (clock : nat -> Reading) (case_json : CaseInput) (user_id : string)
    (audit : AuditLogger.t) :
  List.Exists Spec.non_finite_amount (transactions case_json) ->
  exists errs,
    SARGenerator.generate self clock case_json user_id audit
      = (Raise (ValidationError errs), audit) /\
    In Spec.amount_message errs /\
    (forall select_fails case_id connection,
       audit = AuditLogger.new connection ->
       Spec.stored_rows connection case_id = [] ->
       SARGenerator.get_audit_trail select_fails case_id
         (snd (SARGenerator.generate self clock case_json user_id audit)) = []).
Proof.
  intros Hbad.
  destruct (new_CaseInput_non_finite case_json Hbad) as (errs & E & Hin).
  assert (Hrun : SARGenerator.generate self clock case_json user_id audit
                 = (Raise (ValidationError errs), audit)).
  { unfold SARGenerator.generate, DataParser.parse_case_input.
    rewrite E. reflexivity. }
  exists errs. split; [exact Hrun|]. split; [exact Hin|].
  intros select_fails case_id connection -> Hfresh. rewrite Hrun. cbn [snd].
  unfold SARGenerator.get_audit_trail, AuditLogger.get_audit_trail,
    DatabaseManager.get_audit_trail, AuditLogger.new.
  cbn [AuditLogger.db DatabaseManager.conn AuditLogger.in_memory_trail].
  rewrite lookup_empty. destruct connection as [rows|]; [|reflexivity].
  destruct select_fails; [reflexivity|].
  cbn [Spec.stored_rows] in Hfresh. rewrite Hfresh. reflexivity.
Qed.

End WithLibrary.

End Validation.

(* ===================================================================== *)
(** * The properties on concrete cases                                    *)
(* ===================================================================== *)

(** The reference implementations on values computed with CPython. *)

Example reference_md5 :
  Reference.md5 "abc" = "900150983cd24fb0d6963f7d28e17f72" /\
  Reference.md5 "Rajesh Kumar" = "740020805a0db2308635b60e7cc36d38".
Proof. split; vm_compute; reflexivity. Qed.

Example reference_format :
  fmt_1f 2.25%float = "2.2" /\
  fmt_1f (-0x1.47ae147ae147bp-5)%float = "-0.0" /\
  fmt_c2f 3800000%float = "3,800,000.00" /\
  fmt_c2f 0x1.2d687e428f5c3p+20%float = "1,234,567.89".
Proof. repeat split; vm_compute; reflexivity. Qed.

Example reference_calendar :
  strptime_ymd "2025-03-03" = Some 739313 /\
  strptime_ymd "3-3-2025" = None /\
  strptime_dmy "3-3-2025" = Some 739313 /\
  strptime_ymd "2025-02-30" = None /\
  strftime_ymd 739313 = "2025-03-03".
Proof. repeat split; vm_compute; reflexivity. Qed.

Example reference_text :
  strip "  I. Summary  " = "I. Summary" /\
  lower "KYC Mismatch" = "kyc mismatch" /\
  re_search [Lit "V."; Spaces; Lit "CONCLUSION"] "iv. x  v.   Conclusion"
    = Some (7%nat, 22%nat).
Proof. repeat split; vm_compute; reflexivity. Qed.

(** The boost on a retrieved typology: a keyword of structuring occurs in
    the first query and the confidence goes from 70 to 85; keywords of
    wire fraud and of rapid movement occur in the second one and the
    confidence stays at 70. *)
Example typology_of_samples :
  RAGEngine.identify_typology Samples.structuring_store
    ["Structuring: 4 transactions just below INR 1,000,000 reporting threshold"]
    "Cash deposits" = ("structuring", 85%float) /\
  RAGEngine.identify_typology Samples.structuring_store
    ["Rapid movement: Credits and debits on same day (2025-03-03)"]
    "SWIFT wire to foreign account" = ("structuring", 70%float).
Proof. split; vm_compute; reflexivity. Qed.

(** A whole run on the four deposits, the backend unreachable: six events
    in the order of the stages, two findings, the score 25. *)
Example run_of_four_deposits :
  let run :=
    SARGenerator.generate Samples.generator Samples.ticking
      Samples.four_deposits "analyst" (AuditLogger.new (Some [])) in
  List.map AuditTrail.ev_event_type
    (SARGenerator.get_audit_trail false "CASE-0042" (snd run))
    = ["data_input"; "analysis"; "pattern_detection"; "rag_retrieval";
       "llm_generation"; "explainability"] /\
  match fst run with
  | Ok (narrative, explainability) =>
      SarOutput.red_flags narrative
        = ["Structuring: 4 transactions just below INR 1,000,000 reporting threshold";
           "Round-number transactions: 4 transactions in exact round amounts"] /\
      SarOutput.calculations explainability
        = [("total_volume", "INR 3,800,000.00"); ("volume_vs_expected", "N/A");
           ("risk_score", "25/100")] /\
      dom (SarOutput.sections narrative)
        = ({["I"; "II"; "III"; "IV"; "V"]} : gset string)
  | Raise _ => False
  end.
Proof. vm_compute. repeat split. Qed.

(** C1 on a case: no finding against one finding. *)
Lemma risk_score_range_and_monotone_witness :
  exists score score' : Z,
    DataParser.calculate_risk_score []
      (Samples.stats_of (transactions Samples.four_deposits))
      Samples.four_deposits = Ok score /\
    DataParser.calculate_risk_score
      ["Structuring: 4 transactions just below INR 1,000,000 reporting threshold"]
      (Samples.stats_of (transactions Samples.four_deposits))
      Samples.four_deposits = Ok score' /\
    (0 <= score <= 100) /\ (0 <= score' <= 100) /\ score <= score'.
Proof.
  apply (risk_score_range_and_monotone
           (Samples.stats_of (transactions Samples.four_deposits))
           Samples.four_deposits []
           ["Structuring: 4 transactions just below INR 1,000,000 reporting threshold"]).
  cbn. lia.
Defined.

(** C4 as stated fails: four deposits of 950,000 with an expected monthly
    volume of 0, a Medium rating, no declared income and an ordinary
    transaction type give two findings, the structuring one and the
    round-number one, and the score 20 + 5 = 25, below 40. *)
Lemma four_just_below_threshold_scores_25 :
  exists stats patterns,
    DataParser.calculate_transaction_stats (transactions Samples.four_deposits)
      = Ok stats /\
    DataParser.identify_patterns Samples.four_deposits stats = Ok patterns /\
    patterns =
      [ "Structuring: 4 transactions just below INR 1,000,000 reporting threshold";
        "Round-number transactions: 4 transactions in exact round amounts" ] /\
    DataParser.calculate_risk_score patterns stats Samples.four_deposits = Ok 25.
Proof.
  eexists _, _. split; [vm_compute; reflexivity|].
  split; [vm_compute; reflexivity|]. split; vm_compute; reflexivity.
Qed.

(** C4 as the code has it, on that case. *)
Lemma four_just_below_threshold_witness :
  exists patterns score,
    DataParser.identify_patterns Samples.four_deposits
      (Samples.stats_of (transactions Samples.four_deposits)) = Ok patterns /\
    (exists s, In s patterns /\ Spec.is_structuring_text s = true) /\
    (exists s, In s patterns /\ Spec.is_round_number_text s = true) /\
    DataParser.volume_term
      (expected_monthly_volume (customer Samples.four_deposits))
      (DataParser.total_volume
         (Samples.stats_of (transactions Samples.four_deposits))) = Ok 0 /\
    DataParser.calculate_risk_score patterns
      (Samples.stats_of (transactions Samples.four_deposits))
      Samples.four_deposits = Ok score /\
    20 <= score <= 100.
Proof.
  exact (four_just_below_threshold Samples.four_deposits
           (Samples.stats_of (transactions Samples.four_deposits))
           eq_refl eq_refl).
Defined.

(** C7 on a case: the backend is unreachable. *)
Lemma fallback_on_backend_failure_witness :
  exists narrative callback,
    LLMOrchestrator.generate_narrative Samples.offline_llm Samples.four_deposits
      (Samples.stats_of (transactions Samples.four_deposits))
      ["Structuring: 4 transactions just below INR 1,000,000 reporting threshold"]
      "structuring" 25 "PMLA Section 12" ""
      = Ok (narrative, callback) /\
    SarOutput.narrative_text narrative
      = LLMOrchestrator._generate_fallback_narrative Samples.four_deposits
          (Samples.stats_of (transactions Samples.four_deposits))
          ["Structuring: 4 transactions just below INR 1,000,000 reporting threshold"]
          "structuring" /\
    LLMOrchestrator.response_received callback
      = SarOutput.narrative_text narrative /\
    contains (name (customer Samples.four_deposits))
      (SarOutput.narrative_text narrative) = true /\
    contains (account_number (customer Samples.four_deposits))
      (SarOutput.narrative_text narrative) = true /\
    contains
      (fmt_c2f (DataParser.total_volume
                  (Samples.stats_of (transactions Samples.four_deposits))))
      (SarOutput.narrative_text narrative) = true /\
    contains "structuring" (SarOutput.narrative_text narrative) = true /\
    contains "[This narrative was generated using template fallback -- LLM was unavailable]"
      (SarOutput.narrative_text narrative) = true.
Proof.
  eapply (fallback_on_backend_failure Samples.offline_llm Samples.four_deposits
            (Samples.stats_of (transactions Samples.four_deposits))
            ["Structuring: 4 transactions just below INR 1,000,000 reporting threshold"]
            "structuring" 25 "PMLA Section 12" "");
    reflexivity.
Defined.

(** C8 as stated fails: without any header the section I holds the text
    stripped of the white space around it, not the entire text. *)
Lemma parse_narrative_strips_the_text :
  List.map (fun h => re_search (snd h) " No header here. ")
           LLMOrchestrator.section_headers
    = [None; None; None; None; None] /\
  LLMOrchestrator._parse_narrative " No header here. "
    = {["I" := "No header here."]} /\
  String.eqb "No header here." " No header here. " = false.
Proof. repeat split; vm_compute; reflexivity. Qed.



(** C10 as stated fails: for the amounts 1, -1 and 1e16 the total volume
    is 10000000000000002 while the credits 1 + 1e16 round to 1e16 and
    adding the debits 1 rounds to 1e16 again. *)
Lemma volume_differs_from_credits_plus_debits :
  exists s,
    DataParser.calculate_transaction_stats Samples.three_amounts = Ok s /\
    DataParser.total_volume s = 10000000000000002%float /\
    DataParser.total_credits s = 1e16%float /\
    DataParser.total_debits s = 1%float /\
    PrimFloat.add (DataParser.total_credits s) (DataParser.total_debits s)
      = 1e16%float /\
    PrimFloat.eqb (DataParser.total_volume s)
      (PrimFloat.add (DataParser.total_credits s) (DataParser.total_debits s))
      = false.
Proof. eexists. repeat split; vm_compute; reflexivity. Qed.

(** C10 as the code has it, on a credit, a debit and a zero amount. *)
Lemma counts_and_volumes_witness :
  exists s,
    DataParser.calculate_transaction_stats Samples.with_zero_amount = Ok s /\
    (DataParser.credit_count s + DataParser.debit_count s
     <= DataParser.total_transactions s)%nat /\
    ((DataParser.credit_count s + DataParser.debit_count s
      < DataParser.total_transactions s)%nat <->
     exists t, In t Samples.with_zero_amount /\ Spec.is_zero_amount t = true) /\
    DataParser.total_volume s
      = Py.sum (DataParser.abs_amounts Samples.with_zero_amount) /\
    DataParser.total_credits s
      = Py.sum (List.map amount (DataParser.credits Samples.with_zero_amount)) /\
    DataParser.total_debits s
      = Py.sum (List.map (fun t => PrimFloat.abs (amount t))
                  (DataParser.debits Samples.with_zero_amount)) /\
    (Spec.exact_sum (DataParser.abs_amounts Samples.with_zero_amount) ==
     Spec.exact_sum (List.map amount (DataParser.credits Samples.with_zero_amount))
     + Spec.exact_sum
         (List.map (fun t => PrimFloat.abs (amount t))
            (DataParser.debits Samples.with_zero_amount)))%Q.
Proof.
  apply (counts_and_volumes Samples.with_zero_amount).
  repeat constructor.
Defined.

(** C2 on a case: one transaction, its amount not a number. *)
Lemma non_finite_amount_rejected_witness :
  exists errs,
    SARGenerator.generate Samples.generator
      Samples.ticking Samples.nan_case "analyst" (AuditLogger.new (Some []))
      = (Raise (ValidationError errs), AuditLogger.new (Some [])) /\
    In Spec.amount_message errs /\
    (forall select_fails case_id connection,
       AuditLogger.new (Some []) = AuditLogger.new connection ->
       Spec.stored_rows connection case_id = [] ->
       SARGenerator.get_audit_trail select_fails case_id
         (snd (SARGenerator.generate Samples.generator
                 Samples.ticking Samples.nan_case "analyst" (AuditLogger.new (Some [])))) = []).
Proof.
  apply (non_finite_amount_rejected Samples.generator Samples.ticking
           Samples.nan_case "analyst" (AuditLogger.new (Some []))).
  apply List.Exists_cons_hd. reflexivity.
Defined.

(* ===================================================================== *)
(** * The terms of the risk score                                        *)
(* ===================================================================== *)

Section RiskTerms.
Import DataParser.

(** X1.  [calculate_risk_score] always returns, and its result is the sum
    of four terms: 10 per finding up to 40, the volume term, the term of the
    KYC rating and the term of the distinct originators.  The sum lies
    between 0 and 90, so the closing [min(score, 100)] never lowers it. *)
Theorem risk_score_cap_is_never_reached (patterns : list string) (stats : Stats)
    (case : CaseInput) :
  exists score v,
    calculate_risk_score patterns stats case = Ok score /\
    volume_term (expected_monthly_volume (customer case)) (total_volume stats) = Ok v /\
    score = Z.min (Z.of_nat (length patterns) * 10) 40 + v
            + risk_map_get (kyc_risk_rating (customer case))
            + originators_term (unique_originators stats) /\
    0 <= score <= 90.
Proof.
  destruct (calculate_risk_score_eq patterns stats case) as (v & Hv & E & Ev).
  pose proof (risk_map_get_range (kyc_risk_rating (customer case))).
  pose proof (originators_term_range (unique_originators stats)).
  eexists _, v. split; [exact E|]. split; [exact Ev|]. lia.
Qed.

End RiskTerms.

Section RiskTerms2.
Import DataParser.

Lemma risk_score_of_rating (patterns : list string) (stats : Stats)
    (case : CaseInput) (rating : string) :
  exists v, 0 <= v <= 25 /\
    volume_term (expected_monthly_volume (customer case)) (total_volume stats) = Ok v /\
    calculate_risk_score patterns stats (Spec.with_rating rating case) =
      Ok (Z.min (Z.of_nat (length patterns) * 10) 40 + v + risk_map_get rating
          + originators_term (unique_originators stats)).
Proof.
  destruct (calculate_risk_score_eq patterns stats (Spec.with_rating rating case))
    as (v & Hv & E & Ev).
  cbn in E, Ev. exists v. split; [exact Hv|]. split; [exact Ev|].
  rewrite E. f_equal.
  pose proof (risk_map_get_range rating).
  pose proof (originators_term_range (unique_originators stats)).
  lia.
Qed.

(** X2.  With the findings, the statistics and the rest of the case
    fixed, a "High" rating scores 10 more than a "Medium" one and a "Low"
    rating 5 less; every other rating string, a differently cased or a
    misspelt one included, scores exactly as "Medium" does. *)
Theorem rating_term_of_the_score (patterns : list string) (stats : Stats)
    (case : CaseInput) :
  exists medium,
    calculate_risk_score patterns stats (Spec.with_rating "Medium" case) = Ok medium /\
    calculate_risk_score patterns stats (Spec.with_rating "High" case)
      = Ok (medium + 10) /\
    calculate_risk_score patterns stats (Spec.with_rating "Low" case)
      = Ok (medium - 5) /\
    (forall rating,
       rating <> "High" -> rating <> "Low" ->
       calculate_risk_score patterns stats (Spec.with_rating rating case) = Ok medium).
Proof.
  destruct (risk_score_of_rating patterns stats case "Medium") as (v & Hv & Ev & Em).
  eexists. split; [exact Em|].
  split; [|split].
  - destruct (risk_score_of_rating patterns stats case "High") as (v' & _ & Ev' & ->).
    assert (v' = v) by congruence. subst v'. f_equal. cbn. lia.
  - destruct (risk_score_of_rating patterns stats case "Low") as (v' & _ & Ev' & ->).
    assert (v' = v) by congruence. subst v'. f_equal. cbn. lia.
  - intros rating Hh Hl.
    destruct (risk_score_of_rating patterns stats case rating) as (v' & _ & Ev' & ->).
    assert (v' = v) by congruence. subst v'. f_equal.
    assert (risk_map_get rating = 5); [|cbn; lia].
    unfold risk_map_get.
    destruct (String.eqb_spec rating "High"); [contradiction|].
    destruct (String.eqb_spec rating "Low"); [contradiction|].
    now destruct (String.eqb rating "Medium").
Qed.

End RiskTerms2.

(* ===================================================================== *)
(** * The fields of the statistics                                       *)
(* ===================================================================== *)

Section TypeCounts.
Import DataParser.

Lemma count_type_keys (ty : string) (m : list (string * nat)) :
  forall k, In k (List.map fst (count_type ty m)) <-> k = ty \/ In k (List.map fst m).
Proof.
  induction m as [|[k0 n0] m IH]; intros k; cbn.
  - intuition.
  - destruct (String.eqb_spec ty k0) as [->|Hne]; cbn;
      [|rewrite IH]; intuition congruence.
Qed.

Lemma count_type_NoDup (ty : string) (m : list (string * nat)) :
  List.NoDup (List.map fst m) -> List.NoDup (List.map fst (count_type ty m)).
Proof.
  induction m as [|[k0 n0] m IH]; cbn; intros Hnd.
  - constructor; [intros []|constructor].
  - inversion Hnd as [|? ? Hnotin Hnd']; subst.
    destruct (String.eqb_spec ty k0) as [->|Hne]; cbn.
    + now constructor.
    + constructor; [|now apply IH].
      rewrite count_type_keys. intros [E|Hin]; [congruence|contradiction].
Qed.

(** The count recorded for [k] in [m], [0] for a key that is absent. *)
Lemma count_type_lookup (ty : string) (m : list (string * nat)) (k : string) (n : nat) :
  List.NoDup (List.map fst m) ->
  In (k, n) (count_type ty m) <->
  (k = ty /\ ((exists n0, In (ty, n0) m /\ n = S n0) \/
              (~ In ty (List.map fst m) /\ n = 1%nat))) \/
  (k <> ty /\ In (k, n) m).
Proof.
  induction m as [|[k0 n0] m IH]; cbn; intros Hnd.
  - split.
    + intros [E|[]]. injection E as <- <-. left. split; [reflexivity|].
      right. split; [tauto|reflexivity].
    + intros [[-> [(n0 & [] & _)|[_ ->]]]|[_ []]]. now left.
  - inversion Hnd as [|? ? Hnotin Hnd']; subst.
    destruct (String.eqb_spec ty k0) as [->|Hne]; cbn.
    + split.
      * intros [E|Hin].
        -- injection E as <- <-. left. split; [reflexivity|]. left. eauto.
        -- right. split; [|now right].
           intros ->. apply Hnotin. now apply (in_map fst) in Hin.
      * intros [[-> [(n1 & [E|Hin] & ->)|[Hno _]]]|[Hk [E|Hin]]].
        -- injection E as <-. now left.
        -- exfalso. apply Hnotin. now apply (in_map fst) in Hin.
        -- exfalso. apply Hno. now left.
        -- injection E as <- <-. congruence.
        -- now right.
    + rewrite (IH Hnd'). split.
      * intros [E|[[-> [(n1 & Hin & ->)|[Hno ->]]]|[Hk Hin]]].
        -- injection E as <- <-. right. split; [congruence|now left].
        -- left. split; [reflexivity|]. left. exists n1. split; [now right|reflexivity].
        -- left. split; [reflexivity|]. right. split; [|reflexivity].
           intros [E|Hin]; [congruence|contradiction].
        -- right. split; [exact Hk|now right].
      * intros [[-> [(n1 & [E|Hin] & ->)|[Hno ->]]]|[Hk [E|Hin]]].
        -- injection E as E _. congruence.
        -- right. left. split; [reflexivity|]. left. eauto.
        -- right. left. split; [reflexivity|]. right. split; [tauto|reflexivity].
        -- now left.
        -- right. right. now split.
Qed.

Lemma count_of_type_snoc (k : string) (done : list Transaction) (t : Transaction) :
  Spec.count_of_type k (done ++ [t]) =
  (Spec.count_of_type k done + if String.eqb (type t) k then 1 else 0)%nat.
Proof.
  unfold Spec.count_of_type. rewrite List.filter_app, length_app. cbn.
  now destruct (String.eqb (type t) k).
Qed.

Lemma counted_step (done : list Transaction) (m : list (string * nat))
    (t : Transaction) :
  Spec.counted done m -> Spec.counted (done ++ [t]) (count_type (type t) m).
Proof.
  intros [Hnd Hm]. split; [now apply count_type_NoDup|].
  intros k n. rewrite (count_type_lookup _ _ _ _ Hnd), count_of_type_snoc.
  destruct (String.eqb_spec (type t) k) as [E|Hne].
  - subst k. split.
    + intros [[_ [(n0 & Hin & ->)|[Hno ->]]]|[Hk _]]; [| |congruence].
      * apply Hm in Hin. lia.
      * split; [lia|].
        destruct (Spec.count_of_type (type t) done) as [|c] eqn:Ec; [reflexivity|].
        exfalso. apply Hno. apply (in_map fst _ (type t, S c)).
        apply Hm. split; [lia|congruence].
    + intros [Hpos ->]. left. split; [reflexivity|].
      destruct (Spec.count_of_type (type t) done) as [|c] eqn:Ec.
      * right. split; [|reflexivity].
        intros Hin. apply in_map_iff in Hin. destruct Hin as ([k n] & E & Hin).
        cbn in E. subst k. apply Hm in Hin. lia.
      * left. exists (S c). split; [|lia]. apply Hm. split; [lia|congruence].
  - rewrite Nat.add_0_r. split.
    + intros [[E _]|[_ Hin]]; [congruence|]. now apply Hm.
    + intros H. right. split; [congruence|]. now apply Hm.
Qed.

Lemma count_types_counted (txns : list Transaction) : Spec.counted txns (count_types txns).
Proof.
  unfold count_types.
  assert (G : forall l done m, Spec.counted done m ->
                Spec.counted (done ++ l) (fold_left (fun m t => count_type (type t) m) l m)).
  { induction l as [|t l IH]; intros done m Hc; cbn.
    - now rewrite List.app_nil_r.
    - replace (done ++ t :: l) with ((done ++ [t]) ++ l)
        by now rewrite <- List.app_assoc.
      apply IH. now apply counted_step. }
  apply (G txns [] []). split; [constructor|].
  intros k n. cbn. split; [intros []|]. unfold Spec.count_of_type. cbn. lia.
Qed.

End TypeCounts.

Section StatisticsFields.
Import DataParser.
Context `{!Calendar}.

(** The fields of the record returned for a non-empty list that
    [calculate_transaction_stats_cons] leaves out. *)
Lemma calculate_transaction_stats_fields (t : Transaction) (txns : list Transaction)
    (s : Stats) :
  let all := t :: txns in
  calculate_transaction_stats all = Ok s ->
  max_list (abs_amounts all) = Ok (max_amount s) /\
  min_list (abs_amounts all) = Ok (min_amount s) /\
  transaction_types s = count_types all /\
  stats_currency s = currency t /\
  unique_originators s = count_unique (List.map originator all) /\
  unique_beneficiaries s = count_unique (List.map beneficiary all) /\
  match parsed_dates all with
  | [] => date_range_start s = "N/A" /\ date_range_end s = "N/A" /\
          date_range_days s = 1
  | d :: ds =>
      date_range_start s = strftime_ymd (fold_left Z.min ds d) /\
      date_range_end s = strftime_ymd (fold_left Z.max ds d) /\
      date_range_days s =
        match ds with
        | [] => 1
        | _ => fold_left Z.max ds d - fold_left Z.min ds d + 1
        end
  end.
Proof.
  intros all. unfold calculate_transaction_stats. fold all.
  destruct (parsed_dates all) as [|d [|d' ds]];
    cbn -[all Py.sum float_of_nat count_types count_unique];
    rewrite length_map; cbn -[all Py.sum float_of_nat count_types count_unique];
    intros E; injection E as <-;
    cbn -[all Py.sum float_of_nat count_types count_unique];
    repeat split; reflexivity.
Qed.

End StatisticsFields.

Section DateRange.
Import DataParser.
Context `{!Calendar}.

Lemma fold_min_spec (ds : list Z) (d : Z) :
  In (fold_left Z.min ds d) (d :: ds) /\
  forall x, In x (d :: ds) -> fold_left Z.min ds d <= x.
Proof.
  revert d. induction ds as [|d' ds IH]; intros d; cbn [fold_left].
  - split; [now left|]. intros x [<-|[]]. lia.
  - destruct (IH (Z.min d d')) as [Hin Hle]. split.
    + destruct Hin as [E|Hin]; [|right; now right].
      rewrite <- E. destruct (Z.min_spec d d') as [[_ ->]|[_ ->]];
        [now left | right; now left].
    + intros x [<-|[<-|Hx]].
      * specialize (Hle (Z.min d d') (or_introl eq_refl)). lia.
      * specialize (Hle (Z.min d d') (or_introl eq_refl)). lia.
      * apply Hle. now right.
Qed.

Lemma fold_max_spec (ds : list Z) (d : Z) :
  In (fold_left Z.max ds d) (d :: ds) /\
  forall x, In x (d :: ds) -> x <= fold_left Z.max ds d.
Proof.
  revert d. induction ds as [|d' ds IH]; intros d; cbn [fold_left].
  - split; [now left|]. intros x [<-|[]]. lia.
  - destruct (IH (Z.max d d')) as [Hin Hle]. split.
    + destruct Hin as [E|Hin]; [|right; now right].
      rewrite <- E. destruct (Z.max_spec d d') as [[_ ->]|[_ ->]];
        [right; now left | now left].
    + intros x [<-|[<-|Hx]].
      * specialize (Hle (Z.max d d') (or_introl eq_refl)). lia.
      * specialize (Hle (Z.max d d') (or_introl eq_refl)). lia.
      * apply Hle. now right.
Qed.

(** X11.  Over the dates that parse, the date range starts at the
    earliest and ends at the latest of them, and its length in days is their
    difference plus 1, so at least 1.  A non-empty list with no date that
    parses gets "N/A" for both bounds and a length of 1 day; the empty list
    gets a length of 0. *)
Theorem date_range_spans_the_parsed_dates (txns : list Transaction) :
  exists s,
    calculate_transaction_stats txns = Ok s /\
    match txns, parsed_dates txns with
    | [], _ => date_range_days s = 0
    | _ :: _, [] =>
        date_range_start s = "N/A" /\ date_range_end s = "N/A" /\
        date_range_days s = 1
    | _ :: _, dates =>
        exists first last,
          In first dates /\ In last dates /\
          (forall d, In d dates -> first <= d <= last) /\
          date_range_start s = strftime_ymd first /\
          date_range_end s = strftime_ymd last /\
          date_range_days s = last - first + 1 /\
          1 <= date_range_days s
    end.
Proof.
  destruct txns as [|t txns]; [now exists empty_stats|].
  destruct (calculate_transaction_stats_cons t txns) as (s & E & _).
  exists s. split; [exact E|].
  pose proof (calculate_transaction_stats_fields t txns s E)
    as (_ & _ & _ & _ & _ & _ & Hd).
  destruct (parsed_dates (t :: txns)) as [|d ds]; [exact Hd|].
  destruct Hd as (Hs & He & Hn).
  destruct (fold_min_spec ds d) as [Hmin_in Hmin].
  destruct (fold_max_spec ds d) as [Hmax_in Hmax].
  exists (fold_left Z.min ds d), (fold_left Z.max ds d).
  split; [exact Hmin_in|]. split; [exact Hmax_in|].
  split; [intros x Hx; split; [now apply Hmin | now apply Hmax]|].
  split; [exact Hs|]. split; [exact He|].
  assert (Hdays : date_range_days s = fold_left Z.max ds d - fold_left Z.min ds d + 1).
  { rewrite Hn. destruct ds; [cbn; lia | reflexivity]. }
  split; [exact Hdays|].
  rewrite Hdays. specialize (Hmin _ Hmax_in). lia.
Qed.

End DateRange.

Section Counts.
Import DataParser.
Context `{!Calendar}.

Lemma count_type_sum (ty : string) (m : list (string * nat)) :
  list_sum (List.map snd (count_type ty m)) = S (list_sum (List.map snd m)).
Proof.
  induction m as [|[k n] m IH]; simpl; [reflexivity|].
  destruct (String.eqb ty k); simpl; [reflexivity|].
  rewrite IH. lia.
Qed.

Lemma count_types_sum (txns : list Transaction) :
  list_sum (List.map snd (count_types txns)) = length txns.
Proof.
  unfold count_types.
  assert (G : forall l m,
             list_sum (List.map snd (fold_left (fun m t => count_type (type t) m) l m))
             = (list_sum (List.map snd m) + length l)%nat).
  { induction l as [|t l IH]; intros m; cbn [fold_left length]; [lia|].
    rewrite IH, count_type_sum. lia. }
  rewrite G. reflexivity.
Qed.

(** X9.  The [transaction_types] of the statistics has one entry per
    type that occurs, the count of a type is the number of transactions of
    that type and is never 0, and the counts add up to
    [total_transactions]. *)
Theorem type_counts_add_up (txns : list Transaction) :
  exists s,
    calculate_transaction_stats txns = Ok s /\
    List.NoDup (List.map fst (transaction_types s)) /\
    (forall ty n,
       In (ty, n) (transaction_types s) <->
       (0 < n)%nat /\ n = Spec.count_of_type ty txns) /\
    list_sum (List.map snd (transaction_types s)) = total_transactions s.
Proof.
  destruct txns as [|t txns].
  - exists empty_stats. split; [reflexivity|]. split; [constructor|].
    split; [|reflexivity].
    intros ty n. cbn. split; [intros []|]. unfold Spec.count_of_type. cbn. lia.
  - destruct (calculate_transaction_stats_cons t txns) as (s & E & Hn & _).
    exists s. split; [exact E|].
    pose proof (calculate_transaction_stats_fields t txns s E)
      as (_ & _ & -> & _).
    destruct (count_types_counted (t :: txns)) as [Hnd Hc].
    split; [exact Hnd|]. split; [exact Hc|].
    now rewrite count_types_sum, Hn.
Qed.

Lemma count_unique_le (l : list string) : (count_unique l <= length l)%nat.
Proof.
  unfold count_unique. induction l as [|x l IH]; cbn [length].
  - now rewrite list_to_set_nil, size_empty.
  - rewrite list_to_set_cons, size_union_alt, size_singleton.
    assert (Hsub : (list_to_set l : gset string) ∖ {[x]} ⊆ list_to_set l)
      by apply subseteq_difference_l, reflexivity.
    apply subseteq_size in Hsub. lia.
Qed.

Lemma count_unique_pos (x : string) (l : list string) :
  (1 <= count_unique (x :: l))%nat.
Proof.
  unfold count_unique. rewrite list_to_set_cons, size_union_alt, size_singleton. lia.
Qed.

Lemma count_unique_fmap (f : string -> string) (l : list string) :
  (count_unique (List.map f l) <= count_unique l)%nat.
Proof.
  assert (E : (list_to_set (List.map f l) : gset string)
              = list_to_set (List.map f (elements (list_to_set l : gset string)))).
  { apply set_eq. intros x.
    rewrite !elem_of_list_to_set, !list_elem_of_In, !in_map_iff.
    split; intros (y & <- & Hy); exists y; (split; [reflexivity|]);
      apply list_elem_of_In; apply list_elem_of_In in Hy.
    - now apply elem_of_elements, elem_of_list_to_set.
    - now apply elem_of_elements, elem_of_list_to_set in Hy. }
  unfold count_unique at 1. rewrite E.
  etransitivity; [apply count_unique_le|].
  now rewrite length_map.
Qed.

(** X10.  The numbers of distinct originators and of distinct
    beneficiaries are at most the number of transactions, and at least 1 on
    a non-empty list.  With at most 10 transactions there is therefore no
    multiple-originators finding and no originators term in the score. *)
Theorem unique_counterparties_are_bounded (txns : list Transaction) :
  exists s,
    calculate_transaction_stats txns = Ok s /\
    (unique_originators s <= total_transactions s)%nat /\
    (unique_beneficiaries s <= total_transactions s)%nat /\
    (txns <> [] ->
     (1 <= unique_originators s)%nat /\ (1 <= unique_beneficiaries s)%nat) /\
    ((length txns <= 10)%nat ->
     pattern_originators s = [] /\ originators_term (unique_originators s) = 0).
Proof.
  destruct txns as [|t txns].
  - exists empty_stats. split; [reflexivity|]. cbn. repeat split; try lia.
    all: congruence.
  - destruct (calculate_transaction_stats_cons t txns) as (s & E & Hn & _).
    exists s. split; [exact E|].
    pose proof (calculate_transaction_stats_fields t txns s E)
      as (_ & _ & _ & _ & Ho & Hb & _).
    pose proof (count_unique_le (List.map originator (t :: txns))) as Hole.
    pose proof (count_unique_le (List.map beneficiary (t :: txns))) as Hble.
    rewrite length_map in Hole, Hble. rewrite <- Ho in Hole. rewrite <- Hb in Hble.
    rewrite Hn. split; [exact Hole|]. split; [exact Hble|]. split.
    + intros _. rewrite Ho, Hb. split; apply count_unique_pos.
    + intros Hlen. unfold pattern_originators, originators_term.
      destruct (Nat.ltb_spec 10 (unique_originators s)); [lia|].
      destruct (Nat.ltb_spec 20 (unique_originators s)); [lia|]. now split.
Qed.

End Counts.

Section Signs.
Import DataParser.

(** Rounding a magnitude with a positive sign gives a result with a
    positive sign, or NaN. *)
Lemma binary_round_aux_positive (mx ex : Z) (lx : location) :
  match binary_round_aux prec emax false mx ex lx with
  | S754_zero s | S754_infinity s | S754_finite s _ _ => s = false
  | S754_nan => True
  end.
Proof.
  unfold binary_round_aux.
  destruct (shr_fexp prec emax mx ex lx) as [mrs' e'].
  destruct (shr_fexp prec emax _ e' loc_Exact) as [mrs'' e''].
  destruct (shr_m mrs'') as [|m|m]; [reflexivity | | exact I].
  destruct (Z.leb e'' (emax - prec)); reflexivity.
Qed.

Lemma not_below_zero_SF (a : float) :
  Spec.not_below_zero a <->
  match Prim2SF a with
  | S754_infinity s | S754_finite s _ _ => s = false
  | _ => True
  end.
Proof.
  unfold Spec.not_below_zero. float_spec. rewrite SF_zero.
  destruct (Prim2SF a) as [s|s| |s m e]; try destruct s; cbn; intuition congruence.
Qed.

Lemma add_not_below_zero (a b : float) :
  Spec.not_below_zero a -> Spec.not_below_zero b ->
  Spec.not_below_zero (PrimFloat.add a b).
Proof.
  rewrite !not_below_zero_SF, FloatAxioms.add_spec.
  destruct (Prim2SF a) as [sa|sa| |sa ma ea], (Prim2SF b) as [sb|sb| |sb mb eb];
    cbn; try (intros; subst; cbn; trivial; fail).
  - destruct sa, sb; cbn; trivial.
  - intros -> ->. cbn.
    match goal with
    | |- context [binary_normalize _ _ ?z _ _] =>
        destruct z as [|p|p] eqn:Hz;
          [exact I | | exfalso; revert Hz;
                       repeat match goal with
                              | |- context [shl_align ?x ?y ?z] =>
                                  destruct (shl_align x y z)
                              end; cbn; lia]
    end.
    unfold binary_normalize, binary_round.
    destruct (shl_align p _ _) as [mz ez].
    pose proof (binary_round_aux_positive (Z.pos mz) ez loc_Exact) as H.
    destruct (binary_round_aux prec emax false (Z.pos mz) ez loc_Exact); auto.
Qed.

Lemma abs_not_below_zero (a : float) : Spec.not_below_zero (PrimFloat.abs a).
Proof.
  rewrite not_below_zero_SF, FloatAxioms.abs_spec.
  now destruct (Prim2SF a).
Qed.

Lemma positive_not_below_zero (a : float) :
  gtb a 0%float = true -> Spec.not_below_zero a.
Proof.
  unfold gtb. rewrite not_below_zero_SF. float_spec. rewrite SF_zero.
  destruct (Prim2SF a) as [s|s| |s m e]; try destruct s; cbn; congruence.
Qed.

Lemma sum_not_below_zero (l : list float) :
  List.Forall Spec.not_below_zero l -> Spec.not_below_zero (Py.sum l).
Proof.
  unfold Py.sum.
  assert (G : forall acc, Spec.not_below_zero acc ->
                List.Forall Spec.not_below_zero l ->
                Spec.not_below_zero (fold_left PrimFloat.add l acc)).
  { induction l as [|x l IH]; intros acc Hacc Hl; cbn [fold_left]; [exact Hacc|].
    inversion Hl; subst. apply IH; [now apply add_not_below_zero | assumption]. }
  apply G. reflexivity.
Qed.

(** Dividing by a count keeps a float from falling below zero. *)
Lemma div_count_not_below_zero (a : float) (n : nat) :
  Spec.not_below_zero a ->
  Spec.not_below_zero (PrimFloat.div a (float_of_nat n)).
Proof.
  unfold float_of_nat. rewrite !not_below_zero_SF, FloatAxioms.div_spec,
    FloatAxioms.of_uint63_spec.
  pose proof (Uint63.to_Z_bounded (Uint63.of_Z (Z.of_nat n))) as [Hlo _].
  destruct (Uint63.to_Z (Uint63.of_Z (Z.of_nat n))) as [|p|p]; [| |lia].
  - cbn. destruct (Prim2SF a) as [sa|sa| |sa ma ea]; cbn; trivial;
      now intros ->.
  - unfold binary_normalize, binary_round.
    destruct (shl_align p _ _) as [mz ez].
    pose proof (binary_round_aux_positive (Z.pos mz) ez loc_Exact) as H.
    destruct (binary_round_aux prec emax false (Z.pos mz) ez loc_Exact) as [s|s| |s m e];
      try subst s;
      destruct (Prim2SF a) as [sa|sa| |sa ma ea]; cbn; trivial;
      try (now intros ->).
    intros ->. cbn.
    destruct (SFdiv_core_binary prec emax (Z.pos ma) ea (Z.pos m) e) as [[mz' ez'] lz'].
    pose proof (binary_round_aux_positive mz' ez' lz') as H'.
    destruct (binary_round_aux prec emax false mz' ez' lz'); auto.
Qed.

Lemma fold_min2_in (l : list float) (x : float) : In (fold_left min2 l x) (x :: l).
Proof.
  revert x. induction l as [|y l IH]; intros x; cbn [fold_left]; [now left|].
  destruct (IH (min2 x y)) as [E|Hin]; [|right; now right].
  rewrite <- E. unfold min2. destruct (PrimFloat.ltb y x); [right|]; now left.
Qed.

Lemma fold_max2_in (l : list float) (x : float) : In (fold_left max2 l x) (x :: l).
Proof.
  revert x. induction l as [|y l IH]; intros x; cbn [fold_left]; [now left|].
  destruct (IH (max2 x y)) as [E|Hin]; [|right; now right].
  rewrite <- E. unfold max2. destruct (gtb y x); [right|]; now left.
Qed.

Section WithCalendar.
Context `{!Calendar}.

(** X12.  The total volume, the total credits, the total debits, the
    average, the largest and the smallest amount of the statistics are never
    below zero, whatever the amounts are (a NaN amount can make them NaN). *)
Theorem volumes_are_never_negative (txns : list Transaction) :
  exists s,
    calculate_transaction_stats txns = Ok s /\
    Spec.not_below_zero (total_volume s) /\
    Spec.not_below_zero (total_credits s) /\
    Spec.not_below_zero (total_debits s) /\
    Spec.not_below_zero (avg_amount s) /\
    Spec.not_below_zero (max_amount s) /\
    Spec.not_below_zero (min_amount s).
Proof.
  destruct txns as [|t txns].
  - exists empty_stats. repeat split; reflexivity.
  - destruct (calculate_transaction_stats_cons t txns)
      as (s & E & _ & Hv & Hc & Hd & _ & _ & Ha).
    pose proof (calculate_transaction_stats_fields t txns s E)
      as (Hmax & Hmin & _).
    exists s. split; [exact E|].
    assert (Habs : List.Forall Spec.not_below_zero (abs_amounts (t :: txns))).
    { apply List.Forall_forall. intros x Hx. apply in_map_iff in Hx.
      destruct Hx as (t' & <- & _). apply abs_not_below_zero. }
    assert (Hvol : Spec.not_below_zero (Py.sum (abs_amounts (t :: txns))))
      by now apply sum_not_below_zero.
    rewrite Hv, Hc, Hd, Ha.
    split; [exact Hvol|]. split; [|split; [|split; [|split]]].
    + apply sum_not_below_zero, List.Forall_forall. intros x Hx.
      apply in_map_iff in Hx. destruct Hx as (t' & <- & Ht').
      apply filter_In in Ht'. now apply positive_not_below_zero.
    + apply sum_not_below_zero, List.Forall_forall. intros x Hx.
      apply in_map_iff in Hx. destruct Hx as (t' & <- & _).
      apply abs_not_below_zero.
    + now apply div_count_not_below_zero.
    + cbn in Hmax. injection Hmax as <-.
      eapply List.Forall_forall; [exact Habs|]. apply fold_max2_in.
    + cbn in Hmin. injection Hmin as <-.
      eapply List.Forall_forall; [exact Habs|]. apply fold_min2_in.
Qed.

End WithCalendar.
End Signs.

Section FloatOrder.

Ltac compare_cases :=
  repeat match goal with
         | |- context [Z.compare ?a ?b] => destruct (Z.compare_spec a b); subst
         | |- context [Pos.compare_cont Eq ?a ?b] =>
             change (Pos.compare_cont Eq a b) with (Pos.compare a b)
         | |- context [Pos.compare ?a ?b] => destruct (Pos.compare_spec a b); subst
         end;
  cbn; try congruence; try lia.

Lemma SFleb_refl (x : spec_float) : x <> S754_nan -> SFleb x x = true.
Proof.
  unfold SFleb, SFcompare. destruct x as [s|s| |s m e]; try destruct s;
    cbn; try congruence; intros _; rewrite ?Z.compare_refl, ?Pos.compare_cont_refl;
    cbn; try reflexivity.
Qed.

Lemma SFleb_total (x y : spec_float) :
  x <> S754_nan -> y <> S754_nan -> SFltb y x = false -> SFleb x y = true.
Proof.
  unfold SFltb, SFleb, SFcompare.
  destruct x as [sx|sx| |sx mx ex], y as [sy|sy| |sy my ey];
    try destruct sx; try destruct sy; cbn; try congruence; intros _ _;
    compare_cases.
Qed.

Lemma SFltb_leb_trans (x y z : spec_float) :
  SFltb x y = true -> SFleb y z = true -> SFleb x z = true.
Proof.
  unfold SFltb, SFleb, SFcompare.
  destruct x as [sx|sx| |sx mx ex], y as [sy|sy| |sy my ey],
           z as [sz|sz| |sz mz ez];
    try destruct sx; try destruct sy; try destruct sz; cbn; try congruence;
    compare_cases.
Qed.

Lemma SFltb_trans (x y z : spec_float) :
  SFltb x y = true -> SFltb y z = true -> SFltb x z = true.
Proof.
  unfold SFltb, SFcompare.
  destruct x as [sx|sx| |sx mx ex], y as [sy|sy| |sy my ey],
           z as [sz|sz| |sz mz ez];
    try destruct sx; try destruct sy; try destruct sz; cbn; try congruence;
    compare_cases.
Qed.

Lemma SFleb_trans (x y z : spec_float) :
  SFleb x y = true -> SFleb y z = true -> SFleb x z = true.
Proof.
  unfold SFleb, SFcompare.
  destruct x as [sx|sx| |sx mx ex], y as [sy|sy| |sy my ey],
           z as [sz|sz| |sz mz ez];
    try destruct sx; try destruct sy; try destruct sz; cbn; try congruence;
    compare_cases.
Qed.

Lemma leb_refl (a : float) : Prim2SF a <> S754_nan -> PrimFloat.leb a a = true.
Proof. float_spec. apply SFleb_refl. Qed.

Lemma leb_total (a b : float) :
  Prim2SF a <> S754_nan -> Prim2SF b <> S754_nan ->
  PrimFloat.ltb b a = false -> PrimFloat.leb a b = true.
Proof. float_spec. apply SFleb_total. Qed.

Lemma leb_trans (a b c : float) :
  PrimFloat.leb a b = true -> PrimFloat.leb b c = true -> PrimFloat.leb a c = true.
Proof. float_spec. apply SFleb_trans. Qed.

Lemma ltb_trans (a b c : float) :
  PrimFloat.ltb a b = true -> PrimFloat.ltb b c = true -> PrimFloat.ltb a c = true.
Proof. float_spec. apply SFltb_trans. Qed.

Lemma abs_not_nan (a : float) :
  Prim2SF a <> S754_nan -> Prim2SF (PrimFloat.abs a) <> S754_nan.
Proof. rewrite FloatAxioms.abs_spec. now destruct (Prim2SF a). Qed.

Lemma min2_le (x y : float) :
  Prim2SF x <> S754_nan -> Prim2SF y <> S754_nan ->
  Prim2SF (min2 x y) <> S754_nan /\
  PrimFloat.leb (min2 x y) x = true /\ PrimFloat.leb (min2 x y) y = true.
Proof.
  intros Hx Hy. unfold min2. destruct (PrimFloat.ltb y x) eqn:E.
  - split; [exact Hy|]. split; [now apply ltb_leb | now apply leb_refl].
  - split; [exact Hx|]. split; [now apply leb_refl | now apply leb_total].
Qed.

Lemma max2_ge (x y : float) :
  Prim2SF x <> S754_nan -> Prim2SF y <> S754_nan ->
  Prim2SF (max2 x y) <> S754_nan /\
  PrimFloat.leb x (max2 x y) = true /\ PrimFloat.leb y (max2 x y) = true.
Proof.
  intros Hx Hy. unfold max2, gtb. destruct (PrimFloat.ltb x y) eqn:E.
  - split; [exact Hy|]. split; [now apply ltb_leb | now apply leb_refl].
  - split; [exact Hx|]. split; [now apply leb_refl | now apply leb_total].
Qed.

Lemma fold_min2_le (l : list float) (x : float) :
  Prim2SF x <> S754_nan -> List.Forall (fun y => Prim2SF y <> S754_nan) l ->
  forall y, In y (x :: l) -> PrimFloat.leb (fold_left min2 l x) y = true.
Proof.
  revert x. induction l as [|z l IH]; intros x Hx Hl y Hy; cbn [fold_left].
  - destruct Hy as [<-|[]]. now apply leb_refl.
  - inversion Hl as [|? ? Hz Hl']; subst.
    destruct (min2_le x z Hx Hz) as (Hm & Hmx & Hmz).
    pose proof (IH (min2 x z) Hm Hl') as Hle.
    destruct Hy as [<-|[<-|Hy]].
    + eapply leb_trans; [apply Hle; now left | exact Hmx].
    + eapply leb_trans; [apply Hle; now left | exact Hmz].
    + apply Hle. now right.
Qed.

Lemma fold_max2_ge (l : list float) (x : float) :
  Prim2SF x <> S754_nan -> List.Forall (fun y => Prim2SF y <> S754_nan) l ->
  forall y, In y (x :: l) -> PrimFloat.leb y (fold_left max2 l x) = true.
Proof.
  revert x. induction l as [|z l IH]; intros x Hx Hl y Hy; cbn [fold_left].
  - destruct Hy as [<-|[]]. now apply leb_refl.
  - inversion Hl as [|? ? Hz Hl']; subst.
    destruct (max2_ge x z Hx Hz) as (Hm & Hmx & Hmz).
    pose proof (IH (max2 x z) Hm Hl') as Hle.
    destruct Hy as [<-|[<-|Hy]].
    + eapply leb_trans; [exact Hmx | apply Hle; now left].
    + eapply leb_trans; [exact Hmz | apply Hle; now left].
    + apply Hle. now right.
Qed.

End FloatOrder.

Section Extremes.
Import DataParser.
Context `{!Calendar}.

(** X13.  On a non-empty list [max_amount] and [min_amount] are the
    absolute amounts of two of the transactions, and over finite amounts
    every absolute amount lies between them. *)
Theorem extremes_bound_the_amounts (t : Transaction) (txns : list Transaction) :
  exists s,
    calculate_transaction_stats (t :: txns) = Ok s /\
    In (max_amount s) (abs_amounts (t :: txns)) /\
    In (min_amount s) (abs_amounts (t :: txns)) /\
    (List.Forall Spec.finite_amount (t :: txns) ->
     forall t', In t' (t :: txns) ->
       PrimFloat.leb (min_amount s) (PrimFloat.abs (amount t')) = true /\
       PrimFloat.leb (PrimFloat.abs (amount t')) (max_amount s) = true).
Proof.
  destruct (calculate_transaction_stats_cons t txns) as (s & E & _).
  pose proof (calculate_transaction_stats_fields t txns s E) as (Hmax & Hmin & _).
  exists s. split; [exact E|].
  cbn in Hmax, Hmin. injection Hmax as Hmax. injection Hmin as Hmin.
  split; [rewrite <- Hmax; apply fold_max2_in|].
  split; [rewrite <- Hmin; apply fold_min2_in|].
  intros Hfin t' Ht'.
  assert (Hnn : List.Forall (fun y => Prim2SF y <> S754_nan) (abs_amounts (t :: txns))).
  { apply List.Forall_forall. intros y Hy. apply in_map_iff in Hy.
    destruct Hy as (u & <- & Hu). apply abs_not_nan, finite_amount_not_nan.
    eapply List.Forall_forall in Hfin; eassumption. }
  cbn [abs_amounts List.map] in Hnn. inversion Hnn as [|? ? Hx Hl]; subst.
  assert (Hin : In (PrimFloat.abs (amount t')) (abs_amounts (t :: txns)))
    by (unfold abs_amounts;
        now apply (in_map (fun u => PrimFloat.abs (amount u)))).
  rewrite <- Hmin, <- Hmax. split.
  - now apply fold_min2_le.
  - now apply fold_max2_ge.
Qed.

End Extremes.

(* ===================================================================== *)
(** * The findings, heading by heading                                   *)
(* ===================================================================== *)

Section Headings.
Import DataParser.
Context `{!Format}.

Lemma describe_heading (f : Finding) (h : string) :
  In h Spec.headings -> String.prefix h (describe f) = String.eqb (Spec.heading f) h.
Proof.
  intros Hh. cbn in Hh.
  repeat (destruct Hh as [<-|Hh]); try contradiction;
    destruct f; try reflexivity; cbn [describe Spec.heading String.eqb];
    apply prefix_append.
Qed.

Lemma texts_headed_describe (h : string) (fs : list Finding) :
  In h Spec.headings ->
  Spec.texts_headed h (List.map describe fs) =
  List.map describe (Spec.findings_headed h fs).
Proof.
  intros Hh. unfold Spec.texts_headed, Spec.findings_headed.
  induction fs as [|f fs IH]; cbn [List.map List.filter]; [reflexivity|].
  rewrite (describe_heading f h Hh), IH.
  now destruct (String.eqb (Spec.heading f) h).
Qed.

End Headings.

Section FindingsByHeading.
Import DataParser.

Lemma ratio_pattern_eq (mk : float -> Finding) (limit base total : float) :
  ratio_pattern mk limit base total =
  Ok (if Spec.ratio_above limit base total then [mk (PrimFloat.div total base)]
      else []).
Proof.
  unfold ratio_pattern, Spec.ratio_above.
  destruct (gtb base 0%float) eqn:Hb; cbn [andb]; [|reflexivity].
  destruct (gtb total 0%float); cbn [andb]; [|reflexivity].
  rewrite (truediv_positive _ _ Hb). reflexivity.
Qed.

(** [pattern_findings] with the two ratio heuristics written out. *)
Lemma pattern_findings_parts (case : CaseInput) (stats : Stats) :
  pattern_findings case stats =
  Ok (match transactions case with
      | [] => []
      | txns =>
          pattern_structuring txns
          ++ (if Spec.ratio_above 3%float (expected_monthly_volume (customer case))
                   (total_volume stats)
              then [VolumeSpike (PrimFloat.div (total_volume stats)
                                   (expected_monthly_volume (customer case)))]
              else [])
          ++ pattern_rapid_movement txns
          ++ pattern_small_deposits txns
          ++ (if Spec.ratio_above 2%float (declared_income (customer case))
                   (total_volume stats)
              then [IncomeMismatch (PrimFloat.div (total_volume stats)
                                      (declared_income (customer case)))]
              else [])
          ++ pattern_originators stats
          ++ pattern_round_numbers txns
          ++ pattern_large txns
          ++ pattern_high_risk txns
      end).
Proof.
  unfold pattern_findings, pattern_volume_spike, pattern_income_mismatch.
  rewrite !ratio_pattern_eq. now destruct (transactions case).
Qed.

Lemma findings_headed_app (h : string) (l l' : list Finding) :
  Spec.findings_headed h (l ++ l') =
  Spec.findings_headed h l ++ Spec.findings_headed h l'.
Proof. apply List.filter_app. Qed.

(** A list of findings of one kind is kept whole or dropped whole. *)
Lemma findings_headed_uniform (h h' : string) (l : list Finding) :
  List.Forall (fun f => Spec.heading f = h') l ->
  Spec.findings_headed h l = if String.eqb h' h then l else [].
Proof.
  unfold Spec.findings_headed. intros Hl.
  induction Hl as [|f l Hf Hl IH]; cbn [List.filter].
  - now destruct (String.eqb h' h).
  - rewrite IH, Hf. now destruct (String.eqb h' h).
Qed.

Lemma Forall_if_singleton {A : Type} (P : A -> Prop) (c : bool) (x : A) :
  P x -> List.Forall P (if c then [x] else []).
Proof. destruct c; repeat constructor; assumption. Qed.

Lemma Forall_map_const {A B : Type} (P : B -> Prop) (g : A -> B) (l : list A) :
  (forall x, P (g x)) -> List.Forall P (List.map g l).
Proof. intros H. apply List.Forall_forall. intros y Hy.
  apply in_map_iff in Hy. destruct Hy as (x & <- & _). apply H. Qed.

(** The findings of one kind among those of [pattern_findings]: the part
    of the heuristic of that kind. *)
Lemma findings_by_heading (case : CaseInput) (stats : Stats) (h : string) :
  exists fs,
    pattern_findings case stats = Ok fs /\
    Spec.findings_headed h fs =
      match transactions case with
      | [] => []
      | txns =>
          (if String.eqb "Structuring: " h then pattern_structuring txns else [])
          ++ (if String.eqb "Volume spike: " h
              then if Spec.ratio_above 3%float
                        (expected_monthly_volume (customer case)) (total_volume stats)
                   then [VolumeSpike (PrimFloat.div (total_volume stats)
                                        (expected_monthly_volume (customer case)))]
                   else []
              else [])
          ++ (if String.eqb "Rapid movement: " h then pattern_rapid_movement txns
              else [])
          ++ (if String.eqb "Multiple small deposits: " h
              then pattern_small_deposits txns else [])
          ++ (if String.eqb "Income mismatch: " h
              then if Spec.ratio_above 2%float
                        (declared_income (customer case)) (total_volume stats)
                   then [IncomeMismatch (PrimFloat.div (total_volume stats)
                                           (declared_income (customer case)))]
                   else []
              else [])
          ++ (if String.eqb "Multiple originators: " h then pattern_originators stats
              else [])
          ++ (if String.eqb "Round-number transactions: " h
              then pattern_round_numbers txns else [])
          ++ (if String.eqb "Large transaction: " h then pattern_large txns else [])
          ++ (if String.eqb "High-risk transfer types: " h
              then pattern_high_risk txns else [])
      end.
Proof.
  eexists. split; [apply pattern_findings_parts|].
  destruct (transactions case) as [|t txns]; [reflexivity|].
  rewrite !findings_headed_app.
  repeat f_equal; apply findings_headed_uniform.
  - unfold pattern_structuring. now apply Forall_if_singleton.
  - now apply Forall_if_singleton.
  - unfold pattern_rapid_movement. now apply Forall_map_const.
  - unfold pattern_small_deposits. now apply Forall_if_singleton.
  - now apply Forall_if_singleton.
  - unfold pattern_originators. now apply Forall_if_singleton.
  - unfold pattern_round_numbers. now apply Forall_if_singleton.
  - unfold pattern_large. now apply Forall_map_const.
  - unfold pattern_high_risk. destruct (hr_txns (t :: txns)); repeat constructor.
Qed.

End FindingsByHeading.
(** Comparisons of literal headings, evaluated. *)
Ltac decide_headings :=
  cbv zeta;
  repeat match goal with
         | |- context [String.eqb ?a ?b] =>
             let v := eval vm_compute in (String.eqb a b) in
             change (String.eqb a b) with v
         end;
  cbv iota; cbn [app].

Section PatternTexts.
Import DataParser.
Context `{!Format}.

(** The texts of one kind among those of [identify_patterns]. *)
Lemma patterns_by_heading (case : CaseInput) (stats : Stats) (h : string) :
  In h Spec.headings ->
  exists fs,
    identify_patterns case stats = Ok (List.map describe fs) /\
    pattern_findings case stats = Ok fs /\
    Spec.texts_headed h (List.map describe fs) =
      List.map describe (Spec.findings_headed h fs).
Proof.
  intros Hh. exists (match pattern_findings case stats with Ok fs => fs | Raise _ => [] end).
  rewrite (pattern_findings_parts case stats).
  split; [unfold identify_patterns; now rewrite pattern_findings_parts|].
  split; [reflexivity|]. now apply texts_headed_describe.
Qed.

(** X7.  [identify_patterns] reports one large-transaction finding for
    each transaction whose absolute amount is at least 5,000,000, in the
    order of the transactions, with the currency, the absolute amount and
    the date of that transaction; an amount of exactly 5,000,000, received
    or paid, is reported. *)
Theorem large_transactions_are_reported_one_by_one (case : CaseInput)
    (stats : Stats) :
  exists patterns,
    identify_patterns case stats = Ok patterns /\
    Spec.texts_headed "Large transaction: " patterns =
      List.map
        (fun t => "Large transaction: " ++ currency t ++ " "
                  ++ fmt_c2f (PrimFloat.abs (amount t)) ++ " on " ++ date t)%string
        (List.filter (fun t => geb (PrimFloat.abs (amount t)) 5000000%float)
                     (transactions case)) /\
    (forall t, amount t = 5000000%float \/ amount t = (-5000000)%float ->
               geb (PrimFloat.abs (amount t)) 5000000%float = true).
Proof.
  destruct (patterns_by_heading case stats "Large transaction: ")
    as (fs & E & Efs & Ht); [cbn; tauto|].
  eexists. split; [exact E|]. split.
  - rewrite Ht.
    destruct (findings_by_heading case stats "Large transaction: ")
      as (fs' & Efs' & Hf).
    assert (fs' = fs) by congruence. subst fs'. rewrite Hf.
    destruct (transactions case) as [|t txns]; [reflexivity|].
    decide_headings. rewrite List.app_nil_r. unfold pattern_large.
    rewrite List.map_map. reflexivity.
  - intros t [-> | ->]; reflexivity.
Qed.

(** X5.  The small-deposits finding appears exactly when at least five
    transactions have an amount strictly between 0 and 200,000, and it
    reports their number; an amount of exactly 0 or exactly 200,000 is not
    counted. *)
Theorem small_deposits_need_five_below_200000 (case : CaseInput) (stats : Stats) :
  exists patterns,
    identify_patterns case stats = Ok patterns /\
    Spec.texts_headed "Multiple small deposits: " patterns =
      (if (5 <=? length (small_deposits (transactions case)))%nat
       then [ ("Multiple small deposits: "
               ++ str_of_nat (length (small_deposits (transactions case)))
               ++ " deposits under INR 2,00,000")%string ]
       else []) /\
    (forall t, In t (small_deposits (transactions case)) <->
               In t (transactions case) /\
               PrimFloat.ltb 0%float (amount t) = true /\
               PrimFloat.ltb (amount t) 200000%float = true) /\
    (forall t, amount t = 0%float \/ amount t = 200000%float ->
               PrimFloat.ltb 0%float (amount t)
               && PrimFloat.ltb (amount t) 200000%float = false).
Proof.
  destruct (patterns_by_heading case stats "Multiple small deposits: ")
    as (fs & E & Efs & Ht); [cbn; tauto|].
  eexists. split; [exact E|]. split; [|split].
  - rewrite Ht.
    destruct (findings_by_heading case stats "Multiple small deposits: ")
      as (fs' & Efs' & Hf).
    assert (fs' = fs) by congruence. subst fs'. rewrite Hf.
    destruct (transactions case) as [|t txns]; [reflexivity|].
    decide_headings. unfold pattern_small_deposits.
    now destruct (5 <=? length (small_deposits (t :: txns)))%nat.
  - intros t. unfold small_deposits. rewrite filter_In, andb_true_iff. tauto.
  - intros t [-> | ->]; reflexivity.
Qed.

(** X3.  On a non-empty case [identify_patterns] reports a volume spike
    exactly when the expected monthly volume and the total volume are
    positive and their quotient exceeds 3, and an income mismatch exactly
    when the declared income and the total volume are positive and their
    quotient exceeds 2; both texts carry the quotient.  The volume term of the score is between 10
    and 25 under the spike condition and 0 otherwise. *)
Theorem ratio_findings_and_the_volume_term (case : CaseInput) (stats : Stats) :
  let expected := expected_monthly_volume (customer case) in
  let declared := declared_income (customer case) in
  let total := total_volume stats in
  exists patterns v,
    identify_patterns case stats = Ok patterns /\
    Spec.texts_headed "Volume spike: " patterns =
      match transactions case with
      | [] => []
      | _ :: _ =>
          if Spec.ratio_above 3%float expected total
          then [ ("Volume spike: " ++ fmt_1f (PrimFloat.div total expected)
                  ++ "x above expected monthly volume")%string ]
          else []
      end /\
    Spec.texts_headed "Income mismatch: " patterns =
      match transactions case with
      | [] => []
      | _ :: _ =>
          if Spec.ratio_above 2%float declared total
          then [ ("Income mismatch: Transaction volume "
                  ++ fmt_1f (PrimFloat.div total declared)
                  ++ "x declared annual income")%string ]
          else []
      end /\
    volume_term expected total = Ok v /\
    (if Spec.ratio_above 3%float expected total then 10 <= v <= 25 else v = 0).
Proof.
  intros expected declared total.
  destruct (patterns_by_heading case stats "Volume spike: ")
    as (fs & E & Efs & Ht); [cbn; tauto|].
  destruct (patterns_by_heading case stats "Income mismatch: ")
    as (fs' & _ & Efs' & Ht'); [cbn; tauto|].
  assert (fs' = fs) by congruence. subst fs'.
  destruct (findings_by_heading case stats "Volume spike: ") as (fs1 & E1 & Hf1).
  destruct (findings_by_heading case stats "Income mismatch: ") as (fs2 & E2 & Hf2).
  assert (fs1 = fs) by congruence. assert (fs2 = fs) by congruence. subst fs1 fs2.
  exists (List.map describe fs).
  assert (Hv : exists v, volume_term expected total = Ok v /\
               if Spec.ratio_above 3%float expected total then 10 <= v <= 25
               else v = 0).
  { unfold volume_term, Spec.ratio_above.
    destruct (gtb expected 0%float) eqn:He; cbn [andb]; [|now exists 0].
    destruct (gtb total 0%float); cbn [andb]; [|now exists 0].
    rewrite (truediv_positive _ _ He). cbn.
    set (r := PrimFloat.div total expected). unfold gtb.
    destruct (PrimFloat.ltb 10%float r) eqn:H10.
    - rewrite (ltb_trans 3%float 10%float r eq_refl H10). eexists; split; [reflexivity|lia].
    - destruct (PrimFloat.ltb 5%float r) eqn:H5.
      + rewrite (ltb_trans 3%float 5%float r eq_refl H5).
        eexists; split; [reflexivity|lia].
      + destruct (PrimFloat.ltb 3%float r); eexists; (split; [reflexivity|lia]). }
  destruct Hv as (v & Ev & Hv). exists v.
  split; [exact E|]. rewrite Ht, Ht', Hf1, Hf2. fold expected declared total.
  split; [|split; [|split; [exact Ev | exact Hv]]].
  - destruct (transactions case) as [|t txns]; [reflexivity|].
    decide_headings.
    now destruct (Spec.ratio_above 3%float expected total).
  - destruct (transactions case) as [|t txns]; [reflexivity|].
    decide_headings.
    now destruct (Spec.ratio_above 2%float declared total).
Qed.

End PatternTexts.

Section RapidMovement.
Import DataParser.

Lemma record_day_keys (t : Transaction) (m : list (string * DayTotals)) (k : string) :
  In k (List.map fst (record_day t m)) <-> k = date t \/ In k (List.map fst m).
Proof.
  induction m as [|[d v] m IH]; cbn.
  - intuition congruence.
  - destruct (String.eqb_spec (date t) d) as [E|Hne]; cbn;
      [|rewrite IH]; intuition congruence.
Qed.

Lemma record_day_NoDup (t : Transaction) (m : list (string * DayTotals)) :
  List.NoDup (List.map fst m) -> List.NoDup (List.map fst (record_day t m)).
Proof.
  induction m as [|[d v] m IH]; cbn; intros Hnd.
  - constructor; [intros []|constructor].
  - inversion Hnd as [|? ? Hnotin Hnd']; subst.
    destruct (String.eqb_spec (date t) d) as [E|Hne]; cbn.
    + now constructor.
    + constructor; [|now apply IH].
      rewrite record_day_keys. intros [E|Hin]; [congruence|contradiction].
Qed.

(** An entry of the dictionary after a step: an entry of before, or the
    updated entry of the day of [t]. *)
Lemma record_day_entries (t : Transaction) (m : list (string * DayTotals))
    (d : string) (v : DayTotals) :
  List.NoDup (List.map fst m) ->
  In (d, v) (record_day t m) ->
  (d <> date t /\ In (d, v) m) \/
  (d = date t /\
   exists v0, v = add_to_day t v0 /\
              (In (d, v0) m \/
               v0 = {| day_credits := 0%float; day_debits := 0%float |})).
Proof.
  induction m as [|[d0 v0] m IH]; cbn; intros Hnd.
  - intros [E|[]]. injection E as <- <-. right. split; [reflexivity|]. eauto.
  - inversion Hnd as [|? ? Hnotin Hnd']; subst.
    destruct (String.eqb_spec (date t) d0) as [E|Hne]; cbn.
    + intros [E'|Hin].
      * injection E' as <- <-. right. split; [now symmetry|].
        exists v0. split; [reflexivity|]. left. now left.
      * left. split; [|now right].
        intros Hd. apply Hnotin. apply (in_map fst) in Hin. cbn in Hin. congruence.
    + intros [E'|Hin].
      * injection E' as <- <-. left. split; [congruence|]. now left.
      * destruct (IH Hnd' Hin) as [[Hd Hin']|(Hd & v1 & Hv & Hin')].
        -- left. split; [exact Hd|]. now right.
        -- right. split; [exact Hd|]. exists v1. split; [exact Hv|].
           destruct Hin' as [Hin'|Hz]; [left; now right | now right].
Qed.

Lemma not_credit_not_debit (a : float) :
  gtb a 0%float = false -> PrimFloat.ltb a 0%float = false ->
  Spec.zero_or_nan (PrimFloat.abs a).
Proof.
  unfold gtb, Spec.zero_or_nan. float_spec. rewrite SF_zero.
  destruct (Prim2SF a) as [s|s| |s m e]; try destruct s; cbn; try congruence; auto.
Qed.

Lemma zero_or_nan_add (x y : float) :
  Spec.zero_or_nan x -> Spec.zero_or_nan y -> Spec.zero_or_nan (PrimFloat.add x y).
Proof.
  unfold Spec.zero_or_nan. rewrite FloatAxioms.add_spec.
  intros [-> | ->] [-> | ->]; cbn; auto.
Qed.

Lemma zero_or_nan_not_positive (x : float) :
  Spec.zero_or_nan x -> gtb x 0%float = false.
Proof.
  unfold gtb, Spec.zero_or_nan. float_spec. rewrite SF_zero.
  now intros [-> | ->].
Qed.

Lemma explained_step (done : list Transaction) (m : list (string * DayTotals))
    (t : Transaction) :
  Spec.day_totals_explained done m ->
  Spec.day_totals_explained (done ++ [t]) (record_day t m).
Proof.
  intros [Hnd Hm]. split; [now apply record_day_NoDup|].
  intros d v Hin.
  assert (Hold : forall v0, In (d, v0) m \/
                   v0 = {| day_credits := 0%float; day_debits := 0%float |} ->
            ((exists c, In c (done ++ [t]) /\ date c = d /\ is_credit c = true) \/
             day_credits v0 = 0%float) /\
            ((exists b, In b (done ++ [t]) /\ date b = d /\ is_debit b = true) \/
             Spec.zero_or_nan (day_debits v0))).
  { intros v0 [Hin0 | ->].
    - destruct (Hm d v0 Hin0) as [Hc Hb]. split.
      + destruct Hc as [(c & Hc & Hd & Hcr)|Hz]; [left|now right].
        exists c. rewrite in_app_iff. auto.
      + destruct Hb as [(b & Hb & Hd & Hdb)|Hz]; [left|now right].
        exists b. rewrite in_app_iff. auto.
    - split; right; [reflexivity | now left]. }
  destruct (record_day_entries t m d v Hnd Hin) as [[Hd Hin']|(Hd & v0 & -> & Hv0)].
  - now apply Hold; left.
  - destruct (Hold v0 Hv0) as [Hc Hb]. unfold add_to_day.
    assert (Ht : In t (done ++ [t])) by (rewrite in_app_iff; right; now left).
    destruct (gtb (amount t) 0%float) eqn:Hcr; cbn [day_credits day_debits].
    + split; [left; now exists t | exact Hb].
    + split; [exact Hc|].
      destruct (PrimFloat.ltb (amount t) 0%float) eqn:Hdb; [left; now exists t|].
      destruct Hb as [Hb|Hz]; [now left|]. right.
      apply zero_or_nan_add; [exact Hz | now apply not_credit_not_debit].
Qed.

Lemma dates_amounts_explained (txns : list Transaction) :
  Spec.day_totals_explained txns (dates_amounts txns).
Proof.
  unfold dates_amounts.
  assert (G : forall l done m, Spec.day_totals_explained done m ->
                Spec.day_totals_explained (done ++ l)
                  (fold_left (fun m t => record_day t m) l m)).
  { induction l as [|t l IH]; intros done m Hc; cbn [fold_left].
    - now rewrite List.app_nil_r.
    - replace (done ++ t :: l) with ((done ++ [t]) ++ l)
        by now rewrite <- List.app_assoc.
      apply IH. now apply explained_step. }
  apply (G txns [] []). split; [constructor|]. intros d v [].
Qed.

Lemma NoDup_map_filter_fst {A B : Type} (p : A * B -> bool) (l : list (A * B)) :
  List.NoDup (List.map fst l) -> List.NoDup (List.map fst (List.filter p l)).
Proof.
  induction l as [|x l IH]; cbn; intros Hnd; [constructor|].
  inversion Hnd as [|? ? Hnotin Hnd']; subst.
  destruct (p x); cbn; [|now apply IH].
  constructor; [|now apply IH].
  intros Hin. apply Hnotin. apply in_map_iff in Hin.
  destruct Hin as (y & Ey & Hy). apply filter_In in Hy.
  rewrite <- Ey. now apply in_map.
Qed.

Section Texts.
Context `{!Format}.

(** X4.  Every rapid-movement finding names one date, no date is named
    twice, and each date named has a transaction with a positive amount and
    a transaction with a negative amount among the transactions of the
    case. *)
Theorem rapid_movement_days_have_both_sides (case : CaseInput) (stats : Stats) :
  exists patterns days,
    identify_patterns case stats = Ok patterns /\
    Spec.texts_headed "Rapid movement: " patterns =
      List.map
        (fun d => "Rapid movement: Credits and debits on same day (" ++ d ++ ")")%string
        days /\
    List.NoDup days /\
    (forall d, In d days ->
       exists c b,
         In c (transactions case) /\ In b (transactions case) /\
         date c = d /\ date b = d /\
         PrimFloat.ltb 0%float (amount c) = true /\
         PrimFloat.ltb (amount b) 0%float = true).
Proof.
  destruct (patterns_by_heading case stats "Rapid movement: ")
    as (fs & E & Efs & Ht); [cbn; tauto|].
  destruct (findings_by_heading case stats "Rapid movement: ") as (fs' & E' & Hf).
  assert (fs' = fs) by congruence. subst fs'.
  set (both := fun dv : string * DayTotals =>
                 gtb (day_credits (snd dv)) 0%float
                 && gtb (day_debits (snd dv)) 0%float).
  exists (List.map describe fs),
         (List.map fst (List.filter both (dates_amounts (transactions case)))).
  split; [exact E|].
  destruct (dates_amounts_explained (transactions case)) as [Hnd Hm].
  split; [|split].
  - rewrite Ht, Hf.
    destruct (transactions case) as [|t txns]; [reflexivity|].
    decide_headings. rewrite List.app_nil_r.
    unfold pattern_rapid_movement. fold both.
    now rewrite !List.map_map.
  - now apply NoDup_map_filter_fst.
  - intros d Hd. apply in_map_iff in Hd. destruct Hd as ([d' v] & Ed & Hdv).
    cbn in Ed. subst d'. apply filter_In in Hdv. destruct Hdv as [Hin Hboth].
    unfold both in Hboth. cbn [snd] in Hboth. apply andb_true_iff in Hboth.
    destruct Hboth as [Hc Hb].
    destruct (Hm d v Hin) as [[(c & Hcin & Hcd & Hcc)|Hz] [(b & Hbin & Hbd & Hbb)|Hz']].
    + exists c, b. repeat split; assumption.
    + rewrite (zero_or_nan_not_positive _ Hz') in Hb. discriminate.
    + rewrite Hz in Hc. discriminate.
    + rewrite Hz in Hc. discriminate.
Qed.

End Texts.
End RapidMovement.

Section RoundNumbers.
Import DataParser.

(** A positive finite float is found round by the test of the code exactly
    when its value is an integer multiple of [k]. *)
Lemma mod_is_zero_exact (a : float) (k : Z) (m : positive) (e : Z) :
  0 < k ->
  Prim2SF a = S754_finite false m e ->
  (mod_is_zero a k = true <-> exists n : Z, (to_Q a == inject_Z (n * k))%Q).
Proof.
  intros Hk Ha. unfold mod_is_zero, to_Q. rewrite Ha.
  destruct e as [|p|p].
  - rewrite Z.eqb_eq, Z.mod_divide by lia. unfold Qeq, inject_Z. cbn [Qnum Qden].
    split.
    + intros [n Hn]. exists n. lia.
    + intros [n Hn]. exists n. lia.
  - rewrite Z.eqb_eq, Z.mod_divide by lia. unfold Qeq, inject_Z. cbn [Qnum Qden].
    split.
    + intros [n Hn]. exists n. lia.
    + intros [n Hn]. exists n. lia.
  - rewrite andb_true_iff, !Z.eqb_eq. unfold Qeq, inject_Z. cbn [Qnum Qden].
    rewrite Pos2Z.inj_pow.
    assert (Hpow : 0 < 2 ^ Z.pos p) by (apply Z.pow_pos_nonneg; lia).
    set (d := 2 ^ Z.pos p) in *.
    split.
    + intros [Hd Hq].
      apply Z.mod_divide in Hd; [|lia]. destruct Hd as [q Hq'].
      rewrite Hq' in Hq. rewrite Z.div_mul in Hq by lia.
      apply Z.mod_divide in Hq; [|lia]. destruct Hq as [n Hn].
      exists n. rewrite Hq', Hn. ring.
    + intros [n Hn]. rewrite Z.mul_1_r in Hn.
      assert (Em : Z.pos m = (n * k) * d) by (rewrite Hn; reflexivity).
      rewrite Em. rewrite Z.mod_mul, Z.div_mul by lia. split; [reflexivity|].
      apply Z.mod_mul. lia.
Qed.

Lemma positive_finite (a : float) :
  PrimFloat.ltb 0%float a = true -> PrimFloat.is_infinity a = false ->
  exists m e, Prim2SF a = S754_finite false m e.
Proof.
  unfold PrimFloat.is_infinity. float_spec. rewrite SF_zero.
  intros Hpos Hinf.
  assert (Hi : Prim2SF a <> S754_infinity false).
  { intros E. revert Hinf. rewrite E. cbn.
    change (Prim2SF infinity) with (S754_infinity false). discriminate. }
  revert Hpos Hi.
  destruct (Prim2SF a) as [s|s| |s m e]; try destruct s; cbn; try congruence.
  eauto.
Qed.

Lemma finite_amount_not_infinite (t : Transaction) :
  Spec.finite_amount t -> PrimFloat.is_infinity (amount t) = false.
Proof.
  unfold Spec.finite_amount, amount_must_be_finite.
  destruct (PrimFloat.is_nan (amount t)); cbn [orb]; [discriminate|].
  now destruct (PrimFloat.is_infinity (amount t)).
Qed.

Section Texts.
Context `{!Format}.

(** X6.  The round-number finding appears exactly when at least three
    transactions are counted as round, and it reports their number; a
    transaction with a finite amount is counted exactly when its amount is
    positive and an exact integer multiple of 10,000. *)
Theorem round_numbers_are_exact_multiples_of_10000 (case : CaseInput)
    (stats : Stats) :
  exists patterns,
    identify_patterns case stats = Ok patterns /\
    Spec.texts_headed "Round-number transactions: " patterns =
      (if (3 <=? length (round_txns (transactions case)))%nat
       then [ ("Round-number transactions: "
               ++ str_of_nat (length (round_txns (transactions case)))
               ++ " transactions in exact round amounts")%string ]
       else []) /\
    (forall t, Spec.finite_amount t ->
       (In t (round_txns (transactions case)) <->
        In t (transactions case) /\
        PrimFloat.ltb 0%float (amount t) = true /\
        exists n : Z, (to_Q (amount t) == inject_Z (n * 10000))%Q)).
Proof.
  destruct (patterns_by_heading case stats "Round-number transactions: ")
    as (fs & E & Efs & Ht); [cbn; tauto|].
  eexists. split; [exact E|]. split.
  - rewrite Ht.
    destruct (findings_by_heading case stats "Round-number transactions: ")
      as (fs' & Efs' & Hf).
    assert (fs' = fs) by congruence. subst fs'. rewrite Hf.
    destruct (transactions case) as [|t txns]; [reflexivity|].
    decide_headings. unfold pattern_round_numbers.
    now destruct (3 <=? length (round_txns (t :: txns)))%nat.
  - intros t Hfin. unfold round_txns. rewrite filter_In, andb_true_iff.
    unfold gtb. split.
    + intros (Hin & Hpos & Hmod). split; [exact Hin|]. split; [exact Hpos|].
      destruct (positive_finite _ Hpos (finite_amount_not_infinite t Hfin))
        as (m & e & Ha).
      now apply (mod_is_zero_exact _ 10000 m e).
    + intros (Hin & Hpos & Hn). split; [exact Hin|]. split; [exact Hpos|].
      destruct (positive_finite _ Hpos (finite_amount_not_infinite t Hfin))
        as (m & e & Ha).
      now apply (mod_is_zero_exact _ 10000 m e).
Qed.

(** X8.  A transaction counts as a high-risk transfer exactly when its
    type is spelt "SWIFT", "Wire Transfer" or "Hawala".  Without such a
    transaction there is no high-risk finding; with some there is exactly
    one, which reports their number and lists each of their types once. *)
Theorem high_risk_types_are_matched_exactly (case : CaseInput) (stats : Stats) :
  exists patterns,
    identify_patterns case stats = Ok patterns /\
    (forall t, In t (hr_txns (transactions case)) <->
       In t (transactions case) /\
       (type t = "SWIFT" \/ type t = "Wire Transfer" \/ type t = "Hawala")) /\
    match hr_txns (transactions case) with
    | [] => Spec.texts_headed "High-risk transfer types: " patterns = []
    | hr =>
        exists types_found,
          Spec.texts_headed "High-risk transfer types: " patterns =
            [ ("High-risk transfer types: " ++ str_of_nat (length hr) ++ " "
               ++ join ", " types_found ++ " transactions")%string ] /\
          List.NoDup types_found /\
          (forall ty, In ty types_found <-> exists t, In t hr /\ type t = ty)
    end.
Proof.
  destruct (patterns_by_heading case stats "High-risk transfer types: ")
    as (fs & E & Efs & Ht); [cbn; tauto|].
  eexists. split; [exact E|]. split.
  - intros t. unfold hr_txns. rewrite filter_In, bool_decide_eq_true.
    unfold high_risk_types. rewrite !elem_of_cons, elem_of_nil. tauto.
  - rewrite Ht.
    destruct (findings_by_heading case stats "High-risk transfer types: ")
      as (fs' & Efs' & Hf).
    assert (fs' = fs) by congruence. subst fs'. rewrite Hf.
    destruct (transactions case) as [|t txns]; [reflexivity|].
    decide_headings. unfold pattern_high_risk.
    destruct (hr_txns (t :: txns)) as [|h hr] eqn:Ehr; [reflexivity|].
    exists (remove_dups (List.map type (h :: hr))).
    split; [reflexivity|]. split.
    + apply NoDup_ListNoDup, NoDup_remove_dups.
    + intros ty. rewrite <- list_elem_of_In, elem_of_remove_dups, list_elem_of_In.
      rewrite in_map_iff. split; intros (u & Hu); exists u; tauto.
Qed.

End Texts.
End RoundNumbers.

(* ===================================================================== *)
(** * Anonymisation                                                      *)
(* ===================================================================== *)

Section StringFacts.

Lemma append_assoc (a b c : string) : ((a ++ b) ++ c = a ++ (b ++ c))%string.
Proof.
  induction a as [|x a IH]; [reflexivity|].
  change (String x ((a ++ b) ++ c)%string = String x (a ++ (b ++ c))%string).
  now rewrite IH.
Qed.

End StringFacts.

Section AnonymizedCase.
Import Anonymization.
Context `{!Text, !Digest}.
Hypothesis strip_twice : Spec.strip_idempotent.
Hypothesis strip_token : Spec.strip_keeps_tokens.

(** A string that went through a validator goes through it unchanged. *)
Lemma must_not_be_empty_again (msg msg' v v' : string) :
  must_not_be_empty msg v = Ok v' -> must_not_be_empty msg' v' = Ok v'.
Proof.
  unfold must_not_be_empty.
  destruct (String.eqb v "" || String.eqb (strip v) "") eqn:E; [discriminate|].
  intros [= <-]. apply orb_false_elim in E. destruct E as [_ E].
  rewrite strip_twice, E, orb_false_r.
  destruct (String.eqb_spec (strip v) ""); [discriminate|reflexivity].
Qed.

(** A token goes through a validator unchanged. *)
Lemma must_not_be_empty_token (msg value prefix : string) :
  must_not_be_empty msg (anonymize_value value prefix)
  = Ok (anonymize_value value prefix).
Proof.
  assert (E : exists s, anonymize_value value prefix = ("[" ++ s ++ "]")%string).
  { exists (prefix ++ "-" ++ upper (Py.take 6 (md5_hexdigest value)))%string.
    unfold anonymize_value. cbv zeta. now rewrite !append_assoc. }
  destruct E as [s ->]. unfold must_not_be_empty.
  rewrite strip_token. reflexivity.
Qed.

Lemma new_Transaction_again (raw t : Transaction) :
  new_Transaction raw = Ok t ->
  new_Transaction (Spec.anonymized_txn t) = Ok (Spec.anonymized_txn t).
Proof.
  unfold new_Transaction.
  destruct (date_must_not_be_empty (date raw)) as [d|e] eqn:Ed;
    destruct (amount_must_be_finite (amount raw)) as [a|e'] eqn:Ea;
    try discriminate.
  intros [= <-]. cbn [Spec.anonymized_txn date amount].
  unfold date_must_not_be_empty in *.
  rewrite (must_not_be_empty_again _ _ _ _ Ed).
  assert (Ea' : amount_must_be_finite a = Ok a).
  { revert Ea. unfold amount_must_be_finite.
    destruct (PrimFloat.is_nan (amount raw) || PrimFloat.is_infinity (amount raw)) eqn:E;
      [discriminate|].
    intros [= <-]. now rewrite E. }
  rewrite Ea'. reflexivity.
Qed.

(** The transactions a constructor accepted. *)
Lemma new_Transactions_built (raws : list Transaction) :
  List.Forall (fun t => exists raw, new_Transaction raw = Ok t)
              (fst (new_Transactions raws)).
Proof.
  induction raws as [|raw raws IH]; cbn [new_Transactions]; [constructor|].
  destruct (new_Transactions raws) as [ts errs]. cbn [fst] in IH.
  destruct (new_Transaction raw) as [t|e] eqn:E; cbn [fst]; [|exact IH].
  constructor; [now exists raw | exact IH].
Qed.

Lemma transactions_field_built (raws ts : list Transaction) :
  transactions_field raws = Ok ts ->
  ts <> [] /\ List.Forall (fun t => exists raw, new_Transaction raw = Ok t) ts.
Proof.
  unfold transactions_field. pose proof (new_Transactions_built raws) as Hb.
  destruct (new_Transactions raws) as [ts' [|err errs]]; [|discriminate].
  cbn [fst] in Hb. unfold transactions_must_not_be_empty.
  destruct ts' as [|t ts']; [discriminate|]. intros [= <-]. split; [discriminate|exact Hb].
Qed.

Lemma anonymize_txns_built (ts : list Transaction) :
  List.Forall (fun t => exists raw, new_Transaction raw = Ok t) ts ->
  anonymize_txns ts = Ok (List.map Spec.anonymized_txn ts).
Proof.
  induction 1 as [|t ts [raw Ht] _ IH]; [reflexivity|].
  cbn [anonymize_txns List.map]. unfold anonymize_txn.
  change (new_Transaction _) with (new_Transaction (Spec.anonymized_txn t)).
  rewrite (new_Transaction_again raw t Ht). cbn. rewrite IH. reflexivity.
Qed.

Lemma new_Transactions_anonymized (ts : list Transaction) :
  List.Forall (fun t => exists raw, new_Transaction raw = Ok t) ts ->
  new_Transactions (List.map Spec.anonymized_txn ts)
  = (List.map Spec.anonymized_txn ts, []).
Proof.
  induction 1 as [|t ts [raw Ht] _ IH]; [reflexivity|].
  cbn [new_Transactions List.map]. rewrite IH.
  now rewrite (new_Transaction_again raw t Ht).
Qed.

Lemma anonymize_case_validated (raw case : CaseInput) :
  new_CaseInput raw = Ok case ->
  anonymize_case case = Ok (Spec.anonymized case).
Proof.
  unfold new_CaseInput.
  destruct (case_id_must_not_be_empty (case_id raw)) as [i|e1] eqn:Ei;
    destruct (new_CustomerInfo (customer raw)) as [c|e2] eqn:Ec;
    destruct (transactions_field (transactions raw)) as [ts|e3] eqn:Ets;
    destruct (alert_reason_must_not_be_empty (alert_reason raw)) as [r|e4] eqn:Er;
    try discriminate.
  intros [= <-].
  destruct (transactions_field_built _ _ Ets) as [Hne Hts].
  unfold anonymize_case. cbn [customer transactions case_id alert_reason
    investigation_notes alert_date assigned_analyst].
  unfold new_CustomerInfo at 1. cbn [name account_number kyc_risk_rating
    occupation account_open_date expected_monthly_volume declared_income
    address pan_number].
  unfold name_must_not_be_empty, account_must_not_be_empty.
  rewrite !must_not_be_empty_token. cbn [mbind result_bind].
  rewrite (anonymize_txns_built ts Hts). cbn [mbind result_bind].
  unfold new_CaseInput. cbn [customer transactions case_id alert_reason
    investigation_notes alert_date assigned_analyst].
  unfold case_id_must_not_be_empty, alert_reason_must_not_be_empty in *.
  rewrite (must_not_be_empty_again _ _ _ _ Ei), (must_not_be_empty_again _ _ _ _ Er).
  unfold new_CustomerInfo. cbn [name account_number kyc_risk_rating
    occupation account_open_date expected_monthly_volume declared_income
    address pan_number].
  unfold name_must_not_be_empty, account_must_not_be_empty.
  rewrite !must_not_be_empty_token.
  unfold transactions_field. rewrite (new_Transactions_anonymized ts Hts).
  unfold transactions_must_not_be_empty.
  destruct ts as [|t ts]; [congruence|]. reflexivity.
Qed.

End AnonymizedCase.

Section AnonymizedStatistics.
Import DataParser.
Context `{!Text, !Digest, !Calendar}.

Lemma filter_anonymized (p : Transaction -> bool) (txns : list Transaction) :
  (forall t, p (Spec.anonymized_txn t) = p t) ->
  List.filter p (List.map Spec.anonymized_txn txns)
  = List.map Spec.anonymized_txn (List.filter p txns).
Proof.
  intros Hp. induction txns as [|t txns IH]; [reflexivity|].
  cbn [List.map List.filter]. rewrite Hp, IH. now destruct (p t).
Qed.

Lemma count_types_anonymized (txns : list Transaction) :
  count_types (List.map Spec.anonymized_txn txns) = count_types txns.
Proof.
  unfold count_types. generalize (@nil (string * nat)).
  induction txns as [|t txns IH]; intros m; [reflexivity|].
  cbn [List.map fold_left]. apply IH.
Qed.

Lemma parsed_dates_anonymized (txns : list Transaction) :
  parsed_dates (List.map Spec.anonymized_txn txns) = parsed_dates txns.
Proof.
  unfold parsed_dates. induction txns as [|t txns IH]; [reflexivity|].
  cbn [List.map omap list_omap]. cbn [Spec.anonymized_txn date]. now rewrite IH.
Qed.

(** The statistics of anonymised transactions: those of the transactions,
    the two counts of counterparties apart. *)
Lemma statistics_of_anonymized (txns : list Transaction) :
  exists s s',
    calculate_transaction_stats txns = Ok s /\
    calculate_transaction_stats (List.map Spec.anonymized_txn txns) = Ok s' /\
    total_transactions s' = total_transactions s /\
    total_volume s' = total_volume s /\
    total_credits s' = total_credits s /\
    total_debits s' = total_debits s /\
    credit_count s' = credit_count s /\
    debit_count s' = debit_count s /\
    avg_amount s' = avg_amount s /\
    max_amount s' = max_amount s /\
    min_amount s' = min_amount s /\
    date_range_start s' = date_range_start s /\
    date_range_end s' = date_range_end s /\
    date_range_days s' = date_range_days s /\
    transaction_types s' = transaction_types s /\
    stats_currency s' = stats_currency s /\
    (unique_originators s' <= unique_originators s)%nat /\
    (unique_beneficiaries s' <= unique_beneficiaries s)%nat.
Proof.
  destruct txns as [|t txns].
  - exists empty_stats, empty_stats. cbn. repeat split; lia.
  - set (all := t :: txns).
    destruct (calculate_transaction_stats_cons t txns)
      as (s & E & Hn & Hv & Hc & Hd & Hcc & Hdc & Ha).
    destruct (calculate_transaction_stats_cons (Spec.anonymized_txn t)
                (List.map Spec.anonymized_txn txns))
      as (s' & E' & Hn' & Hv' & Hc' & Hd' & Hcc' & Hdc' & Ha').
    pose proof (calculate_transaction_stats_fields t txns s E)
      as (Hmax & Hmin & Hty & Hcur & Ho & Hb & Hdates).
    pose proof (calculate_transaction_stats_fields _ _ s' E')
      as (Hmax' & Hmin' & Hty' & Hcur' & Ho' & Hb' & Hdates').
    change (Spec.anonymized_txn t :: List.map Spec.anonymized_txn txns)
      with (List.map Spec.anonymized_txn all) in *.
    fold all in E, Hn, Hv, Hc, Hd, Hcc, Hdc, Ha, Hmax, Hmin, Hty, Ho, Hb, Hdates.
    assert (Eabs : abs_amounts (List.map Spec.anonymized_txn all) = abs_amounts all).
    { unfold abs_amounts. now rewrite List.map_map. }
    assert (Ecr : credits (List.map Spec.anonymized_txn all)
                  = List.map Spec.anonymized_txn (credits all))
      by now apply filter_anonymized.
    assert (Edb : debits (List.map Spec.anonymized_txn all)
                  = List.map Spec.anonymized_txn (debits all))
      by now apply filter_anonymized.
    rewrite Eabs in *. rewrite Ecr, Edb in *.
    rewrite parsed_dates_anonymized in Hdates'.
    rewrite count_types_anonymized in Hty'.
    rewrite !List.map_map in *. cbn [Spec.anonymized_txn amount originator beneficiary] in *.
    rewrite !length_map in *.
    exists s, s'. split; [exact E|]. split; [exact E'|].
    repeat split; try congruence.
    all: try (rewrite Hcur, Hcur'; reflexivity).
    all: try (rewrite Hc, Hc'; reflexivity).
    + destruct (parsed_dates all) as [|d ds]; [|destruct Hdates, Hdates']; intuition congruence.
    + destruct (parsed_dates all) as [|d ds]; [|destruct Hdates, Hdates']; intuition congruence.
    + destruct (parsed_dates all) as [|d ds]; [|destruct Hdates, Hdates']; intuition congruence.
    + rewrite Ho, Ho'.
      rewrite <- (List.map_map originator
                    (fun o => Anonymization.anonymize_value o "ORIG")).
      apply count_unique_fmap.
    + rewrite Hb, Hb'.
      rewrite <- (List.map_map beneficiary
                    (fun b => Anonymization.anonymize_value b "BENF")).
      apply count_unique_fmap.
Qed.

End AnonymizedStatistics.

Section AnonymizedPatterns.
Import DataParser.
Context `{!Text, !Digest}.

Lemma dates_amounts_anonymized (txns : list Transaction) :
  dates_amounts (List.map Spec.anonymized_txn txns) = dates_amounts txns.
Proof.
  unfold dates_amounts. generalize (@nil (string * DayTotals)).
  induction txns as [|t txns IH]; intros m; [reflexivity|].
  cbn [List.map fold_left].
  replace (record_day (Spec.anonymized_txn t) m) with (record_day t m); [apply IH|].
  induction m as [|[d v] m IHm]; [reflexivity|].
  cbn [record_day]. cbn [Spec.anonymized_txn date]. now rewrite IHm.
Qed.

(** The heuristics that read the transactions give the same findings on
    the anonymised transactions. *)
Lemma transaction_patterns_anonymized (txns : list Transaction) :
  let txns' := List.map Spec.anonymized_txn txns in
  pattern_structuring txns' = pattern_structuring txns /\
  pattern_rapid_movement txns' = pattern_rapid_movement txns /\
  pattern_small_deposits txns' = pattern_small_deposits txns /\
  pattern_round_numbers txns' = pattern_round_numbers txns /\
  pattern_large txns' = pattern_large txns /\
  pattern_high_risk txns' = pattern_high_risk txns.
Proof.
  intros txns'. subst txns'. repeat split.
  - unfold pattern_structuring, near_threshold.
    rewrite filter_anonymized by reflexivity. now rewrite length_map.
  - unfold pattern_rapid_movement. now rewrite dates_amounts_anonymized.
  - unfold pattern_small_deposits, small_deposits.
    rewrite filter_anonymized by reflexivity. now rewrite length_map.
  - unfold pattern_round_numbers, round_txns.
    rewrite filter_anonymized by reflexivity. now rewrite length_map.
  - unfold pattern_large. rewrite filter_anonymized by reflexivity.
    now rewrite List.map_map.
  - unfold pattern_high_risk, hr_txns. rewrite filter_anonymized by reflexivity.
    destruct (List.filter _ txns) as [|t hr]; [reflexivity|].
    cbn [List.map length]. rewrite length_map, List.map_map. reflexivity.
Qed.

End AnonymizedPatterns.

Section ReferenceStrip.
Import Reference.

Lemma rstrip_closing (s : string) : rstrip (s ++ "]") = (s ++ "]")%string.
Proof.
  induction s as [|c s IH]; [reflexivity|].
  change (rstrip (String c (s ++ "]")) = String c (s ++ "]")).
  cbn [rstrip]. rewrite IH. now destruct s.
Qed.

Lemma rstrip_twice (s : string) : rstrip (rstrip s) = rstrip s.
Proof.
  induction s as [|c s IH]; [reflexivity|].
  cbn [rstrip]. destruct (rstrip s) as [|c' r] eqn:E.
  - destruct (is_space c) eqn:Ec; [reflexivity|]. cbn [rstrip]. now rewrite Ec.
  - cbn [rstrip] in *. now rewrite IH.
Qed.

(** What [lstrip] and [rstrip] leave starts with no space. *)
Lemma lstrip_head (s : string) :
  lstrip s = "" \/ exists c r, lstrip s = String c r /\ is_space c = false.
Proof.
  induction s as [|c s IH]; [now left|].
  cbn [lstrip]. destruct (is_space c) eqn:Ec; [exact IH|]. right. eauto.
Qed.

Lemma lstrip_rstrip (c : ascii) (r : string) :
  is_space c = false -> lstrip (rstrip (String c r)) = rstrip (String c r).
Proof.
  intros Ec. cbn [rstrip].
  destruct (rstrip r); [rewrite Ec|]; cbn [lstrip]; now rewrite Ec.
Qed.

Lemma reference_strip_idempotent : @Spec.strip_idempotent text.
Proof.
  intros s. cbn [strip text].
  destruct (lstrip_head s) as [-> | (c & r & -> & Ec)]; [reflexivity|].
  rewrite (lstrip_rstrip c r Ec). apply rstrip_twice.
Qed.

Lemma reference_strip_keeps_tokens : @Spec.strip_keeps_tokens text.
Proof.
  intros s. cbn [strip text].
  change (lstrip ("[" ++ s ++ "]")) with ("[" ++ s ++ "]")%string.
  change ("[" ++ s ++ "]")%string with (String "[" (s ++ "]")).
  cbn [rstrip]. rewrite rstrip_closing. now destruct s.
Qed.

End ReferenceStrip.

Section Anonymisation.
Import DataParser Anonymization.
Context `{!Text, !Digest}.


Section WithCalendar.
Context `{!Calendar}.

(** X15.  On a validated case, anonymisation changes none of the
    statistics except the two counts of distinct counterparties, which can
    only become smaller (two names that share the first six hexadecimal
    digits of their digest become one token). *)
Theorem anonymisation_keeps_the_statistics (raw case : CaseInput) :
  Spec.strip_idempotent -> Spec.strip_keeps_tokens ->
  new_CaseInput raw = Ok case ->
  exists anon s s',
    anonymize_case case = Ok anon /\
    calculate_transaction_stats (transactions case) = Ok s /\
    calculate_transaction_stats (transactions anon) = Ok s' /\
    total_transactions s' = total_transactions s /\
    total_volume s' = total_volume s /\
    total_credits s' = total_credits s /\
    total_debits s' = total_debits s /\
    credit_count s' = credit_count s /\
    debit_count s' = debit_count s /\
    avg_amount s' = avg_amount s /\
    max_amount s' = max_amount s /\
    min_amount s' = min_amount s /\
    date_range_start s' = date_range_start s /\
    date_range_end s' = date_range_end s /\
    date_range_days s' = date_range_days s /\
    transaction_types s' = transaction_types s /\
    stats_currency s' = stats_currency s /\
    (unique_originators s' <= unique_originators s)%nat /\
    (unique_beneficiaries s' <= unique_beneficiaries s)%nat.
Proof.
  intros Htwice Htoken Hcase.
  destruct (statistics_of_anonymized (transactions case)) as (s & s' & Hs).
  exists (Spec.anonymized case), s, s'.
  split; [now apply (anonymize_case_validated Htwice Htoken raw)|]. exact Hs.
Qed.

Section Texts.
Context `{!Format}.

Lemma originators_term_mono (n n' : nat) :
  (n' <= n)%nat -> originators_term n' <= originators_term n.
Proof.
  intros Hle. unfold originators_term.
  destruct (Nat.ltb_spec 20 n'), (Nat.ltb_spec 20 n),
           (Nat.ltb_spec 10 n'), (Nat.ltb_spec 10 n); lia.
Qed.

(** X16.  On a validated case, anonymisation changes no finding except
    the multiple-originators one, never lengthens the list of findings and
    never raises the risk score. *)
Theorem anonymisation_keeps_the_findings (raw case : CaseInput) :
  Spec.strip_idempotent -> Spec.strip_keeps_tokens ->
  new_CaseInput raw = Ok case ->
  exists anon s s' patterns patterns' score score',
    anonymize_case case = Ok anon /\
    calculate_transaction_stats (transactions case) = Ok s /\
    calculate_transaction_stats (transactions anon) = Ok s' /\
    identify_patterns case s = Ok patterns /\
    identify_patterns anon s' = Ok patterns' /\
    (forall h, In h Spec.headings -> h <> "Multiple originators: " ->
       Spec.texts_headed h patterns' = Spec.texts_headed h patterns) /\
    (length patterns' <= length patterns)%nat /\
    calculate_risk_score patterns s case = Ok score /\
    calculate_risk_score patterns' s' anon = Ok score' /\
    score' <= score.
Proof.
  intros Htwice Htoken Hcase.
  destruct (statistics_of_anonymized (transactions case))
    as (s & s' & Es & Es' & _ & Hvol & _ & _ & _ & _ & _ & _ & _ & _ & _ & _ & _ & _ & Huo & _).
  set (anon := Spec.anonymized case).
  pose proof (pattern_findings_parts case s) as Ef.
  pose proof (pattern_findings_parts anon s') as Ef'.
  set (fs := match transactions case with [] => [] | _ => _ end) in Ef.
  set (fs' := match transactions anon with [] => [] | _ => _ end) in Ef'.
  destruct (calculate_risk_score_eq (List.map describe fs) s case)
    as (v & Hv & Escore & Ev).
  destruct (calculate_risk_score_eq (List.map describe fs') s' anon)
    as (v' & Hv' & Escore' & Ev').
  cbn [anon Spec.anonymized customer expected_monthly_volume kyc_risk_rating] in Ev', Escore'.
  rewrite Hvol in Ev'. assert (v' = v) by congruence. subst v'.
  assert (Horig : (length (pattern_originators s') <= length (pattern_originators s))%nat).
  { unfold pattern_originators.
    destruct (Nat.ltb_spec 10 (unique_originators s')),
             (Nat.ltb_spec 10 (unique_originators s)); cbn; lia. }
  assert (Hlen : (length fs' <= length fs)%nat).
  { subst fs fs'. cbn [anon Spec.anonymized transactions customer
                        expected_monthly_volume declared_income].
    destruct (transactions case) as [|t txns]; [cbn; lia|].
    change (List.map Spec.anonymized_txn (t :: txns))
      with (Spec.anonymized_txn t :: List.map Spec.anonymized_txn txns).
    cbv beta iota zeta.
    change (Spec.anonymized_txn t :: List.map Spec.anonymized_txn txns)
      with (List.map Spec.anonymized_txn (t :: txns)).
    destruct (transaction_patterns_anonymized (t :: txns))
      as (-> & -> & -> & -> & -> & ->).
    rewrite Hvol, !length_app. lia. }
  exists anon, s, s', (List.map describe fs), (List.map describe fs').
  eexists. eexists.
  split; [now apply (anonymize_case_validated Htwice Htoken raw)|].
  split; [exact Es|]. split; [exact Es'|].
  split; [unfold identify_patterns; now rewrite Ef|].
  split; [unfold identify_patterns; now rewrite Ef'|].
  split; [|split; [now rewrite !length_map|]].
  - intros h Hh Hne.
    rewrite !texts_headed_describe by exact Hh.
    apply (f_equal (List.map describe)).
    destruct (findings_by_heading case s h) as (f1 & E1 & Hf1).
    destruct (findings_by_heading anon s' h) as (f2 & E2 & Hf2).
    assert (f1 = fs) by congruence. assert (f2 = fs') by congruence.
    subst f1 f2. rewrite Hf1, Hf2. clear Hf1 Hf2.
    cbn [anon Spec.anonymized transactions customer
           expected_monthly_volume declared_income].
    destruct (transactions case) as [|t txns]; [reflexivity|].
    change (List.map Spec.anonymized_txn (t :: txns))
      with (Spec.anonymized_txn t :: List.map Spec.anonymized_txn txns).
    cbv beta iota zeta.
    change (Spec.anonymized_txn t :: List.map Spec.anonymized_txn txns)
      with (List.map Spec.anonymized_txn (t :: txns)).
    destruct (transaction_patterns_anonymized (t :: txns))
      as (-> & -> & -> & -> & -> & ->).
    rewrite Hvol.
    destruct (String.eqb_spec "Multiple originators: " h) as [E|_];
      [now subst h | reflexivity].
  - split; [exact Escore|]. split; [exact Escore'|].
    rewrite !length_map.
    pose proof (originators_term_mono _ _ Huo). lia.
Qed.

End Texts.
End WithCalendar.
End Anonymisation.

(* ===================================================================== *)
(** * What the audit ledger holds                                        *)
(* ===================================================================== *)

Section LedgerContents.
Import AuditTrail AuditLogger.

(** With a connection, the rows of a case grow by the row of each call
    made for it, in the order of the calls, when the inserts of these calls
    succeed. *)
Lemma log_events_stored (case_id : string) (calls : list Call)
    (self : AuditLogger.t) (rows : list AuditEvent) :
  DatabaseManager.conn (db self) = Some rows ->
  Spec.inserts_succeed (calls_for case_id calls) ->
  exists rows',
    DatabaseManager.conn (db (log_events calls self)) = Some rows' /\
    List.filter (fun ev => String.eqb (ev_case_id ev) case_id) rows' =
      List.filter (fun ev => String.eqb (ev_case_id ev) case_id) rows
      ++ List.map Spec.stored_event (calls_for case_id calls).
Proof.
  revert self rows. induction calls as [|c calls IH]; intros self rows Hc Hok.
  - exists rows. cbn. now rewrite app_nil_r.
  - rewrite log_events_cons. rewrite calls_for_cons in Hok |- *.
    unfold Spec.inserts_succeed in *.
    destruct (insert_fails (call_reading c)) eqn:Hfail.
    + destruct (String.eqb (call_case_id c) case_id) eqn:E.
      { apply Forall_inv in Hok. congruence. }
      apply (IH (log_call self c) rows); [|exact Hok].
      unfold log_call, log_event, DatabaseManager.log_audit_event. cbn [db].
      now rewrite Hc, Hfail.
    + assert (Hc' : DatabaseManager.conn (db (log_call self c))
                    = Some (rows ++ [Spec.stored_event c])).
      { unfold log_call, log_event, DatabaseManager.log_audit_event. cbn [db].
        now rewrite Hc, Hfail. }
      destruct (String.eqb (call_case_id c) case_id) eqn:E.
      * apply Forall_inv_tail in Hok.
        destruct (IH _ _ Hc' Hok) as (rows' & Hr & Hf).
        exists rows'. split; [exact Hr|].
        rewrite Hf, List.filter_app. cbn [List.filter ev_case_id Spec.stored_event].
        rewrite E. cbn [List.map]. now rewrite <- List.app_assoc.
      * destruct (IH _ _ Hc' Hok) as (rows' & Hr & Hf).
        exists rows'. split; [exact Hr|].
        rewrite Hf, List.filter_app. cbn [List.filter ev_case_id Spec.stored_event].
        rewrite E. now rewrite List.app_nil_r.
Qed.

(** X17.  Without a database, or when its query fails,
    [get_audit_trail] returns for a case exactly the events logged for that
    case on this logger, in the order of the calls, each with the fields of
    its call. *)
Theorem memory_trail_reads_back_what_was_logged
    (connection : option (list AuditEvent)) (calls : list Call)
    (case_id : string) (select_fails : bool) :
  connection = None \/ select_fails = true ->
  get_audit_trail select_fails case_id (log_events calls (new connection))
  = List.map Spec.memory_event (calls_for case_id calls).
Proof.
  intros Hdb.
  pose proof (log_events_memory case_id calls (new connection)) as Hmem.
  cbn [new in_memory_trail] in Hmem. rewrite lookup_empty in Hmem.
  cbn [default app] in Hmem. rewrite <- Hmem.
  unfold get_audit_trail, DatabaseManager.get_audit_trail.
  destruct Hdb as [-> | ->].
  - now rewrite (log_events_no_connection calls (new None) eq_refl).
  - now destruct (DatabaseManager.conn (db (log_events calls (new connection)))).
Qed.


(** X19.  Logging events for other cases leaves the trail of a case
    as it was, with or without a database. *)
Theorem logging_for_other_cases_changes_nothing (calls : list Call)
    (case_id : string) (select_fails : bool) (self : AuditLogger.t) :
  calls_for case_id calls = [] ->
  get_audit_trail select_fails case_id (log_events calls self)
  = get_audit_trail select_fails case_id self.
Proof.
  intros Hnone.
  pose proof (log_events_memory case_id calls self) as Hmem.
  rewrite Hnone in Hmem. cbn [List.map] in Hmem. rewrite List.app_nil_r in Hmem.
  unfold get_audit_trail, DatabaseManager.get_audit_trail. rewrite Hmem.
  destruct (DatabaseManager.conn (db self)) as [rows|] eqn:Hc.
  - destruct (log_events_stored case_id calls self rows Hc) as (rows' & Hr & Hf).
    { rewrite Hnone. constructor. }
    rewrite Hr, Hf, Hnone. cbn [List.map]. now rewrite List.app_nil_r.
  - now rewrite (log_events_no_connection calls self Hc).
Qed.

End LedgerContents.

(* ===================================================================== *)
(** * The narrative, its prompt and its sections                         *)
(* ===================================================================== *)

Section ReferenceSearch.
Import Reference.

Lemma lower_char_eqb (a : ascii) : Ascii.eqb (lower_char a) (lower_char a) = true.
Proof. apply Ascii.eqb_refl. Qed.

Lemma match_lit_here (w rest : string) : match_lit w (w ++ rest) = Some rest.
Proof.
  induction w as [|a w IH]; [now destruct rest|].
  change (match_lit (String a w) (String a (w ++ rest)) = Some rest).
  cbn [match_lit]. now rewrite lower_char_eqb.
Qed.

Lemma substring_all (s : string) : String.substring 0 (String.length s) s = s.
Proof. induction s as [|a s IH]; [reflexivity|]. cbn. now rewrite IH. Qed.

Lemma from_zero (s : string) : Py.from 0 s = s.
Proof. unfold Py.from. rewrite Nat.sub_0_r. apply substring_all. Qed.

Lemma from_succ (a : ascii) (s : string) (k : nat) :
  Py.from (S k) (String a s) = Py.from k s.
Proof. reflexivity. Qed.

(** The loop that gives spaces back finds a match that exists for some
    number of spaces it goes through. *)
Lemma spaces_loop (p : regex) (s : string) (n k : nat) (m : nat) :
  (k <= n)%nat ->
  match_tokens p (Py.from k s) = Some m ->
  is_Some ((fix try (k : nat) : option nat :=
              match match_tokens p (Py.from k s) with
              | Some n => Some (k + n)%nat
              | None => match k with
                        | O => None
                        | S k' => try k'
                        end
              end) n).
Proof.
  intros Hle Hm. induction n as [|n IH].
  - assert (k = 0)%nat by lia. subst k. rewrite Hm. eauto.
  - destruct (match_tokens p (Py.from (S n) s)) eqn:E; [eauto|].
    apply IH. destruct (Nat.eq_dec k (S n)) as [->|]; [congruence|lia].
Qed.

Lemma match_tokens_spelled (p : regex) (rest : string) :
  is_Some (match_tokens p (Spec.spelled p ++ rest)).
Proof.
  induction p as [|[w|] p IH]; cbn [match_tokens Spec.spelled].
  - eauto.
  - rewrite append_assoc, match_lit_here. destruct IH as [n ->]. eauto.
  - destruct IH as [n Hn].
    change ((" " ++ Spec.spelled p) ++ rest)%string
      with (String " " (Spec.spelled p ++ rest)).
    apply (spaces_loop p _ _ 1 n).
    + cbn [leading_spaces]. change (is_space " ") with true. cbv iota. lia.
    + rewrite from_succ, from_zero. exact Hn.
Qed.

Lemma search_from_found (p : regex) (pre s : string) (i : nat) :
  is_Some (match_tokens p s) -> is_Some (search_from p (pre ++ s) i).
Proof.
  intros Hs. revert i. induction pre as [|a pre IH]; intros i.
  - change ("" ++ s)%string with s. destruct s; cbn [search_from];
      destruct Hs as [n ->]; eauto.
  - change (String a pre ++ s)%string with (String a (pre ++ s)).
    cbn [search_from]. destruct (match_tokens p (String a (pre ++ s))); [eauto|].
    apply IH.
Qed.

Lemma prefix_split (w s : string) :
  String.prefix w s = true -> exists post, s = (w ++ post)%string.
Proof.
  revert s. induction w as [|a w IH]; intros s; [now exists s|].
  destruct s as [|b s]; cbn [String.prefix]; [discriminate|].
  destruct (Ascii.ascii_dec a b) as [->|]; [|discriminate].
  intros H. destruct (IH s H) as [post ->]. now exists post.
Qed.

(** A text that holds a word is what comes before it, the word, and what
    comes after it. *)
Lemma contains_split (w s : string) :
  contains w s = true -> exists pre post, s = (pre ++ w ++ post)%string.
Proof.
  induction s as [|a s IH]; rewrite contains_unfold; intros H;
    apply orb_true_iff in H; destruct H as [Hp|Hc]; try discriminate.
  - destruct (prefix_split _ _ Hp) as [post ->]. now exists "", post.
  - destruct (prefix_split _ _ Hp) as [post ->]. now exists "", post.
  - destruct (IH Hc) as (pre & post & ->). now exists (String a pre), post.
Qed.

Lemma reference_search_finds_spelled : @Spec.search_finds_spelled text.
Proof.
  intros p s Hc. destruct (contains_split _ _ Hc) as (pre & post & ->).
  cbn [re_search text]. apply search_from_found, match_tokens_spelled.
Qed.

End ReferenceSearch.

Section Occurrences.

Lemma contains_app_l (w a b : string) :
  contains w a = true -> contains w (a ++ b) = true.
Proof.
  intros H. destruct (contains_split _ _ H) as (pre & post & ->).
  rewrite !append_assoc. apply contains_skip, contains_here.
Qed.

Lemma contains_refl (w : string) : contains w w = true.
Proof.
  rewrite contains_unfold.
  assert (H : String.prefix w w = true).
  { induction w as [|a w IH]; [reflexivity|]. cbn [String.prefix].
    destruct (Ascii.ascii_dec a a); [exact IH | congruence]. }
  now rewrite H.
Qed.

Lemma contains_join (w sep : string) (l : list string) :
  (exists x, In x l /\ contains w x = true) -> contains w (join sep l) = true.
Proof.
  intros (x & Hin & Hw). induction l as [|y l IH]; [destruct Hin|].
  destruct l as [|z l].
  - destruct Hin as [<-|[]]. exact Hw.
  - change (join sep (y :: z :: l)) with (y ++ sep ++ join sep (z :: l))%string.
    destruct Hin as [<-|Hin].
    + now apply contains_app_l.
    + apply contains_skip, contains_skip. now apply IH.
Qed.

End Occurrences.

(** A literal word in a text put together from pieces: one of the pieces
    is a literal that holds it. *)
Ltac find_in_text :=
  repeat first
    [ solve [ apply contains_app_l; vm_compute; reflexivity ]
    | apply contains_skip ];
  vm_compute; reflexivity.

(** A word in a text put together from pieces, one of which is the word or
    is known to hold it. *)
Ltac find_piece :=
  repeat first
    [ solve [ apply contains_app_l; first [ assumption | apply contains_refl ] ]
    | apply contains_skip ];
  first [ assumption | apply contains_refl ].

Section FallbackSections.
Import SarOutput LLMOrchestrator.
Context `{!Text}.

Lemma parse_narrative_all_found (text : string) :
  (forall h, In h section_headers -> is_Some (re_search (snd h) text)) ->
  dom (_parse_narrative text) = ({["I"; "II"; "III"; "IV"; "V"]} : gset string).
Proof.
  intros Hall. unfold _parse_narrative.
  assert (Hk : "I" ∈ dom (parse_headers text section_headers ∅)).
  { apply parse_headers_keys. right. eexists.
    split; [left; reflexivity|]. apply (Hall ("I", _)). left. reflexivity. }
  destruct (decide (parse_headers text section_headers ∅ = ∅)) as [E|_].
  { rewrite E, dom_empty_L in Hk. now apply not_elem_of_empty in Hk. }
  apply set_eq. intros key. rewrite parse_headers_keys, dom_empty_L.
  rewrite !elem_of_union, !elem_of_singleton. split.
  - intros [Hd|(q & Hq & _)]; [now apply not_elem_of_empty in Hd|].
    cbn in Hq. intuition congruence.
  - intros Hkey. right.
    assert (exists q, In (key, q) section_headers) as [q Hq].
    { cbn. destruct Hkey as [[[[->| ->]| ->]| ->]| ->]; eauto 10. }
    exists q. split; [exact Hq | exact (Hall _ Hq)].
Qed.

Section WithFormat.
Context `{!Format}.

(** X25.  With a search that finds a heading spelt as the pattern
    is, the fallback narrative is always parsed into exactly the five
    sections I to V; so whenever the prompt is built and the call to the
    model fails, [generate_narrative] still returns a narrative with these
    five sections. *)
Theorem fallback_narrative_has_the_five_sections (self : LLMOrchestrator.t)
    (case : CaseInput) (stats : DataParser.Stats) (patterns : list string)
    (typology : string) (risk_score : Z)
    (regulatory_context template_reference prompt : string) (e : exn) :
  Spec.search_finds_spelled ->
  _build_prompt self case stats patterns typology risk_score
    regulatory_context template_reference = Ok prompt ->
  _call_ollama self prompt = Raise e ->
  dom (_parse_narrative (_generate_fallback_narrative case stats patterns typology))
    = ({["I"; "II"; "III"; "IV"; "V"]} : gset string) /\
  exists narrative callback,
    generate_narrative self case stats patterns typology risk_score
      regulatory_context template_reference = Ok (narrative, callback) /\
    dom (sections narrative) = ({["I"; "II"; "III"; "IV"; "V"]} : gset string).
Proof.
  intros Hsearch Hprompt Hfail.
  assert (Hdom : dom (_parse_narrative
                        (_generate_fallback_narrative case stats patterns typology))
                 = ({["I"; "II"; "III"; "IV"; "V"]} : gset string)).
  { apply parse_narrative_all_found. intros h Hh. apply Hsearch.
    unfold _generate_fallback_narrative. cbv zeta.
    cbn in Hh. repeat (destruct Hh as [<-|Hh]); try contradiction;
      cbn [snd Spec.spelled]; find_in_text. }
  split; [exact Hdom|].
  unfold generate_narrative. rewrite Hprompt. cbn [mbind result_bind]. rewrite Hfail.
  eexists _, _. split; [reflexivity|]. exact Hdom.
Qed.

End WithFormat.
End FallbackSections.

Section RedFlagsInTexts.
Import SarOutput LLMOrchestrator.
Context `{!Format}.

Lemma contains_patterns_text (p : string) (patterns : list string) :
  In p patterns -> contains p (patterns_text patterns) = true.
Proof.
  intros Hin. unfold patterns_text. apply contains_join.
  exists ("- " ++ p)%string. split; [now apply (in_map (fun q => "- " ++ q)%string)|].
  apply contains_skip, contains_refl.
Qed.

(** X26.  Every finding appears word for word in the fallback
    narrative, in the case summary used to retrieve templates and in the
    query used to identify the typology. *)
Theorem every_red_flag_is_written_out (case : CaseInput) (stats : DataParser.Stats)
    (patterns : list string) (typology p : string) :
  In p patterns ->
  contains p (_generate_fallback_narrative case stats patterns typology) = true /\
  contains p (RAGEngine.build_case_summary case stats patterns) = true /\
  contains p (Spec.typology_query patterns (alert_reason case)) = true.
Proof.
  intros Hin.
  pose proof (contains_patterns_text p patterns Hin) as Htext.
  assert (Hjoin : contains p (join "; " patterns) = true).
  { apply contains_join. exists p. split; [exact Hin | apply contains_refl]. }
  split; [|split].
  - unfold _generate_fallback_narrative. cbv zeta. find_piece.
  - unfold RAGEngine.build_case_summary. find_piece.
  - unfold Spec.typology_query. find_piece.
Qed.

End RedFlagsInTexts.

Section AuditData.
Import LLMOrchestrator.

Lemma take_length (n : nat) (s : string) :
  String.length (Py.take n s) = Nat.min n (String.length s).
Proof.
  unfold Py.take. revert n. induction s as [|a s IH]; intros [|n]; cbn; try reflexivity.
  now rewrite IH.
Qed.

Lemma take_prefix (n : nat) (s : string) : String.prefix (Py.take n s) s = true.
Proof.
  unfold Py.take. revert n. induction s as [|a s IH]; intros [|n]; cbn; try reflexivity.
  destruct (Ascii.ascii_dec a a); [apply IH | congruence].
Qed.

Lemma take_all (n : nat) (s : string) :
  (String.length s <= n)%nat -> Py.take n s = s.
Proof.
  unfold Py.take. revert n. induction s as [|a s IH]; intros [|n]; cbn; try reflexivity.
  - lia.
  - intros H. rewrite IH; [reflexivity|lia].
Qed.

(** X23.  The audit data of an LLM call gives the full lengths of the
    prompt and of the response, and previews that are their first 500
    characters: the whole text when it has at most 500 characters. *)
Theorem audit_data_previews_are_bounded_prefixes (callback : LLMCallback) :
  let data := get_audit_data callback in
  prompt_length data = String.length (prompt_sent callback) /\
  response_length data = String.length (response_received callback) /\
  String.length (prompt_preview data) = Nat.min 500 (prompt_length data) /\
  String.length (response_preview data) = Nat.min 500 (response_length data) /\
  String.prefix (prompt_preview data) (prompt_sent callback) = true /\
  String.prefix (response_preview data) (response_received callback) = true /\
  ((prompt_length data <= 500)%nat -> prompt_preview data = prompt_sent callback) /\
  ((response_length data <= 500)%nat ->
   response_preview data = response_received callback).
Proof.
  cbv zeta. unfold get_audit_data.
  cbn [prompt_length response_length prompt_preview response_preview].
  rewrite !take_length.
  repeat split; try apply take_prefix; apply take_all.
Qed.

End AuditData.

Section RegulatoryContext.
Import RAGEngine.

(** X27.  The regulatory context always cites PMLA Section 12 and the
    FIU-IND reporting duty.  For a typology of the typology file it also
    contains its name, description, two references and every indicator; for
    a typology that is not in the file, and without a file, it does not
    depend on the typology asked for. *)
Theorem regulatory_context_always_cites_the_reporting_duty (self : RAGEngine.t)
    (typology : string) :
  contains "PMLA Section 12" (get_regulatory_context self typology) = true /\
  contains "FIU-IND" (get_regulatory_context self typology) = true /\
  match typology_file self with
  | None =>
      get_regulatory_context self typology = get_regulatory_context self ""
  | Some typologies =>
      match typologies !! typology with
      | None =>
          forall other, typologies !! other = None ->
            get_regulatory_context self typology = get_regulatory_context self other
      | Some data =>
          contains (ty_name data) (get_regulatory_context self typology) = true /\
          contains (ty_description data) (get_regulatory_context self typology) = true /\
          contains (ty_pmla_reference data) (get_regulatory_context self typology) = true /\
          contains (ty_rbi_reference data) (get_regulatory_context self typology) = true /\
          forall indicator, In indicator (ty_indicators data) ->
            contains indicator (get_regulatory_context self typology) = true
      end
  end.
Proof.
  unfold get_regulatory_context.
  destruct (typology_file self) as [typologies|].
  - destruct (typologies !! typology) as [data|] eqn:E.
    + split; [find_in_text|]. split; [find_in_text|].
      repeat split; try find_piece.
      intros indicator Hin.
      assert (Hj : contains indicator (join ", " (ty_indicators data)) = true).
      { apply contains_join. exists indicator. split; [exact Hin|apply contains_refl]. }
      find_piece.
    + split; [find_in_text|]. split; [find_in_text|].
      intros other ->. reflexivity.
  - split; [find_in_text|]. split; [find_in_text|]. reflexivity.
Qed.

End RegulatoryContext.

Section Prompt.
Import LLMOrchestrator.

(** X24.  [_build_prompt] never raises a [KeyError].  When the user
    template cannot be filled because of a missing key, the built-in prompt
    is returned, and it contains the case id, the alert reason, every
    finding, the typology, the risk score and the regulatory context. *)
Theorem build_prompt_absorbs_key_errors (self : LLMOrchestrator.t)
    (case : CaseInput) (stats : DataParser.Stats) (patterns : list string)
    (typology : string) (risk_score : Z)
    (regulatory_context template_reference : string) :
  match _build_prompt self case stats patterns typology risk_score
          regulatory_context template_reference with
  | Raise (KeyError _) => False
  | _ => True
  end /\
  ((forall args, exists key, user_template_format self args = Raise (KeyError key)) ->
   exists prompt,
     _build_prompt self case stats patterns typology risk_score
       regulatory_context template_reference = Ok prompt /\
     contains (case_id case) prompt = true /\
     contains (alert_reason case) prompt = true /\
     contains typology prompt = true /\
     contains (NilZero.string_of_int (Z.to_int risk_score)) prompt = true /\
     contains regulatory_context prompt = true /\
     (forall p, In p patterns -> contains p prompt = true)).
Proof.
  unfold _build_prompt. cbv zeta.
  match goal with
  | |- context [user_template_format self ?a] => set (args := a)
  end.
  split.
  - now destruct (user_template_format self args) as [text|[]].
  - intros Hkey. destruct (Hkey args) as [key ->].
    eexists. split; [reflexivity|].
    repeat split; try find_piece.
    intros p Hin. pose proof (contains_patterns_text p patterns Hin). find_piece.
Qed.

End Prompt.

(* ===================================================================== *)
(** * The run of the pipeline                                            *)
(* ===================================================================== *)

Section PipelineRun.
Import SarOutput AuditTrail AuditLogger SARGenerator.

Lemma run_bind_pure {A B : Type} (r : result A) (a : A) (f : A -> run B)
    (audit : AuditLogger.t) :
  r = Ok a -> (SARGenerator.pure r ≫= f) audit = f a audit.
Proof. intros ->. reflexivity. Qed.

Lemma run_bind_log {B : Type} (rd : Reading) (case_id event_type user_id : string)
    (p : Payload) (f : unit -> run B) (audit : AuditLogger.t) :
  (audit_log_event rd case_id event_type user_id p ≫= f) audit
  = f tt (log_event rd case_id event_type user_id p audit).
Proof. reflexivity. Qed.

Lemma log_event_snoc (rd : Reading) (case_id event_type user_id : string)
    (p : Payload) (calls : list Call) (audit : AuditLogger.t) :
  log_event rd case_id event_type user_id p (log_events calls audit)
  = log_events
      (calls ++ [ {| call_reading := rd; call_case_id := case_id;
                     call_event_type := event_type; call_user_id := user_id;
                     call_payload := p |} ]) audit.
Proof. unfold log_events. now rewrite fold_left_app. Qed.

Section WithLibrary.
Context `{!Text, !Format, !Calendar, !Digest, !LLMOrchestrator.Json}.

Lemma stats_returns (txns : list Transaction) :
  exists s, DataParser.calculate_transaction_stats txns = Ok s.
Proof.
  destruct txns as [|t txns]; [now eexists|].
  destruct (calculate_transaction_stats_cons t txns) as (s & E & _). eauto.
Qed.

Lemma build_prompt_returns (self : LLMOrchestrator.t) (case : CaseInput)
    (stats : DataParser.Stats) (patterns : list string) (typology : string)
    (risk_score : Z) (regulatory_context template_reference : string) :
  (forall args,
     match LLMOrchestrator.user_template_format self args with
     | Ok _ | Raise (KeyError _) => True
     | Raise _ => False
     end) ->
  exists prompt,
    LLMOrchestrator._build_prompt self case stats patterns typology risk_score
      regulatory_context template_reference = Ok prompt.
Proof.
  intros Hfmt. unfold LLMOrchestrator._build_prompt. cbv zeta.
  match goal with
  | |- context [LLMOrchestrator.user_template_format self ?a] =>
      specialize (Hfmt a);
      destruct (LLMOrchestrator.user_template_format self a) as [text|[]]
  end; try contradiction; eauto.
Qed.

(** X28.  When the case parses and the user template raises nothing
    but a [KeyError], [generate] returns a narrative and an explanation and
    logs exactly six events for the parsed case and the calling user, in the
    order data_input, analysis, pattern_detection, rag_retrieval,
    llm_generation, explainability, each at the next reading of the
    clock. *)
Theorem generate_logs_six_events (self : SARGenerator.t) (clock : nat -> Reading)
    (case_json case : CaseInput) (user_id : string) (audit : AuditLogger.t) :
  DataParser.parse_case_input (parser self) case_json = Ok case ->
  (forall args,
     match LLMOrchestrator.user_template_format (llm self) args with
     | Ok _ | Raise (KeyError _) => True
     | Raise _ => False
     end) ->
  exists narrative explainability calls,
    generate self clock case_json user_id audit
      = (Ok (narrative, explainability), log_events calls audit) /\
    List.map call_event_type calls
      = ["data_input"; "analysis"; "pattern_detection"; "rag_retrieval";
         "llm_generation"; "explainability"] /\
    List.map call_reading calls
      = List.map clock [0; 1; 2; 3; 4; 5]%nat /\
    List.Forall (fun c => call_case_id c = case_id case /\ call_user_id c = user_id)
                calls.
Proof.
  intros Hparse Hfmt.
  destruct (stats_returns (transactions case)) as [stats Hstats].
  assert (Hpatterns : exists patterns, DataParser.identify_patterns case stats = Ok patterns).
  { unfold DataParser.identify_patterns. rewrite pattern_findings_parts. eauto. }
  destruct Hpatterns as [patterns Hpatterns].
  destruct (calculate_risk_score_eq patterns stats case) as (v & _ & Hscore & _).
  unfold generate.
  rewrite (run_bind_pure _ _ _ _ Hparse), run_bind_log.
  rewrite (run_bind_pure _ _ _ _ Hstats), run_bind_log.
  rewrite (run_bind_pure _ _ _ _ Hpatterns).
  rewrite (run_bind_pure _ _ _ _ Hscore), run_bind_log.
  cbv zeta.
  destruct (RAGEngine.identify_typology (rag self) patterns (alert_reason case))
    as [typology typology_confidence].
  rewrite run_bind_log.
  match goal with
  | |- context [LLMOrchestrator.generate_narrative ?o ?c ?s ?p ?t ?r ?g ?tr] =>
      destruct (build_prompt_returns o c s p t r g tr Hfmt) as [prompt Hprompt];
      assert (Hnarr : exists out,
                LLMOrchestrator.generate_narrative o c s p t r g tr = Ok out)
        by (unfold LLMOrchestrator.generate_narrative; rewrite Hprompt; eauto);
      destruct Hnarr as [[narrative callback] Hnarr]
  end.
  rewrite (run_bind_pure _ _ _ _ Hnarr), run_bind_log.
  assert (Hratio : exists ratio,
            (if gtb (expected_monthly_volume (customer case)) 0%float
             then ratio ← truediv (DataParser.total_volume stats)
                            (expected_monthly_volume (customer case));
                  mret (fmt_1f ratio ++ "x")%string
             else Ok "N/A") = Ok ratio).
  { destruct (gtb (expected_monthly_volume (customer case)) 0%float) eqn:E; [|eauto].
    rewrite (truediv_positive _ _ E). cbn. eauto. }
  destruct Hratio as [ratio Hratio].
  rewrite (run_bind_pure _ _ _ _ Hratio), run_bind_log.
  change audit with (log_events [] audit) at 1.
  rewrite !log_event_snoc.
  eexists _, _, _. split; [reflexivity|].
  cbn [app List.map call_event_type call_reading call_case_id call_user_id].
  split; [reflexivity|]. split; [reflexivity|].
  repeat constructor.
Qed.

Lemma generate_narrative_fields (self : LLMOrchestrator.t) (case : CaseInput)
    (stats : DataParser.Stats) (patterns : list string) (typology : string)
    (risk_score : Z) (regulatory_context template_reference : string)
    (narrative : SARNarrative) (callback : LLMOrchestrator.LLMCallback) :
  LLMOrchestrator.generate_narrative self case stats patterns typology risk_score
    regulatory_context template_reference = Ok (narrative, callback) ->
  sar_case_id narrative = case_id case /\
  red_flags narrative = patterns /\
  sar_typology narrative = typology /\
  sar_confidence_score narrative = float_of_Z risk_score /\
  sar_model_version narrative = LLMOrchestrator.model self /\
  transaction_stats narrative = stats /\
  sections narrative = LLMOrchestrator._parse_narrative (narrative_text narrative) /\
  sar_templates_used narrative = [] /\
  LLMOrchestrator.response_received callback = narrative_text narrative /\
  LLMOrchestrator.model_used callback = LLMOrchestrator.model self.
Proof.
  unfold LLMOrchestrator.generate_narrative.
  destruct (LLMOrchestrator._build_prompt _ _ _ _ _ _ _ _) as [prompt|e];
    [|discriminate].
  cbn [mbind result_bind mret result_ret]. intros [= <- <-].
  repeat split.
Qed.

(** X29.  Under the same conditions the narrative and the explanation
    returned by [generate] agree with the parser's results on the parsed
    case: same case id, the statistics, the findings as red flags and as
    reasons and rules, the risk score (between 0 and 100) as confidence and
    in the reasoning text, the typology identified from the findings and the
    alert reason, the sections parsed from the narrative text, and the
    configured model as model version. *)
Theorem generate_outputs_agree (self : SARGenerator.t) (clock : nat -> Reading)
    (case_json case : CaseInput) (user_id : string) (audit : AuditLogger.t) :
  DataParser.parse_case_input (parser self) case_json = Ok case ->
  (forall args,
     match LLMOrchestrator.user_template_format (llm self) args with
     | Ok _ | Raise (KeyError _) => True
     | Raise _ => False
     end) ->
  exists narrative explainability audit' stats patterns score,
    generate self clock case_json user_id audit
      = (Ok (narrative, explainability), audit') /\
    DataParser.calculate_transaction_stats (transactions case) = Ok stats /\
    DataParser.identify_patterns case stats = Ok patterns /\
    DataParser.calculate_risk_score patterns stats case = Ok score /\
    sar_case_id narrative = case_id case /\
    ex_case_id explainability = case_id case /\
    transaction_stats narrative = stats /\
    red_flags narrative = patterns /\
    why_suspicious explainability = patterns /\
    rules_matched explainability = patterns /\
    sar_confidence_score narrative = float_of_Z score /\
    0 <= score <= 100 /\
    (sar_typology narrative, typology_confidence explainability)
      = RAGEngine.identify_typology (rag self) patterns (alert_reason case) /\
    typology_matched explainability = sar_typology narrative /\
    sections narrative = LLMOrchestrator._parse_narrative (narrative_text narrative) /\
    sar_model_version narrative = LLMOrchestrator.model (llm self) /\
    model_reasoning explainability
      = ("Risk score " ++ NilZero.string_of_int (Z.to_int score) ++ "/100 based on "
         ++ str_of_nat (length patterns) ++ " patterns detected")%string.
Proof.
  intros Hparse Hfmt.
  destruct (stats_returns (transactions case)) as [stats Hstats].
  assert (Hpatterns : exists patterns, DataParser.identify_patterns case stats = Ok patterns).
  { unfold DataParser.identify_patterns. rewrite pattern_findings_parts. eauto. }
  destruct Hpatterns as [patterns Hpatterns].
  destruct (calculate_risk_score_eq patterns stats case) as (v & Hv & Hscore & _).
  unfold generate.
  rewrite (run_bind_pure _ _ _ _ Hparse), run_bind_log.
  rewrite (run_bind_pure _ _ _ _ Hstats), run_bind_log.
  rewrite (run_bind_pure _ _ _ _ Hpatterns).
  rewrite (run_bind_pure _ _ _ _ Hscore), run_bind_log.
  cbv zeta.
  destruct (RAGEngine.identify_typology (rag self) patterns (alert_reason case))
    as [typology tconf] eqn:Htypology.
  rewrite run_bind_log.
  match goal with
  | |- context [LLMOrchestrator.generate_narrative ?o ?c ?s ?p ?t ?r ?g ?tr] =>
      destruct (build_prompt_returns o c s p t r g tr Hfmt) as [prompt Hprompt];
      assert (Hnarr : exists out,
                LLMOrchestrator.generate_narrative o c s p t r g tr = Ok out)
        by (unfold LLMOrchestrator.generate_narrative; rewrite Hprompt; eauto);
      destruct Hnarr as [[narrative callback] Hnarr]
  end.
  rewrite (run_bind_pure _ _ _ _ Hnarr), run_bind_log.
  assert (Hratio : exists ratio,
            (if gtb (expected_monthly_volume (customer case)) 0%float
             then ratio ← truediv (DataParser.total_volume stats)
                            (expected_monthly_volume (customer case));
                  mret (fmt_1f ratio ++ "x")%string
             else Ok "N/A") = Ok ratio).
  { destruct (gtb (expected_monthly_volume (customer case)) 0%float) eqn:E; [|eauto].
    rewrite (truediv_positive _ _ E). cbn. eauto. }
  destruct Hratio as [ratio Hratio].
  rewrite (run_bind_pure _ _ _ _ Hratio), run_bind_log.
  destruct (generate_narrative_fields _ _ _ _ _ _ _ _ _ _ Hnarr)
    as (Hid & Hflags & Hty & Hconf & Hmodel & Hst & Hsec & _).
  eexists narrative, _, _, stats, patterns, _.
  split; [reflexivity|].
  cbn [ex_case_id why_suspicious rules_matched typology_confidence
       typology_matched model_reasoning].
  pose proof (risk_map_get_range (kyc_risk_rating (customer case))).
  pose proof (originators_term_range (DataParser.unique_originators stats)).
  repeat split; try assumption; try congruence; try lia.
Qed.

End WithLibrary.
End PipelineRun.

(* ===================================================================== *)
(** * The export of a trail                                              *)
(* ===================================================================== *)

Section CsvExport.
Import AuditTrail AuditLogger.
Context `{!Export}.

Lemma occurrences_append (c : ascii) (a b : string) :
  Spec.occurrences c (a ++ b) = (Spec.occurrences c a + Spec.occurrences c b)%nat.
Proof.
  induction a as [|x a IH]; [reflexivity|].
  change (Spec.occurrences c (String x (a ++ b))
          = (Spec.occurrences c (String x a) + Spec.occurrences c b)%nat).
  cbn [Spec.occurrences]. rewrite IH. lia.
Qed.

Lemma occurrences_replace (s : string) :
  Spec.occurrences "," (replace "," ";" s) = 0%nat.
Proof.
  induction s as [|a s IH]; [reflexivity|].
  cbn [replace Spec.occurrences]. rewrite IH.
  destruct (Ascii.eqb a ",") eqn:E; [reflexivity|]. now rewrite E.
Qed.

(** Cells without a comma, joined by commas: one comma less than cells. *)
Lemma occurrences_join (cells : list string) :
  List.Forall (fun cell => Spec.occurrences "," cell = 0%nat) cells ->
  Spec.occurrences "," (join "," cells) = pred (length cells).
Proof.
  induction 1 as [|cell cells Hc _ IH]; [reflexivity|].
  destruct cells as [|cell' cells]; [exact Hc|].
  change (join "," (cell :: cell' :: cells))
    with (cell ++ "," ++ join "," (cell' :: cells))%string.
  rewrite !occurrences_append, Hc, IH. reflexivity.
Qed.

(** Texts joined by a separator: the occurrences of a character in the
    texts, and those in the separators between them. *)
Lemma occurrences_join_sep (c : ascii) (sep : string) (l : list string) :
  Spec.occurrences c (join sep l)
  = (list_sum (List.map (Spec.occurrences c) l)
     + pred (length l) * Spec.occurrences c sep)%nat.
Proof.
  induction l as [|x l IH]; [reflexivity|].
  destruct l as [|y l].
  - cbn [join List.map list_sum fold_right length]. lia.
  - change (join sep (x :: y :: l)) with (x ++ sep ++ join sep (y :: l))%string.
    rewrite !occurrences_append, IH.
    cbn [List.map list_sum fold_right length]. lia.
Qed.

(** Replacing the commas keeps the line feeds. *)
Lemma newlines_replace (s : string) :
  Spec.occurrences Spec.newline (replace "," ";" s)
  = Spec.occurrences Spec.newline s.
Proof.
  induction s as [|a s IH]; [reflexivity|].
  cbn [replace Spec.occurrences]. rewrite IH.
  destruct (Ascii.eqb a ",") eqn:E; [|reflexivity].
  apply Ascii.eqb_eq in E. subst a. reflexivity.
Qed.

Lemma newlines_csv_line (headers : list string) (event : dict) :
  Spec.occurrences Spec.newline (csv_line headers event)
  = Spec.newlines_in_values headers event.
Proof.
  unfold csv_line, Spec.newlines_in_values.
  rewrite occurrences_join_sep, List.map_map.
  change (Spec.occurrences Spec.newline ",") with 0%nat. rewrite Nat.mul_0_r, Nat.add_0_r.
  f_equal. apply List.map_ext. intros h. apply newlines_replace.
Qed.

(** X20.  The CSV export of an empty trail is the text
    "No audit trail found".  Otherwise it is the keys of the first event,
    joined by commas, followed by one record per event, the whole joined by
    line feeds.  A record has exactly one comma fewer than there are keys,
    because the commas inside the values are replaced; the line feeds inside
    the values are kept.  The export therefore holds as many line feeds as
    there are events, plus those inside the keys and the values: it has one
    line per event only when no key and no value holds a line feed.  Every
    format other than "csv" gives the JSON text of the trail. *)
Theorem csv_export_records_and_lines (select_fails : bool) (case_id : string)
    (self : AuditLogger.t) :
  let trail := List.map event_dict (get_audit_trail select_fails case_id self) in
  match trail with
  | [] =>
      export_audit_trail select_fails case_id "csv" self = "No audit trail found"
  | first :: _ =>
      let headers := List.map fst first in
      let record := fun event : dict =>
        join ","
          (List.map
             (fun h => replace "," ";" (str (dict_get event h (VStr ""))))
             headers) in
      export_audit_trail select_fails case_id "csv" self
        = join (String Spec.newline "") (join "," headers :: List.map record trail) /\
      List.Forall
        (fun event => Spec.occurrences "," (record event) = pred (length headers))
        trail /\
      List.Forall
        (fun event => Spec.occurrences Spec.newline (record event)
                      = Spec.newlines_in_values headers event)
        trail /\
      Spec.occurrences Spec.newline
        (export_audit_trail select_fails case_id "csv" self)
        = (length (get_audit_trail select_fails case_id self)
           + Spec.occurrences Spec.newline (join "," headers)
           + list_sum (List.map (Spec.newlines_in_values headers) trail))%nat
  end /\
  (forall fmt, String.eqb fmt "csv" = false ->
     export_audit_trail select_fails case_id fmt self = json_dumps_trail trail).
Proof.
  intros trail. split.
  - unfold export_audit_trail. fold trail. cbn [String.eqb Ascii.eqb Bool.eqb].
    assert (Hlen : length trail = length (get_audit_trail select_fails case_id self))
      by (unfold trail; now rewrite length_map).
    destruct trail as [|first rest]; [reflexivity|].
    cbv zeta. fold (dict_keys first). fold (csv_line (dict_keys first)).
    set (headers := dict_keys first) in *.
    split; [reflexivity|]. split; [|split].
    + apply List.Forall_forall. intros event _. unfold csv_line.
      rewrite occurrences_join; [now rewrite length_map|].
      apply List.Forall_forall. intros cell Hcell. apply in_map_iff in Hcell.
      destruct Hcell as (h & <- & _). apply occurrences_replace.
    + apply List.Forall_forall. intros event _. apply newlines_csv_line.
    + change (Spec.occurrences Spec.newline
                (join (String Spec.newline "")
                   (join "," headers :: List.map (csv_line headers) (first :: rest)))
              = (length (get_audit_trail select_fails case_id self)
                 + Spec.occurrences Spec.newline (join "," headers)
                 + list_sum (List.map (Spec.newlines_in_values headers)
                               (first :: rest)))%nat).
      rewrite occurrences_join_sep.
      change (Spec.occurrences Spec.newline (String Spec.newline "")) with 1%nat.
      cbn [length List.map list_sum fold_right] in *.
      rewrite length_map, List.map_map.
      rewrite (List.map_ext _ _ (newlines_csv_line headers)).
      rewrite newlines_csv_line. cbn [length] in Hlen. lia.
  - intros fmt Hfmt. unfold export_audit_trail. fold trail. rewrite Hfmt.
    now destruct (String.eqb fmt "json").
Qed.

End CsvExport.

(* ===================================================================== *)
(** * The case table and the review of a narrative                       *)
(* ===================================================================== *)

Section CaseReview.
Import AuditTrail CaseStore.

(** X21.  Approving or rejecting a case that has no row in the case
    table (or with no database, or with a failing update) leaves the table
    as it is: the review creates no row.  The approval or rejection is
    still appended to the trail of the case, with the reviewer and the time
    of the call. *)
Theorem review_of_an_unsaved_case_only_logs (rd : Reading) (stamp : Z)
    (update_fails : bool) (case_id user_id reason : string)
    (edited_text : option string) (audit : AuditLogger.t) (store : CaseStore.t) :
  (cases store = None \/ update_fails = true \/
   exists rows, cases store = Some rows /\ rows !! case_id = None) ->
  snd (SARGenerator.approve_narrative rd stamp update_fails case_id user_id
         edited_text (audit, store)) = store /\
  snd (SARGenerator.reject_narrative rd stamp update_fails case_id user_id
         reason (audit, store)) = store /\
  List.map (fun ev => (ev_event_type ev, ev_user_id ev, ev_timestamp ev))
    (default []
       (AuditLogger.in_memory_trail
          (fst (SARGenerator.approve_narrative rd stamp update_fails case_id
                  user_id edited_text (audit, store))) !! case_id))
  = List.map (fun ev => (ev_event_type ev, ev_user_id ev, ev_timestamp ev))
      (default [] (AuditLogger.in_memory_trail audit !! case_id))
    ++ [("approval", user_id, now rd)] /\
  List.map (fun ev => (ev_event_type ev, ev_user_id ev, ev_timestamp ev))
    (default []
       (AuditLogger.in_memory_trail
          (fst (SARGenerator.reject_narrative rd stamp update_fails case_id
                  user_id reason (audit, store))) !! case_id))
  = List.map (fun ev => (ev_event_type ev, ev_user_id ev, ev_timestamp ev))
      (default [] (AuditLogger.in_memory_trail audit !! case_id))
    ++ [("rejection", user_id, now rd)].
Proof.
  intros Hstore.
  assert (Hsame : forall status by_whom,
            update_case_status stamp update_fails case_id status by_whom store = store).
  { intros status by_whom. unfold update_case_status.
    destruct Hstore as [-> | [-> | (rows & -> & ->)]]; [reflexivity| |].
    - now destruct (cases store).
    - now destruct update_fails. }
  unfold SARGenerator.approve_narrative, SARGenerator.reject_narrative.
  cbn [fst snd]. rewrite !Hsame. split; [reflexivity|]. split; [reflexivity|].
  unfold AuditLogger.log_event. cbn [AuditLogger.in_memory_trail].
  rewrite !lookup_insert_eq. cbn [default from_option id].
  rewrite !List.map_app. split; reflexivity.
Qed.


End CaseReview.
(* ===================================================================== *)
(** * The agents and their coordinator                                   *)
(* ===================================================================== *)

Section Coordinator.
Import SarOutput AuditTrail AuditLogger A2A.
Import CoordinatorAgent.
Context `{!Text, !Format, !Calendar, !Digest, !Host}.

Lemma data_agent_outcome (tm : Timing) (case_json : CaseInput) :
  match DataParser.parse_case_input {| DataParser.anonymize := true |} case_json with
  | Raise e =>
      DataEnrichmentAgent.execute tm case_json
      = {| agent_name := "data_enrichment_agent"; status := "failed";
           data := Failed (str_exn e);
           duration := elapsed tm; timestamp := isoformat tm |}
  | Ok case =>
      exists stats patterns risk_score,
        DataParser.calculate_transaction_stats (transactions case) = Ok stats /\
        DataParser.identify_patterns case stats = Ok patterns /\
        DataParser.calculate_risk_score patterns stats case = Ok risk_score /\
        DataEnrichmentAgent.execute tm case_json
        = {| agent_name := "data_enrichment_agent"; status := "completed";
             data := Enriched (case_id case) case stats patterns risk_score;
             duration := elapsed tm; timestamp := isoformat tm |}
  end.
Proof.
  unfold DataEnrichmentAgent.execute. cbv zeta.
  destruct (DataParser.parse_case_input _ case_json) as [case|e]; [|reflexivity].
  destruct (stats_returns (transactions case)) as [stats Hstats].
  assert (Hpatterns : exists patterns,
            DataParser.identify_patterns case stats = Ok patterns).
  { unfold DataParser.identify_patterns. rewrite pattern_findings_parts. eauto. }
  destruct Hpatterns as [patterns Hpatterns].
  destruct (calculate_risk_score_eq patterns stats case) as (v & _ & Hscore & _).
  eexists stats, patterns, _. repeat (split; [eassumption|]).
  cbn [mbind result_bind]. rewrite Hstats. cbn [mbind result_bind].
  rewrite Hpatterns. cbn [mbind result_bind]. rewrite Hscore. reflexivity.
Qed.

Lemma narrative_agent_outcome (new_rag : result RAGEngine.t)
    (new_llm : result LLMOrchestrator.t) (tm : Timing) (payload_case : CaseInput)
    (stats : DataParser.Stats) (patterns : list string) (typology : string)
    (risk_score : Z) (regulatory_context : string) :
  agent_name (NarrativeAgent.execute new_rag new_llm tm payload_case stats
                patterns typology risk_score regulatory_context)
    = "narrative_agent" /\
  (status (NarrativeAgent.execute new_rag new_llm tm payload_case stats
             patterns typology risk_score regulatory_context) = "completed" \/
   status (NarrativeAgent.execute new_rag new_llm tm payload_case stats
             patterns typology risk_score regulatory_context) = "failed").
Proof.
  unfold NarrativeAgent.execute, result_of.
  match goal with |- context [match ?b with Ok _ => _ | Raise _ => _ end] =>
    destruct b end; cbn; auto.
Qed.

(** X30.  A run of the coordinator never raises.  When the case does not
    parse it answers "failed" after the one step of the data agent and logs
    nothing.  When the typology agent fails it answers "failed" after three
    steps, with one event logged.  Otherwise it makes six steps, answers
    "completed" or, when the narrative agent failed, "partial", and logs
    three events, the last one carrying the status of the narrative agent.
    Every event is logged for the id of the parsed case, at the next
    reading of the clock, and under the name of the agent that did the
    step, not under the [user_id] given to the coordinator. *)
Theorem coordinator_steps_and_events (env : Env) (case_json : CaseInput)
    (user_id : string) (self : CoordinatorAgent.t) :
  exists response calls,
    CoordinatorAgent.execute env case_json user_id self
      = (Ok response,
         {| audit_agent :=
              {| AuditAgent.audit :=
                   log_events calls (AuditAgent.audit (audit_agent self)) |};
            pipeline_log := agent_steps response |}) /\
    List.map call_reading calls = List.map (clock env) (seq 0 (length calls)) /\
    match DataParser.parse_case_input {| DataParser.anonymize := true |} case_json with
    | Raise _ =>
        response_status response = "failed" /\
        List.map (fun s => (step_agent s, step_status s)) (agent_steps response)
          = [("data_enrichment_agent", "failed")] /\
        calls = []
    | Ok case =>
        List.Forall (fun c => call_case_id c = case_id case) calls /\
        match typology_rag env with
        | Raise _ =>
            response_status response = "failed" /\
            List.map (fun s => (step_agent s, step_status s)) (agent_steps response)
              = [("data_enrichment_agent", "completed");
                 ("audit_agent", "completed");
                 ("typology_agent", "failed")] /\
            List.map (fun c => (call_event_type c, call_user_id c)) calls
              = [("a2a_data_enrichment", "a2a:data_enrichment_agent")]
        | Ok _ =>
            exists outcome,
              (outcome = "completed" \/ outcome = "failed") /\
              response_status response
                = (if String.eqb outcome "completed" then "completed" else "partial") /\
              List.map (fun s => (step_agent s, step_status s)) (agent_steps response)
                = [("data_enrichment_agent", "completed");
                   ("audit_agent", "completed");
                   ("typology_agent", "completed");
                   ("audit_agent", "completed");
                   ("narrative_agent", outcome);
                   ("audit_agent", "completed")] /\
              List.map (fun c => (call_event_type c, call_user_id c)) calls
                = [("a2a_data_enrichment", "a2a:data_enrichment_agent");
                   ("a2a_typology_classification", "a2a:typology_agent");
                   ("a2a_narrative_generation", "a2a:narrative_agent")] /\
              List.map
                (fun c => dict_get (default [] (input_data (call_payload c)))
                            "status" VNone)
                calls
                = [VNone; VNone; VStr outcome]
        end
    end.
Proof.
  pose proof (data_agent_outcome (timing env 0%nat) case_json) as Hdata.
  unfold CoordinatorAgent.execute.
  set (ledger := AuditAgent.audit (audit_agent self)).
  destruct (DataParser.parse_case_input _ case_json) as [case|e].
  - destruct Hdata as (stats & patterns & risk_score & _ & _ & _ & ->).
    cbv [mbind mret step_bind step_ret lift reset_log append_log read_log
         _log_audit _build_error_response AuditAgent.execute item_case_id
         item_patterns item_case item_stats item_risk_score].
    cbn [status data negb String.eqb Ascii.eqb Bool.eqb].
    unfold TypologyAgent.execute.
    destruct (typology_rag env) as [rag|e].
    + cbv [mbind mret result_bind result_ret].
      match goal with
      | |- context [RAGEngine.identify_typology ?a ?b ?c] =>
          destruct (RAGEngine.identify_typology a b c) as [typology confidence]
      end.
      cbn [result_of status data negb item_typology get_regulatory_context
           String.eqb Ascii.eqb Bool.eqb].
      match goal with
      | |- context [NarrativeAgent.execute ?a ?b ?c ?d ?e ?f ?g ?h ?i] =>
          destruct (narrative_agent_outcome a b c d e f g h i) as [Hname Hstatus];
          set (narrative_result := NarrativeAgent.execute a b c d e f g h i) in *
      end.
      cbn [audit_agent pipeline_log AuditAgent.audit app].
      fold ledger. change ledger with (log_events [] ledger) at 1.
      rewrite !log_event_snoc. cbn [app].
      match goal with
      | |- context [(Ok ?r, {| audit_agent := {| AuditAgent.audit := log_events ?cs ledger |};
                               pipeline_log := ?l |})] =>
          exists r, cs
      end.
      split; [reflexivity|]. split; [reflexivity|].
      split; [repeat constructor|].
      exists (status narrative_result).
      split; [exact Hstatus|]. split; [reflexivity|].
      cbn. rewrite Hname. repeat split.
    + cbv [mbind result_bind].
      cbn [result_of status negb String.eqb Ascii.eqb Bool.eqb audit_agent
           pipeline_log AuditAgent.audit app].
      fold ledger. change ledger with (log_events [] ledger) at 1.
      rewrite !log_event_snoc. cbn [app].
      match goal with
      | |- context [(Ok ?r, {| audit_agent := {| AuditAgent.audit := log_events ?cs ledger |};
                               pipeline_log := ?l |})] =>
          exists r, cs
      end.
      split; [reflexivity|]. split; [reflexivity|].
      split; [repeat constructor|]. repeat split.
  - rewrite Hdata.
    cbv [mbind mret step_bind step_ret lift reset_log append_log read_log
         _build_error_response].
    cbn [status negb String.eqb Ascii.eqb Bool.eqb audit_agent pipeline_log app].
    exists (ErrorResponse "failed" "Data enrichment failed"
              [to_dict {| agent_name := "data_enrichment_agent"; status := "failed";
                          data := Failed (str_exn e);
                          duration := elapsed (timing env 0%nat);
                          timestamp := isoformat (timing env 0%nat) |}]
              (to_dict {| agent_name := "data_enrichment_agent"; status := "failed";
                          data := Failed (str_exn e);
                          duration := elapsed (timing env 0%nat);
                          timestamp := isoformat (timing env 0%nat) |})), [].
    split; [destruct self as [[a] l]; reflexivity|].
    split; [reflexivity|]. repeat split.
Qed.

End Coordinator.

(* ===================================================================== *)
(** * The further properties on sample cases                              *)
(* ===================================================================== *)


Lemma anonymisation_keeps_the_statistics_witness :
  exists anon s s',
    Anonymization.anonymize_case Samples.four_deposits = Ok anon /\
    DataParser.calculate_transaction_stats (transactions Samples.four_deposits) = Ok s /\
    DataParser.calculate_transaction_stats (transactions anon) = Ok s' /\
    DataParser.total_transactions s' = DataParser.total_transactions s /\
    DataParser.total_volume s' = DataParser.total_volume s /\
    DataParser.total_credits s' = DataParser.total_credits s /\
    DataParser.total_debits s' = DataParser.total_debits s /\
    DataParser.credit_count s' = DataParser.credit_count s /\
    DataParser.debit_count s' = DataParser.debit_count s /\
    DataParser.avg_amount s' = DataParser.avg_amount s /\
    DataParser.max_amount s' = DataParser.max_amount s /\
    DataParser.min_amount s' = DataParser.min_amount s /\
    DataParser.date_range_start s' = DataParser.date_range_start s /\
    DataParser.date_range_end s' = DataParser.date_range_end s /\
    DataParser.date_range_days s' = DataParser.date_range_days s /\
    DataParser.transaction_types s' = DataParser.transaction_types s /\
    DataParser.stats_currency s' = DataParser.stats_currency s /\
    (DataParser.unique_originators s' <= DataParser.unique_originators s)%nat /\
    (DataParser.unique_beneficiaries s' <= DataParser.unique_beneficiaries s)%nat.
Proof.
  apply (anonymisation_keeps_the_statistics Samples.four_deposits Samples.four_deposits
           reference_strip_idempotent reference_strip_keeps_tokens).
  vm_compute. reflexivity.
Defined.

Lemma anonymisation_keeps_the_findings_witness :
  exists anon s s' patterns patterns' score score',
    Anonymization.anonymize_case Samples.four_deposits = Ok anon /\
    DataParser.calculate_transaction_stats (transactions Samples.four_deposits) = Ok s /\
    DataParser.calculate_transaction_stats (transactions anon) = Ok s' /\
    DataParser.identify_patterns Samples.four_deposits s = Ok patterns /\
    DataParser.identify_patterns anon s' = Ok patterns' /\
    (forall h, In h Spec.headings -> h <> "Multiple originators: " ->
       Spec.texts_headed h patterns' = Spec.texts_headed h patterns) /\
    (length patterns' <= length patterns)%nat /\
    DataParser.calculate_risk_score patterns s Samples.four_deposits = Ok score /\
    DataParser.calculate_risk_score patterns' s' anon = Ok score' /\
    score' <= score.
Proof.
  apply (anonymisation_keeps_the_findings Samples.four_deposits Samples.four_deposits
           reference_strip_idempotent reference_strip_keeps_tokens).
  vm_compute. reflexivity.
Defined.

Lemma memory_trail_reads_back_what_was_logged_witness :
  AuditLogger.get_audit_trail false "CASE-0042"
    (AuditLogger.log_events Samples.two_calls (AuditLogger.new None))
  = List.map Spec.memory_event (AuditLogger.calls_for "CASE-0042" Samples.two_calls).
Proof.
  apply memory_trail_reads_back_what_was_logged. left. reflexivity.
Defined.


Lemma logging_for_other_cases_changes_nothing_witness :
  AuditLogger.get_audit_trail false "CASE-0077"
    (AuditLogger.log_events Samples.two_calls
       (AuditLogger.new (Some [Samples.earlier_row])))
  = AuditLogger.get_audit_trail false "CASE-0077"
      (AuditLogger.new (Some [Samples.earlier_row])).
Proof.
  apply logging_for_other_cases_changes_nothing. reflexivity.
Defined.

Lemma review_of_an_unsaved_case_only_logs_witness :
  snd (SARGenerator.approve_narrative (Samples.reading 100 100 false) 100 false
         "CASE-0042" "reviewer_01" (Some "edited text")
         (AuditLogger.new (Some []), {| CaseStore.cases := Some ∅ |}))
    = {| CaseStore.cases := Some ∅ |} /\
  snd (SARGenerator.reject_narrative (Samples.reading 100 100 false) 100 false
         "CASE-0042" "reviewer_01" "incomplete"
         (AuditLogger.new (Some []), {| CaseStore.cases := Some ∅ |}))
    = {| CaseStore.cases := Some ∅ |} /\
  List.map (fun ev => (AuditTrail.ev_event_type ev, AuditTrail.ev_user_id ev,
                       AuditTrail.ev_timestamp ev))
    (default []
       (AuditLogger.in_memory_trail
          (fst (SARGenerator.approve_narrative (Samples.reading 100 100 false) 100
                  false "CASE-0042" "reviewer_01" (Some "edited text")
                  (AuditLogger.new (Some []), {| CaseStore.cases := Some ∅ |})))
        !! "CASE-0042"))
  = List.map (fun ev => (AuditTrail.ev_event_type ev, AuditTrail.ev_user_id ev,
                         AuditTrail.ev_timestamp ev))
      (default []
         (AuditLogger.in_memory_trail (AuditLogger.new (Some [])) !! "CASE-0042"))
    ++ [("approval", "reviewer_01",
         AuditTrail.now (Samples.reading 100 100 false))] /\
  List.map (fun ev => (AuditTrail.ev_event_type ev, AuditTrail.ev_user_id ev,
                       AuditTrail.ev_timestamp ev))
    (default []
       (AuditLogger.in_memory_trail
          (fst (SARGenerator.reject_narrative (Samples.reading 100 100 false) 100
                  false "CASE-0042" "reviewer_01" "incomplete"
                  (AuditLogger.new (Some []), {| CaseStore.cases := Some ∅ |})))
        !! "CASE-0042"))
  = List.map (fun ev => (AuditTrail.ev_event_type ev, AuditTrail.ev_user_id ev,
                         AuditTrail.ev_timestamp ev))
      (default []
         (AuditLogger.in_memory_trail (AuditLogger.new (Some [])) !! "CASE-0042"))
    ++ [("rejection", "reviewer_01",
         AuditTrail.now (Samples.reading 100 100 false))].
Proof.
  apply review_of_an_unsaved_case_only_logs.
  right. right. exists ∅. split; [reflexivity | apply lookup_empty].
Defined.


Lemma fallback_narrative_has_the_five_sections_witness :
  dom (LLMOrchestrator._parse_narrative
         (LLMOrchestrator._generate_fallback_narrative Samples.four_deposits
            (Samples.stats_of (transactions Samples.four_deposits))
            ["Structuring: 4 transactions just below INR 1,000,000 reporting threshold"]
            "structuring"))
    = ({["I"; "II"; "III"; "IV"; "V"]} : gset string) /\
  exists narrative callback,
    LLMOrchestrator.generate_narrative Samples.offline_llm Samples.four_deposits
      (Samples.stats_of (transactions Samples.four_deposits))
      ["Structuring: 4 transactions just below INR 1,000,000 reporting threshold"]
      "structuring" 25 "PMLA Section 12" "" = Ok (narrative, callback) /\
    dom (SarOutput.sections narrative)
      = ({["I"; "II"; "III"; "IV"; "V"]} : gset string).
Proof.
  eapply (fallback_narrative_has_the_five_sections Samples.offline_llm);
    [exact reference_search_finds_spelled | reflexivity | reflexivity].
Defined.

Lemma every_red_flag_is_written_out_witness :
  contains "Structuring: 4 transactions just below INR 1,000,000 reporting threshold"
    (LLMOrchestrator._generate_fallback_narrative Samples.four_deposits
       (Samples.stats_of (transactions Samples.four_deposits))
       ["Structuring: 4 transactions just below INR 1,000,000 reporting threshold";
        "Round-number transactions: 4 transactions in exact round amounts"]
       "structuring") = true /\
  contains "Structuring: 4 transactions just below INR 1,000,000 reporting threshold"
    (RAGEngine.build_case_summary Samples.four_deposits
       (Samples.stats_of (transactions Samples.four_deposits))
       ["Structuring: 4 transactions just below INR 1,000,000 reporting threshold";
        "Round-number transactions: 4 transactions in exact round amounts"]) = true /\
  contains "Structuring: 4 transactions just below INR 1,000,000 reporting threshold"
    (Spec.typology_query
       ["Structuring: 4 transactions just below INR 1,000,000 reporting threshold";
        "Round-number transactions: 4 transactions in exact round amounts"]
       (alert_reason Samples.four_deposits)) = true.
Proof.
  apply every_red_flag_is_written_out. left. reflexivity.
Defined.

Lemma generate_logs_six_events_witness :
  exists narrative explainability calls,
    SARGenerator.generate Samples.generator Samples.ticking Samples.four_deposits
      "analyst_01" (AuditLogger.new (Some []))
      = (Ok (narrative, explainability),
         AuditLogger.log_events calls (AuditLogger.new (Some []))) /\
    List.map AuditLogger.call_event_type calls
      = ["data_input"; "analysis"; "pattern_detection"; "rag_retrieval";
         "llm_generation"; "explainability"] /\
    List.map AuditLogger.call_reading calls
      = List.map Samples.ticking [0; 1; 2; 3; 4; 5]%nat /\
    List.Forall
      (fun c => AuditLogger.call_case_id c
                = case_id (Spec.anonymized Samples.four_deposits) /\
                AuditLogger.call_user_id c = "analyst_01")
      calls.
Proof.
  apply generate_logs_six_events.
  - vm_compute. reflexivity.
  - intros args. exact I.
Defined.

Lemma generate_outputs_agree_witness :
  exists narrative explainability audit' stats patterns score,
    SARGenerator.generate Samples.generator Samples.ticking Samples.four_deposits
      "analyst_01" (AuditLogger.new (Some []))
      = (Ok (narrative, explainability), audit') /\
    DataParser.calculate_transaction_stats
      (transactions (Spec.anonymized Samples.four_deposits)) = Ok stats /\
    DataParser.identify_patterns (Spec.anonymized Samples.four_deposits) stats
      = Ok patterns /\
    DataParser.calculate_risk_score patterns stats
      (Spec.anonymized Samples.four_deposits) = Ok score /\
    SarOutput.sar_case_id narrative = case_id (Spec.anonymized Samples.four_deposits) /\
    SarOutput.ex_case_id explainability
      = case_id (Spec.anonymized Samples.four_deposits) /\
    SarOutput.transaction_stats narrative = stats /\
    SarOutput.red_flags narrative = patterns /\
    SarOutput.why_suspicious explainability = patterns /\
    SarOutput.rules_matched explainability = patterns /\
    SarOutput.sar_confidence_score narrative = float_of_Z score /\
    0 <= score <= 100 /\
    (SarOutput.sar_typology narrative, SarOutput.typology_confidence explainability)
      = RAGEngine.identify_typology (SARGenerator.rag Samples.generator) patterns
          (alert_reason (Spec.anonymized Samples.four_deposits)) /\
    SarOutput.typology_matched explainability = SarOutput.sar_typology narrative /\
    SarOutput.sections narrative
      = LLMOrchestrator._parse_narrative (SarOutput.narrative_text narrative) /\
    SarOutput.sar_model_version narrative
      = LLMOrchestrator.model (SARGenerator.llm Samples.generator) /\
    SarOutput.model_reasoning explainability
      = ("Risk score " ++ NilZero.string_of_int (Z.to_int score) ++ "/100 based on "
         ++ str_of_nat (length patterns) ++ " patterns detected")%string.
Proof.
  apply generate_outputs_agree.
  - vm_compute. reflexivity.
  - intros args. exact I.
Defined.
